(** * POS_v1.0: the order lifecycle and persistence engine

    A shallow embedding of the data layer of the coffee-shop point of sale
    ([src/database/db_manager.py], the simplified copy of it in [src/main.py]),
    of the in-memory cart of the three front ends ([src/modules/new_order_tab.py],
    [src/main.py], [src/simple_pos.py]) and of the seed-history generator, with
    the properties of the specification stated and settled over it.

    Conventions of the embedding:
    - Python [int] is [Z]; Python [float] and SQLite [REAL] are IEEE binary64,
      the kernel's primitive [float], with Python's own operators;
    - Python [str] and SQLite [TEXT] are [string] (a sequence of bytes);
    - a table is the list of its rows in rowid order, together with the
      AUTOINCREMENT counter SQLite keeps in [sqlite_sequence];
    - code that talks to the database runs in a small state-and-exception
      monad over the connection's pending view of the database;
    - the wall clock, storage faults and the draws of [random] are inputs. *)

From Stdlib Require Import ZArith List String Ascii Bool Lia Arith.
From Stdlib Require Import Permutation Sorted Mergesort Orders.
From Stdlib Require Import Floats.PrimFloat Floats.SpecFloat Floats.FloatOps.
From Stdlib Require Import Floats.FloatAxioms.
From Stdlib Require Uint63.
Import ListNotations.

#[local] Set Warnings "-inexact-float".
#[local] Open Scope Z_scope.

(** ** Python values *)

(** The exceptions that the modelled code can raise. *)
Inductive exn : Type :=
| OverflowError     (* int too large for a float or for a 64-bit column *)
| IntegrityError    (* sqlite3: a UNIQUE or NOT NULL constraint failed *)
| OperationalError  (* sqlite3: the storage engine failed *)
| IndexError        (* random.choice on an empty sequence *)
| ValueError.       (* list.remove(x): x not in list *)

Inductive result (A : Type) : Type :=
| Ok (a : A)
| Raise (e : exn).
Arguments Ok {A} a.
Arguments Raise {A} e.

Module Py.

(** [float(n)] for a Python int: the nearest binary64 value, ties to even;
    [OverflowError] when that would be infinite. *)
Definition float_of_int (n : Z) : result float :=
  let f := SF2Prim (binary_normalize prec emax n 0 false) in
  if PrimFloat.eqb (PrimFloat.abs f) PrimFloat.infinity
  then Raise OverflowError else Ok f.

(** [n * x] and [x * n] with [n] an int and [x] a float: the int is
    converted first; IEEE multiplication is commutative. *)
Definition mul_int_float (n : Z) (x : float) : result float :=
  match float_of_int n with
  | Ok f => Ok (PrimFloat.mul f x)
  | Raise e => Raise e
  end.

(** [sum(f(item) for item in items)] and the loop [subtotal += item_total]:
    the running total starts at 0, the terms are produced and added from
    left to right, and the first exception of a term ends the call.
    (CPython from 3.12 on carries a compensation term inside [sum]; on
    amounts that add without rounding error, such as the catalog's
    quarter-dollar prices, both give the same float.) *)
Fixpoint sum_from (acc : float) (terms : list (result float)) : result float :=
  match terms with
  | [] => Ok acc
  | Ok t :: rest => sum_from (PrimFloat.add acc t) rest
  | Raise e :: _ => Raise e
  end.

Definition sum (terms : list (result float)) : result float :=
  sum_from PrimFloat.zero terms.

(** Round [n / d] (with [0 <= n], [0 < d]) to the nearest integer, ties to even. *)
Definition round_half_even (n d : Z) : Z :=
  let q := n / d in
  let r := n mod d in
  match 2 * r ?= d with
  | Lt => q
  | Gt => q + 1
  | Eq => if Z.even q then q else q + 1
  end.

(** The built-in [round(x, 2)] on a float, as CPython computes it: the exact
    binary value of [x] is rounded to two decimals, ties to even, and the
    resulting decimal is converted back to the nearest float.  The code
    under study never calls it; it is what the specification compares the
    stored tax with. *)
Definition round2 (x : float) : float :=
  match Prim2SF x with
  | S754_finite s m e =>
      let hundredths :=
        if 0 <=? e then Z.pos m * 2 ^ e * 100
        else round_half_even (Z.pos m * 100) (2 ^ (- e)) in
      match hundredths with
      | Z.pos p =>
          SF2Prim (SFdiv prec emax (S754_finite s p 0) (S754_finite false 100 0))
      | _ => SF2Prim (S754_zero s)
      end
  | _ => x
  end.

(** [values[i]] of a list. *)
Definition index {A : Type} (l : list A) (i : nat) : result A :=
  match nth_error l i with
  | Some a => Ok a
  | None => Raise IndexError
  end.

End Py.

(** The sales-tax rate both the cart display and [create_order] multiply by:
    the float literal [0.08]. *)
Definition TAX_RATE : float := 0.08%float.

(** ** Dates, and the strings [strftime] and [format] build *)

Record date : Type := mkDate { year : Z; month : Z; day : Z }.

Record datetime : Type := mkDatetime {
  dt_date : date;
  hour : Z;
  minute : Z;
  second : Z;
  microsecond : Z
}.

Module Calendar.

Definition is_leap (y : Z) : bool :=
  (y mod 4 =? 0) && (negb (y mod 100 =? 0) || (y mod 400 =? 0)).

Definition days_in_month (y m : Z) : Z :=
  if m =? 2 then (if is_leap y then 29 else 28)
  else if (m =? 4) || (m =? 6) || (m =? 9) || (m =? 11) then 30
  else 31.

(** A date of the proleptic Gregorian calendar, in the years [datetime]
    supports. *)
Definition valid (d : date) : Prop :=
  1 <= year d <= 9999 /\ 1 <= month d <= 12 /\
  1 <= day d <= days_in_month (year d) (month d).

Definition next_day (d : date) : date :=
  if day d <? days_in_month (year d) (month d)
  then mkDate (year d) (month d) (day d + 1)
  else if month d <? 12 then mkDate (year d) (month d + 1) 1
  else mkDate (year d + 1) 1 1.

Definition prev_day (d : date) : date :=
  if 1 <? day d then mkDate (year d) (month d) (day d - 1)
  else if 1 <? month d
       then mkDate (year d) (month d - 1) (days_in_month (year d) (month d - 1))
  else mkDate (year d - 1) 12 31.

(** [d + timedelta(days=n)] and [d - timedelta(days=n)], for [0 <= n]. *)
Definition add_days (d : date) (n : nat) : date := Nat.iter n next_day d.
Definition sub_days (d : date) (n : nat) : date := Nat.iter n prev_day d.

(** Chronological order. *)
Definition lt (a b : date) : Prop :=
  year a < year b \/
  (year a = year b /\ (month a < month b \/ (month a = month b /\ day a < day b))).

End Calendar.

(** The time of day is kept when days are added to a [datetime]. *)
Definition datetime_add_days (t : datetime) (n : nat) : datetime :=
  mkDatetime (Calendar.add_days (dt_date t) n)
             (hour t) (minute t) (second t) (microsecond t).
Definition datetime_sub_days (t : datetime) (n : nat) : datetime :=
  mkDatetime (Calendar.sub_days (dt_date t) n)
             (hour t) (minute t) (second t) (microsecond t).

Module Fmt.

Definition digit (n : Z) : ascii := ascii_of_nat (48 + Z.to_nat (n mod 10)).

(** The last [w] decimal digits of [n], most significant first. *)
Fixpoint digits (w : nat) (n : Z) : list ascii :=
  match w with
  | O => []
  | S w' => digits w' (n / 10) ++ [digit n]
  end.

Fixpoint num_digits_fuel (fuel : nat) (n : Z) : nat :=
  match fuel with
  | O => 1%nat
  | S fuel' => if n <? 10 then 1%nat else S (num_digits_fuel fuel' (n / 10))
  end.

(** The number of decimal digits of [0 <= n]. *)
Definition num_digits (n : Z) : nat := num_digits_fuel (Z.to_nat (Z.log2 n)) n.

(** ["%0wd" % n] and [f"{n:0wd}"] for [0 <= n]: at least [w] digits, zero
    padded on the left. *)
Definition zfill (w : nat) (n : Z) : list ascii :=
  if n <? 10 ^ Z.of_nat w then digits w n else digits (num_digits n) n.

(** [d.strftime('%Y%m%d')].  [%Y] is the year as the C library writes
    it: glibc, under CPython 3.11, does not pad it (["999"] for the year 999),
    while other C libraries write four digits (["0999"]); from the year 1000
    on all of them write the same four digits.  This is glibc's. *)
Definition ymd (d : date) : list ascii :=
  zfill 1 (year d) ++ zfill 2 (month d) ++ zfill 2 (day d).

(** [t.strftime('%Y%m%d%H%M%S')]. *)
Definition ymdhms (t : datetime) : list ascii :=
  ymd (dt_date t) ++ zfill 2 (hour t) ++ zfill 2 (minute t) ++ zfill 2 (second t).

Definition ORD : list ascii := list_ascii_of_string "ORD".

End Fmt.

(** ** The tables of [_init_database] *)

(** [products]; a cart also holds these rows, as the dicts
    [get_products_by_category] returns.  [is_available] is the BOOLEAN column
    that the queries compare with 1. *)
Record product : Type := mkProduct {
  p_id : Z;
  p_name : string;
  p_category : string;
  p_price : float;
  p_description : string;
  p_image_url : string;
  p_is_available : bool
}.

Record customer : Type := mkCustomer {
  c_id : Z;
  c_name : string;
  c_email : string;
  c_phone : string;
  c_loyalty_points : Z
}.

(** One selected customization; the [customizations] column holds the JSON
    text of a list of them, kept here as the list that text encodes. *)
Definition customization : Type := string.

Record order_row : Type := mkOrder {
  o_id : Z;
  o_customer_id : option Z;
  o_order_number : string;
  o_subtotal : float;
  o_tax : float;
  o_total : float;
  o_payment_method : string;
  o_status : string;
  o_cashier_name : string;
  o_created_at : datetime
}.

Record order_item_row : Type := mkOrderItem {
  oi_id : Z;
  oi_order_id : Z;
  oi_product_id : Z;
  oi_quantity : Z;
  oi_unit_price : float;
  oi_customizations : option (list customization)
}.

Record inventory_row : Type := mkInventory {
  i_id : Z;
  i_product_id : Z;
  i_current_stock : Z;
  i_min_stock : Z;
  i_max_stock : Z
}.

(** The database file: each table in rowid order, and for the two tables the
    order paths write, the largest rowid ever used ([sqlite_sequence]). *)
Record db : Type := mkDb {
  products : list product;
  customers : list customer;
  orders : list order_row;
  order_items : list order_item_row;
  inventory : list inventory_row;
  orders_seq : Z;
  order_items_seq : Z
}.

Definition empty_db : db := mkDb [] [] [] [] [] 0 0.

(** ** Connections and cursors *)

(** What a run takes from outside: the local wall clock [datetime.now()]
    reads, the UTC clock behind [CURRENT_TIMESTAMP], which statements of the
    connection the storage engine fails (numbered from 0), and the raw draws
    of the [random] module's generator. *)
Record env : Type := mkEnv {
  now : datetime;
  utc_now : datetime;
  fault : nat -> bool;
  tape : nat -> Z
}.

(** A connection with its cursor: the database as committed, the view with
    the open transaction's writes, [cursor.lastrowid], the number of
    statements executed and the number of random draws taken. *)
Record world : Type := mkWorld {
  committed : db;
  pending : db;
  lastrowid : Z;
  statements : nat;
  draws : nat
}.

Definition M (A : Type) : Type := env -> world -> world * result A.

Definition ret {A : Type} (a : A) : M A := fun _ w => (w, Ok a).

Definition raise {A : Type} (x : exn) : M A := fun _ w => (w, Raise x).

Definition bind {A B : Type} (c : M A) (k : A -> M B) : M B :=
  fun e w =>
    match c e w with
    | (w', Ok a) => k a e w'
    | (w', Raise x) => (w', Raise x)
    end.

Notation "x <- c ;; k" := (bind c (fun x => k))
  (at level 61, c at next level, right associativity).
Notation "c ;;; k" := (bind c (fun _ => k))
  (at level 61, right associativity).

(** A pure computation that may raise. *)
Definition lift {A : Type} (r : result A) : M A := fun _ w => (w, r).

(** [for x in xs: body(x)]. *)
Fixpoint for_each {A : Type} (xs : list A) (body : A -> M unit) : M unit :=
  match xs with
  | [] => ret tt
  | x :: rest => body x ;;; for_each rest body
  end.

Definition connect (d : db) : world := mkWorld d d 0 0 0.

(** [cursor.execute(...)]: the storage engine may fail the statement; else
    the statement runs on the pending view.  A statement returns the rowid it
    inserted, if any, which becomes [cursor.lastrowid]. *)
Definition execute {A : Type} (stmt : db -> result (db * A * option Z)) : M A :=
  fun e w =>
    let w1 := mkWorld (committed w) (pending w) (lastrowid w)
                      (S (statements w)) (draws w) in
    if fault e (statements w) then (w1, Raise OperationalError)
    else match stmt (pending w) with
         | Ok (d', a, rowid) =>
             (mkWorld (committed w) d'
                      (match rowid with Some r => r | None => lastrowid w end)
                      (S (statements w)) (draws w), Ok a)
         | Raise x => (w1, Raise x)
         end.

Definition get_lastrowid : M Z := fun _ w => (w, Ok (lastrowid w)).

Definition datetime_now : M datetime := fun e w => (w, Ok (now e)).

(** [conn.commit()]: the pending view becomes the committed database, in
    one step; when the storage engine fails the commit, nothing of the
    transaction is committed. *)
Definition commit : M unit :=
  fun e w =>
    if fault e (statements w)
    then (mkWorld (committed w) (pending w) (lastrowid w)
                  (S (statements w)) (draws w), Raise OperationalError)
    else (mkWorld (pending w) (pending w) (lastrowid w)
                  (S (statements w)) (draws w), Ok tt).

(** [with sqlite3.connect(path) as conn: body]: leaving the block commits the
    transaction when the body returned and rolls it back when it raised.  The
    result is the database file afterwards and the outcome of the body. *)
Definition with_connection {A : Type} (body : M A) (e : env) (d : db)
  : db * result A :=
  match body e (connect d) with
  | (w, Ok a) => (pending w, Ok a)
  | (w, Raise x) => (committed w, Raise x)
  end.

(** [conn = sqlite3.connect(path); body; conn.close()], as [src/main.py] has
    it: nothing is committed but by [conn.commit()], and a connection that is
    closed or dropped with a transaction open loses that transaction. *)
Definition plain_connection {A : Type} (body : M A) (e : env) (d : db)
  : db * result A :=
  match body e (connect d) with
  | (w, r) => (committed w, r)
  end.

(** ** The cart ([current_order]) *)

(** A line of the cart: the dict [{'product': ..., 'quantity': ...,
    'customizations': [...]}] of [new_order_tab.py].  [main.py] has no
    [customizations] key and [simple_pos.py] keeps the product's id, name and
    price flat in the line; their lines are the ones with an empty list. *)
Record line : Type := mkLine {
  l_product : product;
  l_quantity : Z;
  l_customizations : list customization
}.

Definition cart : Type := list line.

Module Cart.

(** [_add_to_order] / [add_to_order]: the [for ... else] loop.  The first
    line whose product id equals the product's gets [quantity += 1] and the
    loop breaks; when the loop ends without a break the new line is
    appended. *)
Fixpoint add_to_order (p : product) (c : cart) : cart :=
  match c with
  | [] => [mkLine p 1 []]
  | l :: rest =>
      if p_id (l_product l) =? p_id p
      then mkLine (l_product l) (l_quantity l + 1) (l_customizations l) :: rest
      else l :: add_to_order p rest
  end.

(** [remove_from_order(product_id)] of [main.py] and [simple_pos.py]: the
    list comprehension keeps the lines of every other product. *)
Definition remove_from_order (product_id : Z) (c : cart) : cart :=
  filter (fun l => negb (p_id (l_product l) =? product_id)) c.

(** [==] on two product dicts and on two lines: key by key. *)
Definition product_eqb (a b : product) : bool :=
  (p_id a =? p_id b) && String.eqb (p_name a) (p_name b)
  && String.eqb (p_category a) (p_category b)
  && PrimFloat.eqb (p_price a) (p_price b)
  && String.eqb (p_description a) (p_description b)
  && String.eqb (p_image_url a) (p_image_url b)
  && Bool.eqb (p_is_available a) (p_is_available b).

Fixpoint customizations_eqb (a b : list customization) : bool :=
  match a, b with
  | [], [] => true
  | x :: a', y :: b' => String.eqb x y && customizations_eqb a' b'
  | _, _ => false
  end.

Definition line_eqb (a b : line) : bool :=
  product_eqb (l_product a) (l_product b)
  && (l_quantity a =? l_quantity b)
  && customizations_eqb (l_customizations a) (l_customizations b).

(** [current_order.remove(item)] of [new_order_tab.py]: the first line
    equal to [item] is deleted; [ValueError] when there is none. *)
Fixpoint list_remove (item : line) (c : cart) : result cart :=
  match c with
  | [] => Raise ValueError
  | l :: rest =>
      if line_eqb l item then Ok rest
      else match list_remove item rest with
           | Ok rest' => Ok (l :: rest')
           | Raise x => Raise x
           end
  end.

(** [_remove_from_order(item)]: an exception leaves the cart as it was. *)
Definition remove_item (item : line) (c : cart) : cart :=
  match list_remove item c with
  | Ok c' => c'
  | Raise _ => c
  end.

(** [clear_order]: [current_order.clear()]. *)
Definition clear_order (c : cart) : cart := [].

(** The totals of [_update_totals] / [update_order_display], before they
    are formatted for the labels. *)
Record totals : Type := mkTotals { subtotal : float; tax : float; total : float }.

Definition update_totals (c : cart) : result totals :=
  match Py.sum (map (fun l => Py.mul_int_float (l_quantity l) (p_price (l_product l))) c) with
  | Ok subtotal =>
      let tax := PrimFloat.mul subtotal TAX_RATE in
      let total := PrimFloat.add subtotal tax in
      Ok (mkTotals subtotal tax total)
  | Raise x => Raise x
  end.

(** What the operator can do to the cart. *)
Inductive op : Type :=
| Add (p : product)          (* click on a product card *)
| Remove (product_id : Z)    (* the remove button, [main.py], [simple_pos.py] *)
| RemoveItem (item : line)   (* the remove button, [new_order_tab.py] *)
| Clear.                     (* clear order, or payment processed *)

Definition step (c : cart) (o : op) : cart :=
  match o with
  | Add p => add_to_order p c
  | Remove product_id => remove_from_order product_id c
  | RemoveItem item => remove_item item c
  | Clear => clear_order c
  end.

(** The cart after a sequence of operations on the empty cart
    ([self.current_order = []]). *)
Definition run (ops : list op) : cart := fold_left step ops [].

(** The invariant of the cart. *)
Definition distinct_products (c : cart) : Prop :=
  NoDup (map (fun l => p_id (l_product l)) c).

Definition positive_quantities (c : cart) : Prop :=
  Forall (fun l => 1 <= l_quantity l) c.

(** The lines of a product. *)
Definition lines_of (product_id : Z) (c : cart) : list line :=
  filter (fun l => p_id (l_product l) =? product_id) c.

End Cart.

(** ** Writing orders *)

(** An element of [order_items], the argument of [create_order]: a dict with
    the keys [product_id], [quantity], [unit_price] and, optionally,
    [customizations]. *)
Record order_item : Type := mkItem {
  product_id : Z;
  quantity : Z;
  unit_price : float;
  customizations : option (list customization)
}.

Module Sql.

(** An INTEGER column holds a signed 64-bit value; binding a larger Python
    int raises [OverflowError]. *)
Definition in_int64 (z : Z) : bool := (- 2 ^ 63 <=? z) && (z <? 2 ^ 63).

Definition opt_in_int64 (z : option Z) : bool :=
  match z with Some v => in_int64 v | None => true end.

Definition list_max (ids : list Z) : Z := fold_right Z.max 0 ids.

(** INTEGER PRIMARY KEY AUTOINCREMENT: one more than the largest rowid the
    table has ever held. *)
Definition next_rowid (seq : Z) (ids : list Z) : Z :=
  Z.max seq (list_max ids) + 1.

(** [INSERT INTO orders (...)].  A NaN is bound as NULL, which the NOT NULL
    columns refuse; [order_number] is UNIQUE; [status] takes its default.
    The row holds the floats as they were bound.  SQLite writes a REAL
    without a fractional part as an integer and reads it back as a float,
    which changes one value only: a bound [-0.0] is read back as [0.0].  So
    what is read of a REAL column equals what the row holds as [==] has it,
    and a statement about what is read compares with [PrimFloat.eqb]. *)
Definition insert_order (customer_id : option Z) (order_number : string)
    (subtotal tax total : float) (payment_method cashier_name : string)
    (created_at : datetime) (d : db) : result (db * unit * option Z) :=
  if negb (opt_in_int64 customer_id) then Raise OverflowError
  else if PrimFloat.is_nan subtotal || PrimFloat.is_nan tax || PrimFloat.is_nan total
  then Raise IntegrityError
  else if existsb (fun o => String.eqb (o_order_number o) order_number) (orders d)
  then Raise IntegrityError
  else
    let id := next_rowid (orders_seq d) (map o_id (orders d)) in
    if negb (in_int64 id) then Raise OperationalError
    else
      let row := mkOrder id customer_id order_number subtotal tax total
                         payment_method "completed" cashier_name created_at in
      Ok (mkDb (products d) (customers d) (orders d ++ [row]) (order_items d)
               (inventory d) id (order_items_seq d),
          tt, Some id).

(** [INSERT INTO order_items (...)].  Foreign keys are declared but SQLite
    does not enforce them unless asked to, and the code does not ask. *)
Definition insert_order_item (order_id product_id quantity : Z)
    (unit_price : float) (customizations : option (list customization))
    (d : db) : result (db * unit * option Z) :=
  if negb (in_int64 order_id && in_int64 product_id && in_int64 quantity)
  then Raise OverflowError
  else if PrimFloat.is_nan unit_price then Raise IntegrityError
  else
    let id := next_rowid (order_items_seq d) (map oi_id (order_items d)) in
    if negb (in_int64 id) then Raise OperationalError
    else
      let row := mkOrderItem id order_id product_id quantity unit_price
                             customizations in
      Ok (mkDb (products d) (customers d) (orders d) (order_items d ++ [row])
               (inventory d) (orders_seq d) id,
          tt, Some id).

(** [SELECT id, price FROM products] and [SELECT id FROM customers]. *)
Definition select_product_prices (d : db) : result (db * list (Z * float) * option Z) :=
  Ok (d, map (fun p => (p_id p, p_price p)) (products d), None).

Definition select_customer_ids (d : db) : result (db * list Z * option Z) :=
  Ok (d, map c_id (customers d), None).

End Sql.

Definition current_timestamp : M datetime := fun e w => (w, Ok (utc_now e)).

(** The order number of [create_order]: [f"ORD{datetime.now():%Y%m%d%H%M%S}"]. *)
Definition order_number_of (t : datetime) : string :=
  string_of_list_ascii (Fmt.ORD ++ Fmt.ymdhms t).

(** [subtotal], with [tax] and [total] after it, as [create_order] computes
    them from its argument. *)
Definition order_subtotal (order_items : list order_item) : result float :=
  Py.sum (map (fun item => Py.mul_int_float (quantity item) (unit_price item))
              order_items).

Definition order_tax (subtotal : float) : float := PrimFloat.mul subtotal TAX_RATE.

Definition order_total (subtotal : float) : float :=
  PrimFloat.add subtotal (order_tax subtotal).

Module DbManager.

(** The body of [DatabaseManager.create_order] in
    [src/database/db_manager.py], inside its [with] block. *)
Definition create_order_body (customer_id : option Z)
    (order_items : list order_item) (payment_method cashier_name : string)
  : M Z :=
  subtotal <- lift (order_subtotal order_items) ;;
  let tax := order_tax subtotal in
  let total := order_total subtotal in
  t <- datetime_now ;;
  let order_number := order_number_of t in
  created_at <- current_timestamp ;;
  execute (Sql.insert_order customer_id order_number subtotal tax total
                            payment_method cashier_name created_at) ;;;
  order_id <- get_lastrowid ;;
  for_each order_items (fun item =>
    let customizations :=
      match customizations item with Some cs => cs | None => [] end in
    execute (Sql.insert_order_item order_id (product_id item) (quantity item)
                                   (unit_price item) (Some customizations))) ;;;
  commit ;;;
  ret order_id.

Definition create_order (customer_id : option Z)
    (order_items : list order_item) (payment_method cashier_name : string)
    (e : env) (d : db) : db * result Z :=
  with_connection
    (create_order_body customer_id order_items payment_method cashier_name) e d.

End DbManager.

Module Main.

(** [DatabaseManager.create_order] of [src/main.py]: no customer, no
    customizations, and a connection that is opened and closed by hand. *)
Definition create_order_body (order_items : list order_item)
    (payment_method cashier_name : string) : M Z :=
  subtotal <- lift (order_subtotal order_items) ;;
  let tax := order_tax subtotal in
  let total := order_total subtotal in
  t <- datetime_now ;;
  let order_number := order_number_of t in
  created_at <- current_timestamp ;;
  execute (Sql.insert_order None order_number subtotal tax total
                            payment_method cashier_name created_at) ;;;
  order_id <- get_lastrowid ;;
  for_each order_items (fun item =>
    execute (Sql.insert_order_item order_id (product_id item) (quantity item)
                                   (unit_price item) None)) ;;;
  commit ;;;
  ret order_id.

Definition create_order (order_items : list order_item)
    (payment_method cashier_name : string) (e : env) (d : db)
  : db * result Z :=
  plain_connection (create_order_body order_items payment_method cashier_name) e d.

(** The [order_items] that [process_payment] builds from the cart. *)
Definition order_items_of (current_order : cart) : list order_item :=
  map (fun l => mkItem (p_id (l_product l)) (l_quantity l)
                       (p_price (l_product l)) None) current_order.

(** [NewOrderPanel.process_payment]: nothing happens on an empty cart;
    otherwise the cart is turned into [order_items], saved, and cleared.
    The result is the database, the cart, and the new order's id if one
    was made. *)
Definition process_payment (current_order : cart) (e : env) (d : db)
  : db * cart * result (option Z) :=
  match current_order with
  | [] => (d, current_order, Ok None)
  | _ =>
      let order_items := order_items_of current_order in
      match create_order order_items "cash" "Jane Doe" e d with
      | (d', Ok order_id) => (d', Cart.clear_order current_order, Ok (Some order_id))
      | (d', Raise x) => (d', current_order, Raise x)
      end
  end.

End Main.

(** ** Reading the catalog and the stock *)

(** The three orders the queries sort by.  [ORDER BY name]: TEXT compares
    byte by byte, a proper prefix first. *)
Definition by_name (a b : product) : bool := String.leb (p_name a) (p_name b).

(** [ORDER BY category, name]. *)
Definition by_category_name (a b : product) : bool :=
  match String.compare (p_category a) (p_category b) with
  | Lt => true
  | Eq => String.leb (p_name a) (p_name b)
  | Gt => false
  end.

(** A row of the low-stock report: [p.name, i.current_stock, i.min_stock]. *)
Record low_stock_row : Type := mkLowStock {
  ls_name : string;
  ls_current_stock : Z;
  ls_min_stock : Z
}.

(** [ORDER BY i.current_stock]. *)
Definition by_stock (a b : low_stock_row) : bool :=
  ls_current_stock a <=? ls_current_stock b.

Lemma by_name_total : forall a b, by_name a b = true \/ by_name b a = true.
Proof. intros a b. apply String.leb_total. Qed.

Lemma by_category_name_total :
  forall a b, by_category_name a b = true \/ by_category_name b a = true.
Proof.
  intros a b. unfold by_category_name.
  rewrite (String.compare_antisym (p_category b) (p_category a)).
  destruct (String.compare (p_category a) (p_category b)); simpl; auto.
  apply String.leb_total.
Qed.

Lemma by_stock_total : forall a b, by_stock a b = true \/ by_stock b a = true.
Proof. intros a b. unfold by_stock. rewrite !Z.leb_le. lia. Qed.

Module ByName <: TotalLeBool.
Definition t : Type := product.
Definition leb : t -> t -> bool := by_name.
Definition leb_total := by_name_total.
End ByName.

Module ByCategoryName <: TotalLeBool.
Definition t : Type := product.
Definition leb : t -> t -> bool := by_category_name.
Definition leb_total := by_category_name_total.
End ByCategoryName.

Module ByStock <: TotalLeBool.
Definition t : Type := low_stock_row.
Definition leb : t -> t -> bool := by_stock.
Definition leb_total := by_stock_total.
End ByStock.

Module SortByName := Sort ByName.
Module SortByCategoryName := Sort ByCategoryName.
Module SortByStock := Sort ByStock.

Module Catalog.

(** [WHERE category = ? AND is_available = 1]. *)
Definition in_category (category : string) (p : product) : bool :=
  String.eqb (p_category p) category && p_is_available p.

(** [get_products_by_category] of [src/database/db_manager.py]: one query
    for every value of [category]. *)
Definition get_products_by_category (category : string) (d : db) : list product :=
  SortByName.sort (filter (in_category category) (products d)).

(** [get_products_by_category] of [src/main.py], which reads ["All"] as
    every category. *)
Definition get_products_by_category_main (category : string) (d : db)
  : list product :=
  if String.eqb category "All"
  then SortByCategoryName.sort (filter p_is_available (products d))
  else SortByName.sort (filter (in_category category) (products d)).

End Catalog.

Module Inventory.

(** [products p JOIN inventory i ON p.id = i.product_id
    WHERE i.current_stock <= i.min_stock]. *)
Definition low_stock_join (d : db) : list low_stock_row :=
  flat_map
    (fun p =>
       map (fun i => mkLowStock (p_name p) (i_current_stock i) (i_min_stock i))
           (filter (fun i => (p_id p =? i_product_id i)
                             && (i_current_stock i <=? i_min_stock i))
                   (inventory d)))
    (products d).

(** [get_low_stock_items]. *)
Definition get_low_stock_items (d : db) : list low_stock_row :=
  SortByStock.sort (low_stock_join d).

End Inventory.

(** ** The [random] module *)

Module Random.

(** The next raw draw of the generator. *)
Definition draw : M Z :=
  fun e w =>
    (mkWorld (committed w) (pending w) (lastrowid w) (statements w) (S (draws w)),
     Ok (tape e (draws w))).

(** [_randbelow(n)]: any of [0 .. n-1]. *)
Definition randbelow (n : Z) : M Z := r <- draw ;; ret (r mod n).

(** [random.randint(a, b)]: any of [a .. b]. *)
Definition randint (a b : Z) : M Z := r <- randbelow (b - a + 1) ;; ret (a + r).

(** [random.random()]: 53 random bits, as a float, scaled into [0, 1). *)
Definition random : M float :=
  r <- draw ;;
  ret (PrimFloat.mul (PrimFloat.of_uint63 (Uint63.of_Z (r mod 2 ^ 53)))
                     0x1p-53%float).

(** [random.choice(seq)]. *)
Definition choice {A : Type} (seq : list A) : M A :=
  match seq with
  | [] => raise IndexError
  | _ => i <- randbelow (Z.of_nat (List.length seq)) ;; lift (Py.index seq (Z.to_nat i))
  end.

(** [random.sample(population, k)]: [k] draws without replacement, each
    from what is left of the population. *)
Fixpoint sample_from {A : Type} (pool : list A) (k : nat) : M (list A) :=
  match k with
  | O => ret []
  | S k' =>
      j <- randbelow (Z.of_nat (List.length pool)) ;;
      x <- lift (Py.index pool (Z.to_nat j)) ;;
      rest <- sample_from (firstn (Z.to_nat j) pool ++ skipn (S (Z.to_nat j)) pool) k' ;;
      ret (x :: rest)
  end.

Definition sample {A : Type} (population : list A) (k : Z) : M (list A) :=
  if (k <? 0) || (Z.of_nat (List.length population) <? k) then raise ValueError
  else sample_from population (Z.to_nat k).

End Random.

(** [range(n)]. *)
Definition range (n : Z) : list Z := map Z.of_nat (seq 0 (Z.to_nat n)).

(** ** The seed history ([_generate_dummy_orders]) *)

Module Seed.

Definition payment_methods : list string := ["cash"; "card"; "mobile"]%string.
Definition cashiers : list string :=
  ["Jane Doe"; "John Cashier"; "Alice Brown"]%string.

(** [f"ORD{order_date.strftime('%Y%m%d')}{order_num:03d}"]. *)
Definition order_number_of (order_date : datetime) (order_num : Z) : string :=
  string_of_list_ascii
    (Fmt.ORD ++ Fmt.ymd (dt_date order_date) ++ Fmt.zfill 3 order_num).

(** [for product_id, price in selected_products: ...], with the running
    [subtotal] and the list [order_items] it appends to. *)
Fixpoint items_loop (selected_products : list (Z * float)) (subtotal : float)
    (order_items : list (Z * Z * float)) : M (float * list (Z * Z * float)) :=
  match selected_products with
  | [] => ret (subtotal, order_items)
  | (product_id, price) :: rest =>
      quantity <- Random.randint 1 3 ;;
      item_total <- lift (Py.mul_int_float quantity price) ;;
      items_loop rest (PrimFloat.add subtotal item_total)
                 (order_items ++ [(product_id, quantity, price)])
  end.

(** The body of [for order_num in range(daily_orders)]. *)
Definition generate_order (products : list (Z * float)) (customers : list Z)
    (order_date : datetime) (order_num : Z) : M unit :=
  let order_number := order_number_of order_date order_num in
  r <- Random.random ;;
  customer_id <- (if PrimFloat.ltb r 0.7%float
                  then c <- Random.choice customers ;; ret (Some c)
                  else ret None) ;;
  num_items <- Random.randint 1 4 ;;
  selected_products <-
    Random.sample products (Z.min num_items (Z.of_nat (List.length products))) ;;
  totals <- items_loop selected_products PrimFloat.zero [] ;;
  let subtotal := fst totals in
  let order_items := snd totals in
  let tax := PrimFloat.mul subtotal TAX_RATE in
  let total := PrimFloat.add subtotal tax in
  payment_method <- Random.choice payment_methods ;;
  cashier <- Random.choice cashiers ;;
  execute (Sql.insert_order customer_id order_number subtotal tax total
                            payment_method cashier order_date) ;;;
  order_id <- get_lastrowid ;;
  for_each order_items (fun item =>
    match item with
    | (product_id, quantity, unit_price) =>
        execute (Sql.insert_order_item order_id product_id quantity unit_price None)
    end).

(** The body of [for day in range(30)]. *)
Definition generate_day (products : list (Z * float)) (customers : list Z)
    (start_date : datetime) (day : nat) : M unit :=
  let order_date := datetime_add_days start_date day in
  daily_orders <- Random.randint 5 15 ;;
  for_each (range daily_orders) (generate_order products customers order_date).

Definition generate_dummy_orders : M unit :=
  products <- execute Sql.select_product_prices ;;
  customers <- execute Sql.select_customer_ids ;;
  t <- datetime_now ;;
  let start_date := datetime_sub_days t 30 in
  for_each (seq 0 30) (generate_day products customers start_date).

End Seed.

(** ** What the statements below observe of the database *)

(** The stored OrderItem rows of an order. *)
Definition items_of_order (order_id : Z) (d : db) : list order_item_row :=
  filter (fun r => oi_order_id r =? order_id) (order_items d).

(** The stored Order rows with a given id. *)
Definition orders_with_id (order_id : Z) (d : db) : list order_row :=
  filter (fun o => o_id o =? order_id) (orders d).

(** The largest order id handed out so far. *)
Definition max_order_id (d : db) : Z :=
  Z.max (orders_seq d) (Sql.list_max (map o_id (orders d))).

(** Every OrderItem row refers to an order id that has been handed out: the
    state of a database that only the code above has written to. *)
Definition referential (d : db) : Prop :=
  Forall (fun r => oi_order_id r <= max_order_id d) (order_items d).

(** What a stored OrderItem row carries of a submitted line item. *)
Definition item_of_row (r : order_item_row) : Z * Z * float :=
  (oi_product_id r, oi_quantity r, oi_unit_price r).

Definition item_of_request (i : order_item) : Z * Z * float :=
  (product_id i, quantity i, unit_price i).

(** The stored order [order_id] is what was submitted: one Order row has
    that id, with the subtotal, tax and total computed from the line items,
    and the order's OrderItem rows are the line items, one row each and in
    order, with their product id, quantity and unit price. *)
Definition stored_as_submitted (order_items0 : list order_item) (d : db)
    (order_id : Z) : Prop :=
  exists o subtotal,
    orders_with_id order_id d = [o] /\
    order_subtotal order_items0 = Ok subtotal /\
    o_subtotal o = subtotal /\
    o_tax o = order_tax subtotal /\
    o_total o = order_total subtotal /\
    List.length (items_of_order order_id d) = List.length order_items0 /\
    map item_of_row (items_of_order order_id d) = map item_of_request order_items0.

(** The calendar day an order was created on. *)
Definition created_on (o : order_row) : date := dt_date (o_created_at o).

Definition date_eqb (a b : date) : bool :=
  (year a =? year b) && (month a =? month b) && (day a =? day b).

Definition orders_on (on : date) (d : db) : list order_row :=
  filter (fun o => date_eqb (created_on o) on) (orders d).

(** The line items of a seeded order: between one and four rows, of
    different products, each of quantity 1 to 3. *)
Definition good_items (rows : list order_item_row) : Prop :=
  (1 <= List.length rows <= 4)%nat /\
  NoDup (map oi_product_id rows) /\
  Forall (fun r => 1 <= oi_quantity r <= 3) rows.

(** The database as [_populate_dummy_data] hands it to
    [_generate_dummy_orders]: a catalog of at least one product, with
    distinct 64-bit ids and prices that are numbers not below zero; at least
    one customer; and order tables that have never been written to. *)
Definition seedable (d : db) : Prop :=
  products d <> [] /\
  NoDup (map p_id (products d)) /\
  Forall (fun p => Sql.in_int64 (p_id p) = true /\
                   PrimFloat.leb 0 (p_price p) = true) (products d) /\
  customers d <> [] /\
  Forall (fun c => Sql.in_int64 (c_id c) = true) (customers d) /\
  orders d = [] /\ order_items d = [] /\
  orders_seq d = 0 /\ order_items_seq d = 0.

(** The days of the seed history: the 30 days that end the day before
    [now]. *)
Definition history_day (t : datetime) (i : nat) : date :=
  Calendar.add_days (Calendar.sub_days (dt_date t) 30) i.

Definition history_days (t : datetime) : list date :=
  map (history_day t) (seq 0 30).

(** A [datetime] as [datetime.now()] and [CURRENT_TIMESTAMP] give it: a date
    of the calendar with a time of day. *)
Definition valid_datetime (t : datetime) : Prop :=
  Calendar.valid (dt_date t) /\
  0 <= hour t < 24 /\ 0 <= minute t < 60 /\ 0 <= second t < 60 /\
  0 <= microsecond t < 1000000.

(** ** The sales report ([get_daily_sales]) *)

(** [DATE(created_at)]: the day, as the text [YYYY-MM-DD]. *)
Definition sql_date (d : date) : string :=
  string_of_list_ascii
    (Fmt.zfill 4 (year d) ++ "-"%char :: Fmt.zfill 2 (month d)
       ++ "-"%char :: Fmt.zfill 2 (day d)).

(** A number of the report: an [int] or a [float]. *)
Inductive number : Type :=
| Int (z : Z)
| Float (x : float).

(** [x or 0] on a REAL of the aggregate row: NULL ([None]) and a zero of
    either sign give the int [0]; every other float, a NaN too, is kept. *)
Definition or_zero (x : option float) : number :=
  match x with
  | None => Int 0
  | Some f => if PrimFloat.eqb f 0 then Int 0 else Float f
  end.

Record daily_sales : Type := mkDailySales {
  order_count : Z;
  total_sales : number;
  total_tax : number;
  avg_order_value : number
}.

Section Report.

(** What SQLite's [SUM] makes of the REAL values of the rows, taken in rowid
    order.  How it adds them up (plainly, or with a compensation term)
    depends on the version of SQLite, and is left open. *)
Variable sql_sum : list float -> float.

(** [AVG]: the sum divided by the number of rows. *)
Definition sql_avg (xs : list float) : float :=
  PrimFloat.div (sql_sum xs)
                (PrimFloat.of_uint63 (Uint63.of_Z (Z.of_nat (List.length xs)))).

(** An aggregate over no rows is NULL. *)
Definition aggregate (f : list float -> float) (xs : list float) : option float :=
  match xs with
  | [] => None
  | _ => Some (f xs)
  end.

(** [get_daily_sales(date)]: the one row of
    [SELECT COUNT( * ), SUM(total), SUM(tax), AVG(total) FROM orders
     WHERE DATE(created_at) = ?], each column passed through [or 0]. *)
Definition get_daily_sales (date : string) (d : db) : daily_sales :=
  let rows :=
    filter (fun o => String.eqb (sql_date (created_on o)) date) (orders d) in
  mkDailySales (Z.of_nat (List.length rows))
               (or_zero (aggregate sql_sum (map o_total rows)))
               (or_zero (aggregate sql_sum (map o_tax rows)))
               (or_zero (aggregate sql_avg (map o_total rows))).

End Report.

(** ** Product options ([get_product_options]) *)

(** A row of [product_options]; [product_id] and [price_modifier] may be
    NULL. *)
Record product_option : Type := mkOption {
  po_id : Z;
  po_product_id : option Z;
  po_option_name : string;
  po_option_value : string;
  po_price_modifier : option float
}.

(** [ORDER BY option_name, option_value]. *)
Definition by_option (a b : product_option) : bool :=
  match String.compare (po_option_name a) (po_option_name b) with
  | Lt => true
  | Eq => String.leb (po_option_value a) (po_option_value b)
  | Gt => false
  end.

Lemma by_option_total : forall a b, by_option a b = true \/ by_option b a = true.
Proof.
  intros a b. unfold by_option.
  rewrite (String.compare_antisym (po_option_name b) (po_option_name a)).
  destruct (String.compare (po_option_name a) (po_option_name b)); simpl; auto.
  apply String.leb_total.
Qed.

Module ByOption <: TotalLeBool.
Definition t : Type := product_option.
Definition leb : t -> t -> bool := by_option.
Definition leb_total := by_option_total.
End ByOption.

Module SortByOption := Sort ByOption.

(** [WHERE product_id = ?]: never true of a NULL. *)
Definition of_product (product_id : Z) (o : product_option) : bool :=
  match po_product_id o with
  | Some p => p =? product_id
  | None => false
  end.

(** [get_product_options(product_id)], on the rows of [product_options] in
    rowid order.  An int that does not fit 64 bits cannot be bound. *)
Definition get_product_options (product_id : Z)
    (product_options : list product_option) : result (list product_option) :=
  if negb (Sql.in_int64 product_id) then Raise OverflowError
  else Ok (SortByOption.sort (filter (of_product product_id) product_options)).

(** ** The whole database file, and [_populate_dummy_data] *)

Record user : Type := mkUser {
  u_id : Z;
  u_username : string;
  u_password_hash : string;
  u_full_name : string;
  u_role : string;
  u_is_active : bool
}.

(** What [db] leaves out of the database file: the two tables that no order
    path touches, and the AUTOINCREMENT counters of the tables that only
    [_populate_dummy_data] inserts into. *)
Record rest : Type := mkRest {
  product_options : list product_option;
  users : list user;
  products_seq : Z;
  product_options_seq : Z;
  customers_seq : Z;
  users_seq : Z;
  inventory_seq : Z
}.

Definition file : Type := (db * rest)%type.

(** The file as [_init_database] leaves a new one: every table empty. *)
Definition empty_file : file := (empty_db, mkRest [] [] 0 0 0 0 0).

Declare Scope file_scope.
Delimit Scope file_scope with file.

Module File.

(** A connection to the whole file: the connection of the order paths, and
    the rest of the file as committed and as the open transaction sees it. *)
Record conn : Type := mkConn {
  main : world;
  rest_committed : rest;
  rest_pending : rest
}.

Definition F (A : Type) : Type := env -> conn -> conn * result A.

Definition ret {A : Type} (a : A) : F A := fun _ k => (k, Ok a).

Definition bind {A B : Type} (c : F A) (f : A -> F B) : F B :=
  fun e k =>
    match c e k with
    | (k', Ok a) => f a e k'
    | (k', Raise x) => (k', Raise x)
    end.

Fixpoint for_each {A : Type} (xs : list A) (body : A -> F unit) : F unit :=
  match xs with
  | [] => ret tt
  | x :: rest => bind (body x) (fun _ => for_each rest body)
  end.

(** Code of the order paths, run on this connection. *)
Definition lift {A : Type} (c : M A) : F A :=
  fun e k =>
    match c e (main k) with
    | (w, r) => (mkConn w (rest_committed k) (rest_pending k), r)
    end.

(** [cursor.execute(...)] of a statement on any table of the file. *)
Definition execute {A : Type} (stmt : file -> result (file * A * option Z)) : F A :=
  fun e k =>
    let w := main k in
    let w1 := mkWorld (committed w) (pending w) (lastrowid w)
                      (S (statements w)) (draws w) in
    if fault e (statements w)
    then (mkConn w1 (rest_committed k) (rest_pending k), Raise OperationalError)
    else match stmt (pending w, rest_pending k) with
         | Ok (d', r', a, rowid) =>
             (mkConn (mkWorld (committed w) d'
                              (match rowid with Some i => i | None => lastrowid w end)
                              (S (statements w)) (draws w))
                     (rest_committed k) r',
              Ok a)
         | Raise x => (mkConn w1 (rest_committed k) (rest_pending k), Raise x)
         end.

(** [conn.commit()]. *)
Definition commit : F unit :=
  fun e k =>
    match commit e (main k) with
    | (w, Ok u) => (mkConn w (rest_pending k) (rest_pending k), Ok u)
    | (w, Raise x) => (mkConn w (rest_committed k) (rest_pending k), Raise x)
    end.

Definition connect (f : file) : conn := mkConn (connect (fst f)) (snd f) (snd f).

(** [with sqlite3.connect(path) as conn: body], on the whole file. *)
Definition with_connection {A : Type} (body : F A) (e : env) (f : file)
  : file * result A :=
  match body e (connect f) with
  | (k, Ok a) => ((pending (main k), rest_pending k), Ok a)
  | (k, Raise x) => ((committed (main k), rest_committed k), Raise x)
  end.

End File.

Notation "x <- c ;; k" := (File.bind c (fun x => k))
  (at level 61, c at next level, right associativity) : file_scope.
Notation "c ;;; k" := (File.bind c (fun _ => k))
  (at level 61, right associativity) : file_scope.

Module Populate.

(** [SELECT COUNT( * ) FROM products]. *)
Definition count_products (f : file) : result (file * Z * option Z) :=
  Ok (f, Z.of_nat (List.length (products (fst f))), None).

(** [INSERT INTO products (name, category, price, description, image_url)]:
    [price] is NOT NULL and a NaN is bound as NULL; [is_available] takes its
    default, 1. *)
Definition insert_product (name category : string) (price : float)
    (description image_url : string) (f : file) : result (file * unit * option Z) :=
  let (d, r) := f in
  if PrimFloat.is_nan price then Raise IntegrityError
  else
    let id := Sql.next_rowid (products_seq r) (map p_id (products d)) in
    if negb (Sql.in_int64 id) then Raise OperationalError
    else
      let row := mkProduct id name category price description image_url true in
      Ok ((mkDb (products d ++ [row]) (customers d) (orders d) (order_items d)
                (inventory d) (orders_seq d) (order_items_seq d),
           mkRest (product_options r) (users r) id (product_options_seq r)
                  (customers_seq r) (users_seq r) (inventory_seq r)),
          tt, Some id).

(** [INSERT INTO product_options (product_id, option_name, option_value,
    price_modifier)]. *)
Definition insert_product_option (product_id : Z) (option_name option_value : string)
    (price_modifier : float) (f : file) : result (file * unit * option Z) :=
  let (d, r) := f in
  if negb (Sql.in_int64 product_id) then Raise OverflowError
  else
    let id := Sql.next_rowid (product_options_seq r) (map po_id (product_options r)) in
    if negb (Sql.in_int64 id) then Raise OperationalError
    else
      let row := mkOption id (Some product_id) option_name option_value
                          (if PrimFloat.is_nan price_modifier then None
                           else Some price_modifier) in
      Ok ((d,
           mkRest (product_options r ++ [row]) (users r) (products_seq r) id
                  (customers_seq r) (users_seq r) (inventory_seq r)),
          tt, Some id).

(** [INSERT INTO customers (name, email, phone, loyalty_points)]; [email] is
    UNIQUE. *)
Definition insert_customer (name email phone : string) (loyalty_points : Z)
    (f : file) : result (file * unit * option Z) :=
  let (d, r) := f in
  if negb (Sql.in_int64 loyalty_points) then Raise OverflowError
  else if existsb (fun c => String.eqb (c_email c) email) (customers d)
  then Raise IntegrityError
  else
    let id := Sql.next_rowid (customers_seq r) (map c_id (customers d)) in
    if negb (Sql.in_int64 id) then Raise OperationalError
    else
      let row := mkCustomer id name email phone loyalty_points in
      Ok ((mkDb (products d) (customers d ++ [row]) (orders d) (order_items d)
                (inventory d) (orders_seq d) (order_items_seq d),
           mkRest (product_options r) (users r) (products_seq r)
                  (product_options_seq r) id (users_seq r) (inventory_seq r)),
          tt, Some id).

(** [INSERT INTO users (username, password_hash, full_name, role)];
    [username] is UNIQUE and [is_active] takes its default, 1. *)
Definition insert_user (username password_hash full_name role : string)
    (f : file) : result (file * unit * option Z) :=
  let (d, r) := f in
  if existsb (fun u => String.eqb (u_username u) username) (users r)
  then Raise IntegrityError
  else
    let id := Sql.next_rowid (users_seq r) (map u_id (users r)) in
    if negb (Sql.in_int64 id) then Raise OperationalError
    else
      let row := mkUser id username password_hash full_name role true in
      Ok ((d,
           mkRest (product_options r) (users r ++ [row]) (products_seq r)
                  (product_options_seq r) (customers_seq r) id (inventory_seq r)),
          tt, Some id).

(** [SELECT id FROM products]. *)
Definition select_product_ids (f : file) : result (file * list Z * option Z) :=
  Ok (f, map p_id (products (fst f)), None).

(** [INSERT INTO inventory (product_id, current_stock, min_stock, max_stock)
    VALUES (?, ?, 10, 100)]; [product_id] is UNIQUE. *)
Definition insert_inventory (product_id stock : Z) (f : file)
  : result (file * unit * option Z) :=
  let (d, r) := f in
  if negb (Sql.in_int64 product_id && Sql.in_int64 stock) then Raise OverflowError
  else if existsb (fun i => i_product_id i =? product_id) (inventory d)
  then Raise IntegrityError
  else
    let id := Sql.next_rowid (inventory_seq r) (map i_id (inventory d)) in
    if negb (Sql.in_int64 id) then Raise OperationalError
    else
      let row := mkInventory id product_id stock 10 100 in
      Ok ((mkDb (products d) (customers d) (orders d) (order_items d)
                (inventory d ++ [row]) (orders_seq d) (order_items_seq d),
           mkRest (product_options r) (users r) (products_seq r)
                  (product_options_seq r) (customers_seq r) (users_seq r) id),
          tt, Some id).

(** [coffee_products + tea_products + pastry_products + other_products]:
    name, category, price, description, image_url. *)
Definition all_products : list (string * string * float * string * string) :=
  [("Espresso", "Coffee", 2.50%float,
    "Rich and bold espresso shot",
    "https://images.unsplash.com/photo-1510707577719-ae7c14805e3a?w=300&h=300&fit=crop");
   ("Latte", "Coffee", 3.50%float,
    "Smooth espresso with steamed milk",
    "https://images.unsplash.com/photo-1561882468-9110e03e0f78?w=300&h=300&fit=crop");
   ("Cappuccino", "Coffee", 3.50%float,
    "Equal parts espresso, steamed milk, and foam",
    "https://images.unsplash.com/photo-1572442388796-11668a67e53d?w=300&h=300&fit=crop");
   ("Americano", "Coffee", 3.00%float,
    "Espresso diluted with hot water",
    "https://images.unsplash.com/photo-1459755486867-b55449bb39ff?w=300&h=300&fit=crop");
   ("Mocha", "Coffee", 4.00%float,
    "Espresso with chocolate and steamed milk",
    "https://images.unsplash.com/photo-1578662996442-48f60103fc96?w=300&h=300&fit=crop");
   ("Macchiato", "Coffee", 3.75%float,
    "Espresso with a dollop of steamed milk foam",
    "https://images.unsplash.com/photo-1485808191679-5760e28b2c20?w=300&h=300&fit=crop");
   ("Earl Grey", "Tea", 2.75%float,
    "Classic black tea with bergamot",
    "https://images.unsplash.com/photo-1597318499019-68eee882d346?w=300&h=300&fit=crop");
   ("Green Tea", "Tea", 2.50%float,
    "Fresh and light green tea",
    "https://images.unsplash.com/photo-1556881286-fcdb26e34ac6?w=300&h=300&fit=crop");
   ("Chamomile", "Tea", 2.50%float,
    "Soothing herbal tea",
    "https://images.unsplash.com/photo-1571019613454-1cb2f99b2d8b?w=300&h=300&fit=crop");
   ("Chai Latte", "Tea", 3.25%float,
    "Spiced tea with steamed milk",
    "https://images.unsplash.com/photo-1578374173705-7d95a6f49cfc?w=300&h=300&fit=crop");
   ("Croissant", "Pastries", 2.00%float,
    "Buttery, flaky pastry",
    "https://images.unsplash.com/photo-1555507036-ab794f576c88?w=300&h=300&fit=crop");
   ("Blueberry Muffin", "Pastries", 2.50%float,
    "Fresh baked muffin with blueberries",
    "https://images.unsplash.com/photo-1426869981800-95ebf51ce900?w=300&h=300&fit=crop");
   ("Danish", "Pastries", 2.75%float,
    "Sweet pastry with fruit filling",
    "https://images.unsplash.com/photo-1509365390234-d2837de0711a?w=300&h=300&fit=crop");
   ("Chocolate Chip Cookie", "Pastries", 1.50%float,
    "Homemade chocolate chip cookie",
    "https://images.unsplash.com/photo-1499636136210-6f4ee915583e?w=300&h=300&fit=crop");
   ("Orange Juice", "Other", 3.00%float,
    "Fresh squeezed orange juice",
    "https://images.unsplash.com/photo-1621506289937-a8e4df240d0b?w=300&h=300&fit=crop");
   ("Bottled Water", "Other", 1.50%float,
    "Premium bottled water",
    "https://images.unsplash.com/photo-1523362628745-0c100150b504?w=300&h=300&fit=crop");
   ("Granola Bar", "Other", 2.25%float,
    "Healthy granola bar snack",
    "https://images.unsplash.com/photo-1606312619070-d48b4c652a52?w=300&h=300&fit=crop")]%string.

(** [product_options]: product_id, option_name, option_value, price_modifier. *)
Definition product_options : list (Z * string * string * float) :=
  [(1, "Milk Type", "Whole Milk", 0.0%float);
   (1, "Milk Type", "Almond Milk", 0.5%float);
   (1, "Milk Type", "Oat Milk", 0.6%float);
   (1, "Milk Type", "Soy Milk", 0.5%float);
   (1, "Size", "Small", 0.0%float);
   (1, "Size", "Medium", 0.5%float);
   (1, "Size", "Large", 1.0%float);
   (2, "Syrup", "Vanilla", 0.5%float);
   (2, "Syrup", "Caramel", 0.5%float);
   (2, "Syrup", "Hazelnut", 0.5%float)]%string.

(** [customers]: name, email, phone, loyalty_points. *)
Definition customers : list (string * string * string * Z) :=
  [("John Smith", "john@email.com", "555-0101", 50);
   ("Jane Doe", "jane@email.com", "555-0102", 120);
   ("Bob Johnson", "bob@email.com", "555-0103", 30);
   ("Alice Brown", "alice@email.com", "555-0104", 80)]%string.

(** [users]: username, password_hash, full_name, role. *)
Definition users : list (string * string * string * string) :=
  [("admin", "admin123", "Administrator", "admin");
   ("cashier1", "cash123", "John Cashier", "cashier");
   ("manager1", "mgr123", "Jane Manager", "manager")]%string.

(** The body of [_populate_dummy_data], inside its [with] block. *)
Definition populate_dummy_data_body : File.F unit :=
  (count <- File.execute count_products ;;
   if count >? 0 then File.ret tt
   else
     File.for_each all_products (fun product =>
       match product with
       | (name, category, price, description, image_url) =>
           File.execute (insert_product name category price description image_url)
       end) ;;;
     File.for_each product_options (fun option =>
       match option with
       | (product_id, option_name, option_value, price_modifier) =>
           File.execute (insert_product_option product_id option_name option_value
                                               price_modifier)
       end) ;;;
     File.for_each customers (fun customer =>
       match customer with
       | (name, email, phone, loyalty_points) =>
           File.execute (insert_customer name email phone loyalty_points)
       end) ;;;
     File.for_each users (fun user =>
       match user with
       | (username, password_hash, full_name, role) =>
           File.execute (insert_user username password_hash full_name role)
       end) ;;;
     product_ids <- File.execute select_product_ids ;;
     File.for_each product_ids (fun product_id =>
       stock <- File.lift (Random.randint 15 50) ;;
       File.execute (insert_inventory product_id stock)) ;;;
     File.lift Seed.generate_dummy_orders ;;;
     File.commit)%file.

Definition populate_dummy_data (e : env) (f : file) : file * result unit :=
  File.with_connection populate_dummy_data_body e f.

End Populate.

(** ** What [_populate_dummy_data] writes into a new file *)

(** The rows made of a list of values, numbered from [i]. *)
Fixpoint number_from {A B : Type} (mk : Z -> A -> B) (i : Z) (xs : list A) : list B :=
  match xs with
  | [] => []
  | x :: rest => mk i x :: number_from mk (i + 1) rest
  end.

Module Seeded.

Definition products : list product :=
  number_from (fun i p =>
                 match p with
                 | (name, category, price, description, image_url) =>
                     mkProduct i name category price description image_url true
                 end) 1 Populate.all_products.

Definition product_options : list product_option :=
  number_from (fun i o =>
                 match o with
                 | (product_id, option_name, option_value, price_modifier) =>
                     mkOption i (Some product_id) option_name option_value
                              (Some price_modifier)
                 end) 1 Populate.product_options.

Definition customers : list customer :=
  number_from (fun i c =>
                 match c with
                 | (name, email, phone, loyalty_points) =>
                     mkCustomer i name email phone loyalty_points
                 end) 1 Populate.customers.

Definition users : list user :=
  number_from (fun i u =>
                 match u with
                 | (username, password_hash, full_name, role) =>
                     mkUser i username password_hash full_name role true
                 end) 1 Populate.users.

(** The inventory of a seeded catalog: one row for each product, in the
    order of the products, numbered from 1, with a stock between 15 and 50
    and the limits 10 and 100. *)
Definition stocked (ps : list product) (inv : list inventory_row) : Prop :=
  map i_product_id inv = map p_id ps /\
  map i_id inv = map (fun k => Z.of_nat k) (seq 1 (List.length ps)) /\
  Forall (fun i => 15 <= i_current_stock i <= 50 /\
                   i_min_stock i = 10 /\ i_max_stock i = 100) inv.

End Seeded.

(** The category tabs of the product panel ([_create_category_tabs] of
    [new_order_tab.py], [create_products_section] of [main.py]). *)
Definition categories : list string := ["Coffee"; "Tea"; "Pastries"; "Other"]%string.

(** ** The product grids *)

(** A card or button of a product grid, with the row and column it is put
    at. *)
Definition cell (A : Type) : Type := (A * Z * Z)%type.

Module Grid.

(** The loop of [load_products] in [main.py] and [simple_pos.py]:
    [row = 0; col = 0] before it, and after each product
    [col += 1; if col >= 3: col = 0; row += 1]. *)
Fixpoint place_from {A : Type} (row col : Z) (products : list A) : list (cell A) :=
  match products with
  | [] => []
  | product :: rest =>
      (product, row, col)
      :: (let col := col + 1 in
          if col >=? 3 then place_from (row + 1) 0 rest
          else place_from row col rest)
  end.

Definition load_products_grid {A : Type} (products : list A) : list (cell A) :=
  place_from 0 0 products.

End Grid.

(** [products[i]] on a list, for an int index: a negative index counts from
    the end. *)
Definition getitem {A : Type} (l : list A) (i : Z) : result A :=
  let n := Z.of_nat (List.length l) in
  if (i <? - n) || (n <=? i) then Raise IndexError
  else Py.index l (Z.to_nat (if i <? 0 then n + i else i)).

(** [range(a, b)]. *)
Definition range_from (a b : Z) : list Z :=
  map (fun k => a + Z.of_nat k) (seq 0 (Z.to_nat (b - a))).

Module LazyGrid.

(** [ScrollableProductGrid] of [new_order_tab.py]: the products to show, how
    many of them have a card, and the cards in the frame. *)
Record grid : Type := mkGrid {
  products : list product;
  loaded_products : Z;
  cards : list (cell product)
}.

Definition products_per_page : Z := 6.

(** [__init__]: no products; [_setup_lazy_loading] then finds nothing to
    load. *)
Definition init : grid := mkGrid [] 0 [].

(** The body of [for i in range(start_idx, end_idx)] in
    [_load_more_products], and the loop; an exception leaves the grid as far
    as the loop got. *)
Definition load_one (i : Z) (g : grid) : grid * result unit :=
  match getitem (products g) i with
  | Ok product =>
      let row := loaded_products g / 3 in
      let col := loaded_products g mod 3 in
      (mkGrid (products g) (loaded_products g + 1)
              (cards g ++ [(product, row, col)]), Ok tt)
  | Raise x => (g, Raise x)
  end.

Fixpoint load_loop (indices : list Z) (g : grid) : grid * result unit :=
  match indices with
  | [] => (g, Ok tt)
  | i :: rest =>
      match load_one i g with
      | (g', Ok _) => load_loop rest g'
      | (g', Raise x) => (g', Raise x)
      end
  end.

(** [_load_more_products]. *)
Definition load_more_products (g : grid) : grid * result unit :=
  match products g with
  | [] => (g, Ok tt)
  | _ =>
      let start_idx := loaded_products g in
      let end_idx := Z.min (start_idx + products_per_page)
                           (Z.of_nat (List.length (products g))) in
      load_loop (range_from start_idx end_idx) g
  end.

(** What [_check_load_more] reads from the widgets: [canvas.winfo_height()],
    [canvas.canvasy(0)] and [scrollable_frame.winfo_reqheight()]. *)
Record view : Type := mkView {
  canvas_height : Z;
  scroll_top : float;
  content_height : Z
}.

(** [_check_load_more]. *)
Definition check_load_more (v : view) (g : grid) : grid * result unit :=
  if Z.of_nat (List.length (products g)) <=? loaded_products g then (g, Ok tt)
  else
    match Py.float_of_int (canvas_height v), Py.float_of_int (content_height v) with
    | Ok h, Ok c =>
        let scroll_bottom := PrimFloat.add (scroll_top v) h in
        if PrimFloat.ltb (PrimFloat.mul c 0.8%float) scroll_bottom
        then load_more_products g
        else (g, Ok tt)
    | Raise x, _ => (g, Raise x)
    | _, Raise x => (g, Raise x)
    end.

(** [set_products(products)]: the cards are destroyed and the first batch is
    loaded. *)
Definition set_products (ps : list product) (g : grid) : grid * result unit :=
  load_more_products (mkGrid ps 0 []).

(** What happens to the grid: a category is shown, or the view is scrolled
    or resized.  An exception of a Tk callback is reported and the event
    loop goes on with the grid as it is. *)
Inductive event : Type :=
| SetProducts (ps : list product)
| Scrolled (v : view).

Definition step (g : grid) (ev : event) : grid :=
  match ev with
  | SetProducts ps => fst (set_products ps g)
  | Scrolled v => fst (check_load_more v g)
  end.

Definition run (events : list event) : grid := fold_left step events init.

End LazyGrid.

(** The test of [_check_load_more]: the bottom of the view is past 80% of
    the height of the cards. *)
Definition near_bottom (v : LazyGrid.view) : bool :=
  match Py.float_of_int (LazyGrid.canvas_height v),
        Py.float_of_int (LazyGrid.content_height v) with
  | Ok h, Ok c =>
      PrimFloat.ltb (PrimFloat.mul c 0.8%float)
                    (PrimFloat.add (LazyGrid.scroll_top v) h)
  | _, _ => false
  end.

(** ** [_init_database] of [main.py] *)

Module MainInit.

(** [CREATE TABLE IF NOT EXISTS ...]: a file has every table, empty until it
    is written to, so the statement changes nothing. *)
Definition create_table_if_not_exists (f : file) : result (file * unit * option Z) :=
  Ok (f, tt, None).

(** The rows of [_populate_dummy_data]. *)
Definition products : list (string * string * float * string) :=
  [("Espresso", "Coffee", 2.50%float,
    "Rich and bold espresso shot");
   ("Latte", "Coffee", 3.50%float,
    "Smooth espresso with steamed milk");
   ("Cappuccino", "Coffee", 3.50%float,
    "Equal parts espresso, steamed milk, and foam");
   ("Americano", "Coffee", 3.00%float,
    "Espresso diluted with hot water");
   ("Mocha", "Coffee", 4.00%float,
    "Espresso with chocolate and steamed milk");
   ("Macchiato", "Coffee", 3.75%float,
    "Espresso with a dollop of steamed milk foam");
   ("Earl Grey", "Tea", 2.75%float,
    "Classic black tea with bergamot");
   ("Green Tea", "Tea", 2.50%float,
    "Fresh and light green tea");
   ("Chamomile", "Tea", 2.50%float,
    "Soothing herbal tea");
   ("Chai Latte", "Tea", 3.25%float,
    "Spiced tea with steamed milk");
   ("Croissant", "Pastries", 2.00%float,
    "Buttery, flaky pastry");
   ("Blueberry Muffin", "Pastries", 2.50%float,
    "Fresh baked muffin with blueberries");
   ("Danish", "Pastries", 2.75%float,
    "Sweet pastry with fruit filling");
   ("Cookie", "Pastries", 1.50%float,
    "Homemade chocolate chip cookie");
   ("Orange Juice", "Other", 3.00%float,
    "Fresh squeezed orange juice");
   ("Water", "Other", 1.50%float,
    "Premium bottled water")]%string.

(** [INSERT INTO products (name, category, price, description)]: the
    products table of [main.py] has no [image_url] column. *)
Definition insert_product (name category : string) (price : float)
    (description : string) (f : file) : result (file * unit * option Z) :=
  Populate.insert_product name category price description EmptyString f.

(** [_populate_dummy_data(cursor)]: [cursor.executemany] runs the INSERT
    once for each row, in order, and stops at the first that fails. *)
Definition populate_dummy_data : File.F unit :=
  File.for_each products
    (fun '(name, category, price, description) =>
       File.execute (insert_product name category price description)).

(** [_init_database]. *)
Definition init_database_body : File.F unit :=
  (File.execute create_table_if_not_exists ;;;
   File.execute create_table_if_not_exists ;;;
   File.execute create_table_if_not_exists ;;;
   count <- File.execute Populate.count_products ;;
   (if count =? 0 then populate_dummy_data else File.ret tt) ;;;
   File.commit)%file.

(** [conn = sqlite3.connect(path); ...; conn.commit(); conn.close()] on the
    whole file. *)
Definition plain_connection {A : Type} (body : File.F A) (e : env) (f : file)
  : file * result A :=
  match body e (File.connect f) with
  | (k, r) => ((committed (File.main k), File.rest_committed k), r)
  end.

Definition init_database (e : env) (f : file) : file * result unit :=
  plain_connection init_database_body e f.

End MainInit.

(** What [main.py] stores of a product. *)
Definition seed_of (p : product) : string * string * float * string :=
  (p_name p, p_category p, p_price p, p_description p).

(** No statement of the connection fails. *)
Definition no_fault (e : env) : Prop := forall n, fault e n = false.

(** * Properties *)

(** ** Small facts about results and lists *)

Lemma NoDup_map_filter {A B : Type} (g : A -> B) (f : A -> bool) (l : list A) :
  NoDup (map g l) -> NoDup (map g (filter f l)).
Proof.
  induction l as [|a l IH]; simpl; intros H; [constructor|].
  inversion H as [|? ? Hn Hd]; subst.
  destruct (f a); simpl; auto.
  constructor; auto.
  intros Hin. apply Hn.
  apply in_map_iff in Hin. destruct Hin as [x [Hx Hin]].
  apply filter_In in Hin. apply in_map_iff. exists x. tauto.
Qed.

(** ** The cart *)

Module CartFacts.
Import Cart.

Lemma add_absent (p : product) (c : cart) :
  (forall l, In l c -> p_id (l_product l) <> p_id p) ->
  add_to_order p c = c ++ [mkLine p 1 []].
Proof.
  induction c as [|l c IH]; simpl; intros H; [reflexivity|].
  destruct (p_id (l_product l) =? p_id p) eqn:E.
  - apply Z.eqb_eq in E. exfalso. apply (H l); auto.
  - f_equal. apply IH. intros l' Hl'. apply H. auto.
Qed.

Lemma add_present (p : product) (c : cart) :
  (exists l, In l c /\ p_id (l_product l) = p_id p) ->
  exists before l after,
    c = before ++ l :: after /\
    p_id (l_product l) = p_id p /\
    (forall l', In l' before -> p_id (l_product l') <> p_id p) /\
    add_to_order p c =
      before ++ mkLine (l_product l) (l_quantity l + 1) (l_customizations l) :: after.
Proof.
  induction c as [|l c IH]; intros [x [Hin Hx]]; [destruct Hin|].
  simpl. destruct (p_id (l_product l) =? p_id p) eqn:E.
  - apply Z.eqb_eq in E. exists [], l, c. simpl. repeat split; auto.
  - apply Z.eqb_neq in E. destruct Hin as [->|Hin]; [contradiction|].
    destruct IH as [before [l0 [after [Hc [Hid [Hbefore Hadd]]]]]].
    { exists x. auto. }
    exists (l :: before), l0, after. simpl. rewrite Hadd, Hc.
    repeat split; auto.
    intros l' [<-|Hl']; auto.
Qed.

Lemma add_ids (p : product) (c : cart) :
  map (fun l => p_id (l_product l)) (add_to_order p c) =
  if existsb (fun l => p_id (l_product l) =? p_id p) c
  then map (fun l => p_id (l_product l)) c
  else map (fun l => p_id (l_product l)) c ++ [p_id p].
Proof.
  induction c as [|l c IH]; simpl; [reflexivity|].
  destruct (p_id (l_product l) =? p_id p) eqn:E; simpl; [reflexivity|].
  rewrite IH. destruct (existsb _ c); reflexivity.
Qed.

Lemma add_length_present (p : product) (c : cart) :
  existsb (fun l => p_id (l_product l) =? p_id p) c = true ->
  List.length (add_to_order p c) = List.length c.
Proof.
  intros H. rewrite <- (length_map (fun l => p_id (l_product l))), add_ids, H.
  apply length_map.
Qed.

Lemma add_has_product (p : product) (c : cart) :
  existsb (fun l => p_id (l_product l) =? p_id p) (add_to_order p c) = true.
Proof.
  induction c as [|l c IH]; simpl.
  - rewrite Z.eqb_refl. reflexivity.
  - destruct (p_id (l_product l) =? p_id p) eqn:E; simpl; rewrite ?E; auto.
Qed.

Lemma add_distinct (p : product) (c : cart) :
  distinct_products c -> distinct_products (add_to_order p c).
Proof.
  unfold distinct_products. intros H. rewrite add_ids.
  destruct (existsb _ c) eqn:E; [assumption|].
  apply NoDup_app; [assumption|repeat constructor; intros []|].
  intros x Hx [<-|[]].
  apply in_map_iff in Hx. destruct Hx as [l [Hl Hin]].
  assert (existsb (fun l => p_id (l_product l) =? p_id p) c = true).
  { apply existsb_exists. exists l. split; auto. apply Z.eqb_eq. auto. }
  congruence.
Qed.

Lemma add_positive (p : product) (c : cart) :
  positive_quantities c -> positive_quantities (add_to_order p c).
Proof.
  unfold positive_quantities.
  induction c as [|l c IH]; simpl; intros H.
  - repeat constructor. simpl. lia.
  - inversion H; subst. destruct (p_id (l_product l) =? p_id p).
    + constructor; auto. simpl. lia.
    + constructor; auto.
Qed.

End CartFacts.

Module CartOnce.
Import Cart CartFacts.

Lemma add_after_absent (p : product) (c : cart) (l : line) (rest : cart) :
  (forall l', In l' c -> p_id (l_product l') <> p_id p) ->
  p_id (l_product l) = p_id p ->
  add_to_order p (c ++ l :: rest) =
  c ++ mkLine (l_product l) (l_quantity l + 1) (l_customizations l) :: rest.
Proof.
  intros Habsent Hl. induction c as [|x c IH]; simpl.
  - rewrite Hl, Z.eqb_refl. reflexivity.
  - destruct (p_id (l_product x) =? p_id p) eqn:E.
    + apply Z.eqb_eq in E. exfalso. apply (Habsent x); simpl; auto.
    + f_equal. apply IH. intros l' Hl'. apply Habsent. simpl. auto.
Qed.

Lemma one_line_of (product_id : Z) (c : cart) :
  distinct_products c ->
  existsb (fun l => p_id (l_product l) =? product_id) c = true ->
  List.length (lines_of product_id c) = 1%nat.
Proof.
  unfold distinct_products, lines_of.
  induction c as [|l c IH]; simpl; intros Hd He; [discriminate|].
  inversion Hd as [|? ? Hn Hd']; subst.
  destruct (p_id (l_product l) =? product_id) eqn:E; simpl.
  - apply Z.eqb_eq in E. f_equal.
    destruct (filter _ c) as [|x xs] eqn:F; [reflexivity|].
    exfalso. apply Hn.
    assert (Hx : In x (filter (fun l0 => p_id (l_product l0) =? product_id) c))
      by (rewrite F; simpl; auto).
    apply filter_In in Hx. destruct Hx as [Hx Hid]. apply Z.eqb_eq in Hid.
    apply in_map_iff. exists x. split; [congruence|assumption].
  - apply IH; assumption.
Qed.

End CartOnce.

(** C7.  Adding a product to the cart ([_add_to_order], [add_to_order]):
    when a line with the product's id exists, the first such line has its
    quantity raised by 1 and nothing else changes; otherwise a line with
    quantity 1 and no customizations is appended.  Adding the same product
    twice to a cart that does not hold it therefore leaves one line for it,
    with quantity 2; and on any cart the second addition never adds a line,
    so a cart with one line per product keeps exactly one line for it. *)
Theorem add_same_product_twice (c : cart) (p : product) :
  ((exists l, In l c /\ p_id (l_product l) = p_id p) ->
   exists before l after,
     c = before ++ l :: after /\
     p_id (l_product l) = p_id p /\
     (forall l', In l' before -> p_id (l_product l') <> p_id p) /\
     Cart.add_to_order p c =
       before ++ mkLine (l_product l) (l_quantity l + 1) (l_customizations l) :: after) /\
  ((forall l, In l c -> p_id (l_product l) <> p_id p) ->
   Cart.add_to_order p c = c ++ [mkLine p 1 []] /\
   Cart.add_to_order p (Cart.add_to_order p c) = c ++ [mkLine p 2 []]) /\
  List.length (Cart.add_to_order p (Cart.add_to_order p c)) =
    List.length (Cart.add_to_order p c) /\
  (Cart.distinct_products c ->
   List.length (Cart.lines_of (p_id p) (Cart.add_to_order p (Cart.add_to_order p c)))
     = 1%nat).
Proof.
  split; [apply CartFacts.add_present|].
  split.
  { intros H. rewrite (CartFacts.add_absent p c H). split; [reflexivity|].
    rewrite (CartOnce.add_after_absent p c (mkLine p 1 []) []); auto. }
  split.
  { apply CartFacts.add_length_present, CartFacts.add_has_product. }
  intros Hd. apply CartOnce.one_line_of.
  - apply CartFacts.add_distinct, CartFacts.add_distinct, Hd.
  - apply CartFacts.add_has_product.
Qed.

(** The statement at a cart that holds another product: two clicks on
    Espresso leave one Espresso line, of quantity 2. *)
Lemma add_same_product_twice_witness :
  let espresso := mkProduct 1 "Espresso" "Coffee" 2.5%float "" "" true in
  let latte := mkProduct 2 "Latte" "Coffee" 3.5%float "" "" true in
  Cart.add_to_order espresso (Cart.add_to_order espresso [mkLine latte 1 []])
  = [mkLine latte 1 []; mkLine espresso 2 []].
Proof.
  intros espresso latte.
  apply (proj1 (proj2 (add_same_product_twice [mkLine latte 1 []] espresso))).
  intros l [<-|[]]. simpl. discriminate.
Defined.

(** The statement does not hold for every cart: on a cart that already has a
    Latte, two clicks on Latte leave its one line with quantity 3, in
    [_add_to_order] as in [add_to_order]; and on a cart with two lines of a
    product, two lines of it remain. *)
Lemma add_twice_to_a_cart_that_has_the_product :
  let latte := mkProduct 2 "Latte" "Coffee" 3.5%float "" "" true in
  Cart.add_to_order latte (Cart.add_to_order latte [mkLine latte 1 []])
    = [mkLine latte 3 []] /\
  (forall l,
     In l (Cart.add_to_order latte (Cart.add_to_order latte [mkLine latte 1 []])) ->
     l_quantity l <> 2) /\
  List.length
    (Cart.lines_of 2
       (Cart.add_to_order latte
          (Cart.add_to_order latte [mkLine latte 1 []; mkLine latte 1 []])))
    = 2%nat.
Proof.
  intros latte. split; [reflexivity|]. split; [|reflexivity].
  intros l [<-|[]]. simpl. discriminate.
Qed.

Module CartInvariant.
Import Cart CartFacts.

(** The two halves of the invariant, as one predicate on carts. *)
Definition inv (c : cart) : Prop := distinct_products c /\ positive_quantities c.

Lemma inv_empty : inv [].
Proof. split; constructor. Qed.

Lemma inv_add (p : product) (c : cart) : inv c -> inv (add_to_order p c).
Proof. intros [Hd Hp]. split; [apply add_distinct|apply add_positive]; assumption. Qed.

Lemma inv_remove (product_id : Z) (c : cart) :
  inv c -> inv (remove_from_order product_id c).
Proof.
  intros [Hd Hp]. split.
  - apply NoDup_map_filter, Hd.
  - unfold positive_quantities, remove_from_order in *.
    rewrite Forall_forall in *. intros l Hl. apply Hp.
    apply filter_In in Hl. tauto.
Qed.

(** [list.remove] splits the list around the line it deletes. *)
Lemma list_remove_split (item : line) (c c' : cart) :
  list_remove item c = Ok c' ->
  exists before l after, c = before ++ l :: after /\ c' = before ++ after.
Proof.
  revert c'. induction c as [|x c IH]; simpl; intros c' H; [discriminate|].
  destruct (line_eqb x item).
  - inversion H; subst. exists [], x, c'. auto.
  - destruct (list_remove item c) as [r|]; [|discriminate].
    inversion H; subst.
    destruct (IH r eq_refl) as [before [l [after [-> ->]]]].
    exists (x :: before), l, after. auto.
Qed.

Lemma inv_remove_item (item : line) (c : cart) : inv c -> inv (remove_item item c).
Proof.
  unfold remove_item. destruct (list_remove item c) as [c'|] eqn:E; [|auto].
  destruct (list_remove_split _ _ _ E) as [before [l [after [-> ->]]]].
  intros [Hd Hp]. unfold inv, distinct_products, positive_quantities in *. split.
  - rewrite map_app in *. simpl in Hd. apply NoDup_remove_1 in Hd. exact Hd.
  - apply Forall_app in Hp. destruct Hp as [H1 H2]. inversion H2; subst.
    apply Forall_app. auto.
Qed.

Lemma inv_step (c : cart) (o : op) : inv c -> inv (step c o).
Proof.
  destruct o; simpl.
  - apply inv_add.
  - apply inv_remove.
  - apply inv_remove_item.
  - intros _. apply inv_empty.
Qed.

Lemma inv_fold (ops : list op) (c : cart) : inv c -> inv (fold_left step ops c).
Proof.
  revert c. induction ops as [|o ops IH]; simpl; intros c H; [assumption|].
  apply IH, inv_step, H.
Qed.

Lemma remove_count (product_id : Z) (c : cart) :
  (List.length (remove_from_order product_id c)
   + List.length (lines_of product_id c) = List.length c)%nat.
Proof.
  unfold remove_from_order, lines_of.
  induction c as [|l c IH]; simpl; [reflexivity|].
  destruct (p_id (l_product l) =? product_id); simpl; lia.
Qed.

Lemma lines_of_le_1 (product_id : Z) (c : cart) :
  distinct_products c -> (List.length (lines_of product_id c) <= 1)%nat.
Proof.
  intros Hd.
  destruct (existsb (fun l => p_id (l_product l) =? product_id) c) eqn:E.
  - rewrite (CartOnce.one_line_of product_id c Hd E). lia.
  - unfold lines_of.
    replace (filter (fun l => p_id (l_product l) =? product_id) c) with (@nil line);
      [simpl; lia|].
    symmetry. clear Hd. induction c as [|l c IH]; [reflexivity|].
    simpl in *. apply orb_false_iff in E. destruct E as [E1 E2].
    rewrite E1. auto.
Qed.

Lemma remove_item_count (item : line) (c : cart) :
  (List.length c - List.length (remove_item item c) <= 1)%nat.
Proof.
  unfold remove_item. destruct (list_remove item c) as [c'|] eqn:E; [|lia].
  destruct (list_remove_split _ _ _ E) as [before [l [after [-> ->]]]].
  rewrite !length_app. simpl. lia.
Qed.

End CartInvariant.

(** C10.  From the empty cart, after any sequence of additions, removals
    (by product id as in [main.py] and [simple_pos.py], or of a line as in
    [new_order_tab.py]) and clearings, the lines of the cart have pairwise
    distinct product ids and every quantity is at least 1; so every product
    has at most one line, and a removal deletes at most one line. *)
Theorem cart_lines_distinct_and_positive (ops : list Cart.op) :
  Cart.distinct_products (Cart.run ops) /\
  Cart.positive_quantities (Cart.run ops) /\
  (forall product_id,
     (List.length (Cart.lines_of product_id (Cart.run ops)) <= 1)%nat) /\
  (forall product_id,
     (List.length (Cart.run ops)
      - List.length (Cart.remove_from_order product_id (Cart.run ops)) <= 1)%nat) /\
  (forall item,
     (List.length (Cart.run ops)
      - List.length (Cart.remove_item item (Cart.run ops)) <= 1)%nat).
Proof.
  destruct (CartInvariant.inv_fold ops [] CartInvariant.inv_empty) as [Hd Hp].
  fold (Cart.run ops) in Hd, Hp.
  split; [exact Hd|]. split; [exact Hp|].
  split; [intros product_id; apply CartInvariant.lines_of_le_1, Hd|].
  split.
  - intros product_id.
    pose proof (CartInvariant.remove_count product_id (Cart.run ops)).
    pose proof (CartInvariant.lines_of_le_1 product_id (Cart.run ops) Hd). lia.
  - intros item. apply CartInvariant.remove_item_count.
Qed.

(** ** Running code on a connection *)

Module Run.

Lemma bind_ok {A B : Type} (c : M A) (k : A -> M B) e w w' b :
  bind c k e w = (w', Ok b) ->
  exists a w1, c e w = (w1, Ok a) /\ k a e w1 = (w', Ok b).
Proof.
  unfold bind. destruct (c e w) as [w1 [a|x]]; intros H.
  - exists a, w1. auto.
  - discriminate.
Qed.

Lemma bind_raise {A B : Type} (c : M A) (k : A -> M B) e w w' x :
  bind c k e w = (w', Raise x) ->
  c e w = (w', Raise x) \/
  exists a w1, c e w = (w1, Ok a) /\ k a e w1 = (w', Raise x).
Proof.
  unfold bind. destruct (c e w) as [w1 [a|y]]; intros H.
  - right. exists a, w1. auto.
  - left. inversion H; subst. reflexivity.
Qed.

(** Nothing but [commit] touches the committed database. *)
Definition keeps_committed {A : Type} (c : M A) : Prop :=
  forall e w w' r, c e w = (w', r) -> committed w' = committed w.

Lemma keeps_ret {A : Type} (a : A) : keeps_committed (ret a).
Proof. intros e w w' r H. inversion H. reflexivity. Qed.

Lemma keeps_lift {A : Type} (r0 : result A) : keeps_committed (lift r0).
Proof. intros e w w' r H. inversion H. reflexivity. Qed.

Lemma keeps_raise {A : Type} (x : exn) : keeps_committed (@raise A x).
Proof. intros e w w' r H. inversion H. reflexivity. Qed.

Lemma keeps_now : keeps_committed datetime_now.
Proof. intros e w w' r H. inversion H. reflexivity. Qed.

Lemma keeps_timestamp : keeps_committed current_timestamp.
Proof. intros e w w' r H. inversion H. reflexivity. Qed.

Lemma keeps_lastrowid : keeps_committed get_lastrowid.
Proof. intros e w w' r H. inversion H. reflexivity. Qed.

Lemma keeps_execute {A : Type} (stmt : db -> result (db * A * option Z)) :
  keeps_committed (execute stmt).
Proof.
  intros e w w' r. unfold execute.
  destruct (fault e (statements w)).
  - intros H. inversion H. reflexivity.
  - destruct (stmt (pending w)) as [[[d' a] rowid]|x]; intros H; inversion H; reflexivity.
Qed.

Lemma keeps_bind {A B : Type} (c : M A) (k : A -> M B) :
  keeps_committed c -> (forall a, keeps_committed (k a)) ->
  keeps_committed (bind c k).
Proof.
  intros Hc Hk e w w' r. unfold bind.
  destruct (c e w) as [w1 [a|x]] eqn:E; intros H.
  - rewrite (Hk a e w1 w' r H). apply (Hc e w w1 _ E).
  - inversion H; subst. apply (Hc e w w' _ E).
Qed.

Lemma keeps_for_each {A : Type} (xs : list A) (body : A -> M unit) :
  (forall x, keeps_committed (body x)) -> keeps_committed (for_each xs body).
Proof.
  intros Hb. induction xs as [|x xs IH]; simpl.
  - apply keeps_ret.
  - apply keeps_bind; auto.
Qed.

Lemma keeps_draw : keeps_committed Random.draw.
Proof. intros e w w' r H. inversion H. reflexivity. Qed.

Lemma execute_ok {A : Type} (stmt : db -> result (db * A * option Z)) e w w' a :
  execute stmt e w = (w', Ok a) ->
  fault e (statements w) = false /\
  exists d' rowid,
    stmt (pending w) = Ok (d', a, rowid) /\
    w' = mkWorld (committed w) d'
                 (match rowid with Some r => r | None => lastrowid w end)
                 (S (statements w)) (draws w).
Proof.
  unfold execute. destruct (fault e (statements w)); [discriminate|].
  destruct (stmt (pending w)) as [[[d' a'] rowid]|x]; intros H; inversion H; subst.
  split; [reflexivity|]. exists d', rowid. auto.
Qed.

Lemma insert_order_ok customer_id order_number subtotal tax total
      payment_method cashier_name created_at d d' u rowid :
  Sql.insert_order customer_id order_number subtotal tax total payment_method
                   cashier_name created_at d = Ok (d', u, rowid) ->
  let id := Sql.next_rowid (orders_seq d) (map o_id (orders d)) in
  rowid = Some id /\
  existsb (fun o => String.eqb (o_order_number o) order_number) (orders d) = false /\
  d' = mkDb (products d) (customers d)
            (orders d ++ [mkOrder id customer_id order_number subtotal tax total
                                  payment_method "completed" cashier_name created_at])
            (order_items d) (inventory d) id (order_items_seq d).
Proof.
  unfold Sql.insert_order.
  destruct (negb (Sql.opt_in_int64 customer_id)); [discriminate|].
  destruct (_ || _ || _); [discriminate|].
  destruct (existsb _ (orders d)); [discriminate|].
  destruct (negb (Sql.in_int64 _)); [discriminate|].
  intros H. inversion H; subst. simpl. auto.
Qed.

Lemma insert_order_item_ok order_id product_id quantity unit_price customizations
      d d' u rowid :
  Sql.insert_order_item order_id product_id quantity unit_price customizations d
    = Ok (d', u, rowid) ->
  exists id,
    rowid = Some id /\
    d' = mkDb (products d) (customers d) (orders d)
              (order_items d ++ [mkOrderItem id order_id product_id quantity
                                             unit_price customizations])
              (inventory d) (orders_seq d) id.
Proof.
  unfold Sql.insert_order_item.
  destruct (negb (_ && _ && _)); [discriminate|].
  destruct (PrimFloat.is_nan unit_price); [discriminate|].
  destruct (negb (Sql.in_int64 _)); [discriminate|].
  intros H. inversion H; subst. eexists. split; reflexivity.
Qed.

End Run.

Module Writes.
Import Run.

(** What is stored of a line item, with the order it is stored under. *)
Definition stored (r : order_item_row) :=
  (oi_order_id r, oi_product_id r, oi_quantity r, oi_unit_price r, oi_customizations r).

(** The loop that inserts the OrderItem rows, when it runs to its end: the
    rows are appended in order, one for each element, and no other table
    changes. *)
Lemma insert_items_ok {A : Type} (order_id : Z) (pid qty : A -> Z)
      (price : A -> float) (cust : A -> option (list customization))
      (xs : list A) e w w' :
  for_each xs (fun x => execute (Sql.insert_order_item order_id (pid x) (qty x)
                                                       (price x) (cust x))) e w
    = (w', Ok tt) ->
  exists rows,
    order_items (pending w') = order_items (pending w) ++ rows /\
    map stored rows = map (fun x => (order_id, pid x, qty x, price x, cust x)) xs /\
    orders (pending w') = orders (pending w) /\
    orders_seq (pending w') = orders_seq (pending w) /\
    products (pending w') = products (pending w) /\
    customers (pending w') = customers (pending w) /\
    inventory (pending w') = inventory (pending w) /\
    committed w' = committed w.
Proof.
  revert w. induction xs as [|x xs IH]; simpl; intros w H.
  - inversion H; subst. exists []. rewrite app_nil_r. repeat split; reflexivity.
  - apply bind_ok in H. destruct H as [u [w1 [H1 H2]]].
    apply execute_ok in H1. destruct H1 as [_ [d' [rowid [Hs Hw1]]]].
    apply insert_order_item_ok in Hs. destruct Hs as [id [_ Hd']].
    apply IH in H2. destruct H2 as [rows [Hi [Hm [Ho [Hseq [Hp [Hc [Hinv Hcm]]]]]]]].
    subst w1 d'. simpl in *.
    exists (mkOrderItem id order_id (pid x) (qty x) (price x) (cust x) :: rows).
    rewrite Hi, <- app_assoc. simpl. rewrite Hm.
    repeat split; assumption.
Qed.

(** [DatabaseManager.create_order], when it returns: what it has written. *)
Lemma create_order_body_ok customer_id order_items0 payment_method cashier_name
      e w w' order_id :
  DbManager.create_order_body customer_id order_items0 payment_method cashier_name e w
    = (w', Ok order_id) ->
  exists subtotal rows,
    order_subtotal order_items0 = Ok subtotal /\
    order_id = Sql.next_rowid (orders_seq (pending w)) (map o_id (orders (pending w))) /\
    existsb (fun o => String.eqb (o_order_number o) (order_number_of (now e)))
            (orders (pending w)) = false /\
    orders (pending w') =
      orders (pending w) ++
      [mkOrder order_id customer_id (order_number_of (now e)) subtotal
               (order_tax subtotal) (order_total subtotal) payment_method
               "completed" cashier_name (utc_now e)] /\
    order_items (pending w') = order_items (pending w) ++ rows /\
    map stored rows =
      map (fun i => (order_id, product_id i, quantity i, unit_price i,
                     Some (match customizations i with Some cs => cs | None => [] end)))
          order_items0 /\
    products (pending w') = products (pending w) /\
    customers (pending w') = customers (pending w) /\
    inventory (pending w') = inventory (pending w) /\
    committed w' = pending w'.
Proof.
  unfold DbManager.create_order_body. intros H.
  apply bind_ok in H. destruct H as [subtotal [w1 [H1 H]]].
  unfold lift in H1. inversion H1; subst w1. clear H1.
  apply bind_ok in H. destruct H as [t [w1 [H1 H]]].
  inversion H1; subst w1 t. clear H1.
  apply bind_ok in H. destruct H as [ts [w1 [H1 H]]].
  inversion H1; subst w1 ts. clear H1.
  apply bind_ok in H. destruct H as [u [w1 [H1 H]]].
  apply execute_ok in H1. destruct H1 as [_ [d' [rowid [Hs Hw1]]]].
  apply insert_order_ok in Hs. destruct Hs as [Hrow [Hfresh Hd']].
  apply bind_ok in H. destruct H as [oid [w2 [H2 H]]].
  inversion H2; subst w2 oid. clear H2.
  apply bind_ok in H. destruct H as [u2 [w3 [Hloop H]]].
  destruct u2.
  apply (insert_items_ok _ product_id quantity unit_price
           (fun i => Some (match customizations i with Some cs => cs | None => [] end)))
    in Hloop.
  destruct Hloop as [rows [Hi [Hm [Ho [Hseq [Hp [Hc [Hinv Hcm]]]]]]]].
  apply bind_ok in H. destruct H as [u3 [w4 [Hcommit H]]].
  unfold commit in Hcommit. destruct (fault e (statements w3)); [discriminate|].
  inversion Hcommit; subst w4. clear Hcommit.
  unfold ret in H. inversion H; subst w' order_id. clear H.
  subst w1 d' rowid. simpl in *.
  exists subtotal, rows. repeat split; auto.
Qed.

(** The same for [create_order] of [main.py]. *)
Lemma main_create_order_body_ok order_items0 payment_method cashier_name
      e w w' order_id :
  Main.create_order_body order_items0 payment_method cashier_name e w
    = (w', Ok order_id) ->
  exists subtotal rows,
    order_subtotal order_items0 = Ok subtotal /\
    order_id = Sql.next_rowid (orders_seq (pending w)) (map o_id (orders (pending w))) /\
    existsb (fun o => String.eqb (o_order_number o) (order_number_of (now e)))
            (orders (pending w)) = false /\
    orders (pending w') =
      orders (pending w) ++
      [mkOrder order_id None (order_number_of (now e)) subtotal
               (order_tax subtotal) (order_total subtotal) payment_method
               "completed" cashier_name (utc_now e)] /\
    order_items (pending w') = order_items (pending w) ++ rows /\
    map stored rows =
      map (fun i => (order_id, product_id i, quantity i, unit_price i, None))
          order_items0 /\
    products (pending w') = products (pending w) /\
    customers (pending w') = customers (pending w) /\
    inventory (pending w') = inventory (pending w) /\
    committed w' = pending w'.
Proof.
  unfold Main.create_order_body. intros H.
  apply bind_ok in H. destruct H as [subtotal [w1 [H1 H]]].
  unfold lift in H1. inversion H1; subst w1. clear H1.
  apply bind_ok in H. destruct H as [t [w1 [H1 H]]].
  inversion H1; subst w1 t. clear H1.
  apply bind_ok in H. destruct H as [ts [w1 [H1 H]]].
  inversion H1; subst w1 ts. clear H1.
  apply bind_ok in H. destruct H as [u [w1 [H1 H]]].
  apply execute_ok in H1. destruct H1 as [_ [d' [rowid [Hs Hw1]]]].
  apply insert_order_ok in Hs. destruct Hs as [Hrow [Hfresh Hd']].
  apply bind_ok in H. destruct H as [oid [w2 [H2 H]]].
  inversion H2; subst w2 oid. clear H2.
  apply bind_ok in H. destruct H as [u2 [w3 [Hloop H]]].
  destruct u2.
  apply (insert_items_ok _ product_id quantity unit_price (fun _ => None)) in Hloop.
  destruct Hloop as [rows [Hi [Hm [Ho [Hseq [Hp [Hc [Hinv Hcm]]]]]]]].
  apply bind_ok in H. destruct H as [u3 [w4 [Hcommit H]]].
  unfold commit in Hcommit. destruct (fault e (statements w3)); [discriminate|].
  inversion Hcommit; subst w4. clear Hcommit.
  unfold ret in H. inversion H; subst w' order_id. clear H.
  subst w1 d' rowid. simpl in *.
  exists subtotal, rows. repeat split; auto.
Qed.

End Writes.

Module Atomic.
Import Run.

(** A computation that, when it raises, has committed nothing. *)
Definition raises_uncommitted {A : Type} (c : M A) : Prop :=
  forall e w w' x, c e w = (w', Raise x) -> committed w' = committed w.

Lemma raises_uncommitted_of_keeps {A : Type} (c : M A) :
  keeps_committed c -> raises_uncommitted c.
Proof. intros H e w w' x E. apply (H e w w' _ E). Qed.

Lemma raises_uncommitted_bind {A B : Type} (c : M A) (k : A -> M B) :
  keeps_committed c -> (forall a, raises_uncommitted (k a)) ->
  raises_uncommitted (bind c k).
Proof.
  intros Hc Hk e w w' x H. apply bind_raise in H.
  destruct H as [H|[a [w1 [H1 H2]]]].
  - apply (Hc e w w' _ H).
  - rewrite (Hk a e w1 w' x H2). apply (Hc e w w1 _ H1).
Qed.

(** [conn.commit()] followed by [return order_id] raises only when the
    commit failed. *)
Lemma commit_then_return (order_id : Z) :
  raises_uncommitted (commit ;;; ret order_id).
Proof.
  intros e w w' x. unfold bind, commit, ret.
  destruct (fault e (statements w)); intros H; inversion H; reflexivity.
Qed.

Lemma create_order_body_raises customer_id order_items0 payment_method cashier_name :
  raises_uncommitted
    (DbManager.create_order_body customer_id order_items0 payment_method cashier_name).
Proof.
  unfold DbManager.create_order_body.
  apply raises_uncommitted_bind; [apply keeps_lift|intros subtotal].
  apply raises_uncommitted_bind; [apply keeps_now|intros t].
  apply raises_uncommitted_bind; [apply keeps_timestamp|intros ts].
  apply raises_uncommitted_bind; [apply keeps_execute|intros u].
  apply raises_uncommitted_bind; [apply keeps_lastrowid|intros order_id].
  apply raises_uncommitted_bind.
  - apply keeps_for_each. intros item. apply keeps_execute.
  - intros u'. apply commit_then_return.
Qed.

Lemma main_create_order_body_raises order_items0 payment_method cashier_name :
  raises_uncommitted
    (Main.create_order_body order_items0 payment_method cashier_name).
Proof.
  unfold Main.create_order_body.
  apply raises_uncommitted_bind; [apply keeps_lift|intros subtotal].
  apply raises_uncommitted_bind; [apply keeps_now|intros t].
  apply raises_uncommitted_bind; [apply keeps_timestamp|intros ts].
  apply raises_uncommitted_bind; [apply keeps_execute|intros u].
  apply raises_uncommitted_bind; [apply keeps_lastrowid|intros order_id].
  apply raises_uncommitted_bind.
  - apply keeps_for_each. intros item. apply keeps_execute.
  - intros u'. apply commit_then_return.
Qed.

End Atomic.

(** C2.  [create_order] writes all of an order or nothing: whenever the call
    raises, at whichever statement and for whichever reason (a constraint, a
    value that does not fit its column, a failure of the storage engine),
    the database afterwards is the database before: no Order row and no
    OrderItem row of the attempt is left.  This holds for the [with] block
    of [db_manager.py], which rolls back, and for the connection of
    [main.py], which is dropped before its [commit]. *)
Theorem create_order_all_or_nothing (customer_id : option Z)
    (order_items0 : list order_item) (payment_method cashier_name : string)
    (e : env) (d : db) :
  (forall d' x,
     DbManager.create_order customer_id order_items0 payment_method cashier_name e d
       = (d', Raise x) -> d' = d) /\
  (forall d' x,
     Main.create_order order_items0 payment_method cashier_name e d
       = (d', Raise x) -> d' = d).
Proof.
  split; intros d' x.
  - unfold DbManager.create_order, with_connection.
    destruct (DbManager.create_order_body _ _ _ _ e (connect d)) as [w [a|y]] eqn:E;
      intros H; inversion H; subst.
    apply (Atomic.create_order_body_raises _ _ _ _ _ _ _ _ E).
  - unfold Main.create_order, plain_connection.
    destruct (Main.create_order_body _ _ _ e (connect d)) as [w [a|y]] eqn:E;
      intros H; inversion H; subst.
    apply (Atomic.main_create_order_body_raises _ _ _ _ _ _ _ E).
Qed.

Lemma create_order_all_or_nothing_witness :
  let t := mkDatetime (mkDate 2024 3 5) 14 7 9 0 in
  let e := mkEnv t t (fun n => Nat.eqb n 1) (fun _ => 0) in
  let items := [mkItem 1 2 2.5%float None; mkItem 6 1 3.75%float None] in
  (exists w,
     DbManager.create_order_body None items "cash" "Jane Doe" e (connect empty_db)
       = (w, Raise OperationalError) /\
     List.length (orders (pending w)) = 1%nat) /\
  forall d' x,
    DbManager.create_order None items "cash" "Jane Doe" e empty_db = (d', Raise x) ->
    d' = empty_db.
Proof.
  intros t e items. split.
  - eexists. split; [vm_compute; reflexivity|reflexivity].
  - apply (create_order_all_or_nothing None items "cash" "Jane Doe" e empty_db).
Defined.

Module Ids.

Lemma list_max_ge (ids : list Z) (x : Z) : In x ids -> x <= Sql.list_max ids.
Proof.
  induction ids as [|y ids IH]; simpl; intros H; [destruct H|].
  destruct H as [->|H]; [lia|]. specialize (IH H). lia.
Qed.

Lemma next_rowid_fresh (seq : Z) (ids : list Z) (x : Z) :
  In x ids -> x < Sql.next_rowid seq ids.
Proof. intros H. apply list_max_ge in H. unfold Sql.next_rowid. lia. Qed.

Lemma filter_none {A : Type} (f : A -> bool) (l : list A) :
  (forall x, In x l -> f x = false) -> filter f l = [].
Proof.
  induction l as [|a l IH]; simpl; intros H; [reflexivity|].
  rewrite (H a) by auto. apply IH. intros x Hx. apply H. auto.
Qed.

Lemma filter_all {A : Type} (f : A -> bool) (l : list A) :
  (forall x, In x l -> f x = true) -> filter f l = l.
Proof.
  induction l as [|a l IH]; simpl; intros H; [reflexivity|].
  rewrite (H a) by auto. f_equal. apply IH. intros x Hx. apply H. auto.
Qed.

(** The rows of an order, read back from what the insert loop appended. *)
Lemma stored_rows {A : Type} (order_id : Z) (pid qty : A -> Z) (price : A -> float)
      (cust : A -> option (list customization)) (xs : list A)
      (rows : list order_item_row) :
  map Writes.stored rows = map (fun x => (order_id, pid x, qty x, price x, cust x)) xs ->
  (forall r, In r rows -> oi_order_id r = order_id) /\
  map item_of_row rows = map (fun x => (pid x, qty x, price x)) xs.
Proof.
  revert xs. induction rows as [|r rows IH]; intros [|x xs] H; try discriminate.
  - split; [intros r []|reflexivity].
  - simpl in H. unfold Writes.stored at 1 in H.
    injection H as H1 H2 H3 H4 H5 H6.
    destruct (IH xs H6) as [Hall Hmap]. split.
    + intros r' [<-|Hr']; auto.
    + simpl. unfold item_of_row at 1. rewrite H2, H3, H4, Hmap. reflexivity.
Qed.

End Ids.

Module Stored.
Import Ids.

Lemma from_writes (order_items0 : list order_item) (d d' : db) (order_id : Z)
      (subtotal : float) (rows : list order_item_row) (o : order_row)
      (cust : order_item -> option (list customization)) :
  referential d ->
  order_subtotal order_items0 = Ok subtotal ->
  order_id = Sql.next_rowid (orders_seq d) (map o_id (orders d)) ->
  o_id o = order_id -> o_subtotal o = subtotal ->
  o_tax o = order_tax subtotal -> o_total o = order_total subtotal ->
  orders d' = orders d ++ [o] ->
  order_items d' = order_items d ++ rows ->
  map Writes.stored rows =
    map (fun i => (order_id, product_id i, quantity i, unit_price i, cust i))
        order_items0 ->
  stored_as_submitted order_items0 d' order_id.
Proof.
  intros Href Hsub Hid Hoid Hs Ht Htot Ho Hi Hrows.
  apply stored_rows in Hrows. destruct Hrows as [Hall Hmap].
  assert (Hitems : items_of_order order_id d' = rows).
  { unfold items_of_order. rewrite Hi, filter_app.
    rewrite (filter_none _ (order_items d)), (filter_all _ rows); [reflexivity| |].
    - intros r Hr. apply Z.eqb_eq. auto.
    - intros r Hr. apply Z.eqb_neq.
      unfold referential in Href. rewrite Forall_forall in Href.
      specialize (Href r Hr). unfold max_order_id in Href.
      unfold Sql.next_rowid in Hid. lia. }
  exists o, subtotal. repeat split; auto.
  - unfold orders_with_id. rewrite Ho, filter_app.
    rewrite (filter_none _ (orders d)).
    + simpl. rewrite Hoid, Z.eqb_refl. reflexivity.
    + intros o' Ho'. apply Z.eqb_neq.
      assert (o_id o' < order_id); [|lia].
      rewrite Hid. apply next_rowid_fresh, in_map, Ho'.
  - rewrite Hitems, <- (length_map item_of_row), Hmap. apply length_map.
  - rewrite Hitems. exact Hmap.
Qed.

(** Writing an order keeps the database referential. *)
Lemma referential_after (d d' : db) (order_id : Z) (rows : list order_item_row)
      (o : order_row) :
  referential d ->
  o_id o = order_id ->
  orders d' = orders d ++ [o] ->
  order_items d' = order_items d ++ rows ->
  order_id = Sql.next_rowid (orders_seq d) (map o_id (orders d)) ->
  (forall r, In r rows -> oi_order_id r = order_id) ->
  referential d'.
Proof.
  unfold referential, max_order_id. intros Href Hoid Ho Hi Hid Hall.
  assert (Hmax : order_id <= Sql.list_max (map o_id (orders d'))).
  { apply list_max_ge. rewrite Ho, map_app. apply in_or_app. right.
    simpl. auto. }
  unfold Sql.next_rowid in Hid.
  rewrite Hi. apply Forall_app. split.
  - rewrite Forall_forall in *. intros r Hr. specialize (Href r Hr). lia.
  - rewrite Forall_forall. intros r Hr. rewrite (Hall r Hr). lia.
Qed.

Lemma referential_empty : referential empty_db.
Proof. constructor. Qed.

(** [create_order] keeps the database referential, whether it returns or
    raises. *)
Lemma create_order_keeps_referential customer_id order_items0 payment_method
      cashier_name e d d' r :
  referential d ->
  DbManager.create_order customer_id order_items0 payment_method cashier_name e d
    = (d', r) ->
  referential d'.
Proof.
  intros Href. unfold DbManager.create_order, with_connection.
  destruct (DbManager.create_order_body _ _ _ _ e (connect d)) as [w [a|y]] eqn:E;
    intros H; inversion H; subst.
  - apply Writes.create_order_body_ok in E.
    destruct E as [subtotal [rows [_ [Hid [_ [Ho [Hi [Hm _]]]]]]]]. simpl in *.
    apply stored_rows in Hm. destruct Hm as [Hall _].
    eapply referential_after;
      [exact Href| |exact Ho|exact Hi|exact Hid|exact Hall]. reflexivity.
  - rewrite (Atomic.create_order_body_raises _ _ _ _ _ _ _ _ E). exact Href.
Qed.

Lemma main_create_order_keeps_referential order_items0 payment_method
      cashier_name e d d' r :
  referential d ->
  Main.create_order order_items0 payment_method cashier_name e d = (d', r) ->
  referential d'.
Proof.
  intros Href. unfold Main.create_order, plain_connection.
  destruct (Main.create_order_body _ _ _ e (connect d)) as [w [a|y]] eqn:E;
    intros H; inversion H; subst.
  - apply Writes.main_create_order_body_ok in E.
    destruct E as [subtotal [rows [_ [Hid [_ [Ho [Hi [Hm [_ [_ [_ Hc]]]]]]]]]]].
    simpl in *. rewrite Hc.
    apply stored_rows in Hm. destruct Hm as [Hall _].
    eapply referential_after;
      [exact Href| |exact Ho|exact Hi|exact Hid|exact Hall]. reflexivity.
  - rewrite (Atomic.main_create_order_body_raises _ _ _ _ _ _ _ E). exact Href.
Qed.

End Stored.

(** ** What a successful insert says of the floats *)

Module Numbers.
Import Run.

Lemma eqb_of_not_nan (x : float) :
  PrimFloat.is_nan x = false -> PrimFloat.eqb x x = true.
Proof. unfold PrimFloat.is_nan. intros H. apply negb_false_iff in H. exact H. Qed.

Lemma insert_order_numbers customer_id order_number subtotal tax total
      payment_method cashier_name created_at d r :
  Sql.insert_order customer_id order_number subtotal tax total payment_method
                   cashier_name created_at d = Ok r ->
  PrimFloat.is_nan subtotal = false /\ PrimFloat.is_nan tax = false /\
  PrimFloat.is_nan total = false.
Proof.
  unfold Sql.insert_order.
  destruct (negb (Sql.opt_in_int64 customer_id)); [discriminate|].
  destruct (PrimFloat.is_nan subtotal); [discriminate|].
  destruct (PrimFloat.is_nan tax); [discriminate|].
  destruct (PrimFloat.is_nan total); [discriminate|].
  auto.
Qed.

Lemma insert_order_item_number order_id product_id quantity unit_price
      customizations d r :
  Sql.insert_order_item order_id product_id quantity unit_price customizations d
    = Ok r ->
  PrimFloat.is_nan unit_price = false.
Proof.
  unfold Sql.insert_order_item.
  destruct (negb (_ && _ && _)); [discriminate|].
  destruct (PrimFloat.is_nan unit_price); [discriminate|reflexivity].
Qed.

Lemma insert_items_numbers {A : Type} (order_id : Z) (pid qty : A -> Z)
      (price : A -> float) (cust : A -> option (list customization))
      (xs : list A) e w w' u :
  for_each xs (fun x => execute (Sql.insert_order_item order_id (pid x) (qty x)
                                                       (price x) (cust x))) e w
    = (w', Ok u) ->
  Forall (fun x => PrimFloat.is_nan (price x) = false) xs.
Proof.
  revert w. induction xs as [|x xs IH]; simpl; intros w H; [constructor|].
  apply bind_ok in H. destruct H as [u1 [w1 [H1 H2]]].
  apply execute_ok in H1. destruct H1 as [_ [d' [rowid [Hs _]]]].
  constructor; [apply (insert_order_item_number _ _ _ _ _ _ _ Hs)|].
  apply (IH w1 H2).
Qed.

(** A successful [create_order] has stored numbers. *)
Lemma create_order_numbers customer_id order_items0 payment_method cashier_name
      e d d' order_id subtotal :
  DbManager.create_order customer_id order_items0 payment_method cashier_name e d
    = (d', Ok order_id) ->
  order_subtotal order_items0 = Ok subtotal ->
  PrimFloat.is_nan subtotal = false /\
  PrimFloat.is_nan (order_tax subtotal) = false /\
  PrimFloat.is_nan (order_total subtotal) = false /\
  Forall (fun i => PrimFloat.is_nan (unit_price i) = false) order_items0.
Proof.
  unfold DbManager.create_order, with_connection.
  destruct (DbManager.create_order_body _ _ _ _ e (connect d)) as [w [a|y]] eqn:E;
    intros H; inversion H; subst. clear H. intros Hsub.
  unfold DbManager.create_order_body in E.
  apply bind_ok in E. destruct E as [s [w1 [H1 E]]].
  unfold lift in H1. inversion H1; subst w1. clear H1.
  assert (Es : s = subtotal) by congruence. rewrite Es in *. clear Es.
  apply bind_ok in E. destruct E as [t [w1 [_ E]]].
  apply bind_ok in E. destruct E as [ts [w2 [_ E]]].
  apply bind_ok in E. destruct E as [u [w3 [H3 E]]].
  apply execute_ok in H3. destruct H3 as [_ [d1 [rowid [Hs _]]]].
  apply insert_order_numbers in Hs. destruct Hs as [N1 [N2 N3]].
  apply bind_ok in E. destruct E as [oid [w4 [_ E]]].
  apply bind_ok in E. destruct E as [u2 [w5 [Hloop _]]].
  apply (insert_items_numbers _ product_id quantity unit_price
           (fun i => Some (match customizations i with Some cs => cs | None => [] end)))
    in Hloop.
  auto.
Qed.

Lemma main_create_order_numbers order_items0 payment_method cashier_name
      e d d' order_id subtotal :
  Main.create_order order_items0 payment_method cashier_name e d
    = (d', Ok order_id) ->
  order_subtotal order_items0 = Ok subtotal ->
  PrimFloat.is_nan subtotal = false /\
  PrimFloat.is_nan (order_tax subtotal) = false /\
  PrimFloat.is_nan (order_total subtotal) = false /\
  Forall (fun i => PrimFloat.is_nan (unit_price i) = false) order_items0.
Proof.
  unfold Main.create_order, plain_connection.
  destruct (Main.create_order_body _ _ _ e (connect d)) as [w [a|y]] eqn:E;
    intros H; inversion H; subst. clear H. intros Hsub.
  unfold Main.create_order_body in E.
  apply bind_ok in E. destruct E as [s [w1 [H1 E]]].
  unfold lift in H1. inversion H1; subst w1. clear H1.
  assert (Es : s = subtotal) by congruence. rewrite Es in *. clear Es.
  apply bind_ok in E. destruct E as [t [w1 [_ E]]].
  apply bind_ok in E. destruct E as [ts [w2 [_ E]]].
  apply bind_ok in E. destruct E as [u [w3 [H3 E]]].
  apply execute_ok in H3. destruct H3 as [_ [d1 [rowid [Hs _]]]].
  apply insert_order_numbers in Hs. destruct Hs as [N1 [N2 N3]].
  apply bind_ok in E. destruct E as [oid [w4 [_ E]]].
  apply bind_ok in E. destruct E as [u2 [w5 [Hloop _]]].
  apply (insert_items_numbers _ product_id quantity unit_price (fun _ => None))
    in Hloop.
  auto.
Qed.

(** Rows that carry the submitted items, compared as Python compares
    them. *)
Lemma rows_as_requested (rows : list order_item_row) (items : list order_item) :
  map item_of_row rows = map item_of_request items ->
  Forall (fun i => PrimFloat.is_nan (unit_price i) = false) items ->
  Forall2 (fun r i =>
             oi_product_id r = product_id i /\
             oi_quantity r = quantity i /\
             PrimFloat.eqb (oi_unit_price r) (unit_price i) = true)
          rows items.
Proof.
  revert items. induction rows as [|r rows IH]; intros [|i items] Hm Hn;
    try discriminate; [constructor|].
  simpl in Hm. unfold item_of_row, item_of_request in Hm.
  injection Hm as Hp Hq Hu Hm. inversion Hn as [|? ? Hi Hrest]; subst.
  constructor; [|apply IH; assumption].
  rewrite Hp, Hq, Hu. repeat split. apply eqb_of_not_nan, Hi.
Qed.

(** From the row as written to the row as read. *)
Lemma as_read (order_items0 : list order_item) (d' : db) (order_id : Z)
      (subtotal : float) :
  stored_as_submitted order_items0 d' order_id ->
  order_subtotal order_items0 = Ok subtotal ->
  PrimFloat.is_nan subtotal = false ->
  PrimFloat.is_nan (order_tax subtotal) = false ->
  PrimFloat.is_nan (order_total subtotal) = false ->
  Forall (fun i => PrimFloat.is_nan (unit_price i) = false) order_items0 ->
  exists o subtotal,
    orders_with_id order_id d' = [o] /\
    Py.sum (map (fun i => Py.mul_int_float (quantity i) (unit_price i)) order_items0)
      = Ok subtotal /\
    PrimFloat.eqb (o_subtotal o) subtotal = true /\
    PrimFloat.eqb (o_tax o) (PrimFloat.mul subtotal 0.08) = true /\
    PrimFloat.eqb (o_total o)
                  (PrimFloat.add subtotal (PrimFloat.mul subtotal 0.08)) = true /\
    List.length (items_of_order order_id d') = List.length order_items0 /\
    Forall2 (fun r i =>
               oi_product_id r = product_id i /\
               oi_quantity r = quantity i /\
               PrimFloat.eqb (oi_unit_price r) (unit_price i) = true)
            (items_of_order order_id d') order_items0.
Proof.
  intros [o [s [Ho [Hs [H1 [H2 [H3 [Hl Hm]]]]]]]] Hsub N1 N2 N3 Nu.
  assert (Es : s = subtotal) by congruence.
  rewrite Es in H1, H2, H3. clear Es Hs.
  exists o, subtotal. split; [exact Ho|]. split; [exact Hsub|].
  split; [rewrite H1; apply eqb_of_not_nan, N1|].
  split; [rewrite H2; apply eqb_of_not_nan, N2|].
  split; [rewrite H3; apply eqb_of_not_nan, N3|].
  split; [exact Hl|].
  apply rows_as_requested; assumption.
Qed.

End Numbers.

(** C3.  After a successful [create_order] on a database whose OrderItem rows
    all refer to order ids already handed out, the new id names exactly one
    Order row.  Its subtotal is the sum, from left to right, of
    [quantity * unit_price] over the submitted line items, its tax is that
    subtotal times 0.08 and its total is subtotal plus tax, each equal as
    Python's [==] has it to the float the call computed (SQLite gives a
    stored zero back without its sign).  The OrderItem rows stored under the
    id are as many as the line items and carry, in order, their product id,
    quantity and unit price.  This holds for [db_manager.py] and for
    [main.py].  The condition on the database holds for the empty database
    and is kept by [create_order] and by [_populate_dummy_data] (lemmas
    [create_order_keeps_referential], [main_create_order_keeps_referential]
    and [populate_keeps_referential]), so for every database the program
    has written. *)
Theorem create_order_stores_the_submitted_order (customer_id : option Z)
    (order_items0 : list order_item) (payment_method cashier_name : string)
    (e : env) (d : db) (Href : referential d) :
  (forall d' order_id,
     DbManager.create_order customer_id order_items0 payment_method cashier_name e d
       = (d', Ok order_id) ->
     exists o subtotal,
       orders_with_id order_id d' = [o] /\
       Py.sum (map (fun i => Py.mul_int_float (quantity i) (unit_price i))
                   order_items0) = Ok subtotal /\
       PrimFloat.eqb (o_subtotal o) subtotal = true /\
       PrimFloat.eqb (o_tax o) (PrimFloat.mul subtotal 0.08) = true /\
       PrimFloat.eqb (o_total o)
                     (PrimFloat.add subtotal (PrimFloat.mul subtotal 0.08)) = true /\
       List.length (items_of_order order_id d') = List.length order_items0 /\
       Forall2 (fun r i =>
                  oi_product_id r = product_id i /\
                  oi_quantity r = quantity i /\
                  PrimFloat.eqb (oi_unit_price r) (unit_price i) = true)
               (items_of_order order_id d') order_items0) /\
  (forall d' order_id,
     Main.create_order order_items0 payment_method cashier_name e d
       = (d', Ok order_id) ->
     exists o subtotal,
       orders_with_id order_id d' = [o] /\
       Py.sum (map (fun i => Py.mul_int_float (quantity i) (unit_price i))
                   order_items0) = Ok subtotal /\
       PrimFloat.eqb (o_subtotal o) subtotal = true /\
       PrimFloat.eqb (o_tax o) (PrimFloat.mul subtotal 0.08) = true /\
       PrimFloat.eqb (o_total o)
                     (PrimFloat.add subtotal (PrimFloat.mul subtotal 0.08)) = true /\
       List.length (items_of_order order_id d') = List.length order_items0 /\
       Forall2 (fun r i =>
                  oi_product_id r = product_id i /\
                  oi_quantity r = quantity i /\
                  PrimFloat.eqb (oi_unit_price r) (unit_price i) = true)
               (items_of_order order_id d') order_items0).
Proof.
  split; intros d' order_id Hrun.
  - pose proof Hrun as Hcall.
    unfold DbManager.create_order, with_connection in Hrun.
    destruct (DbManager.create_order_body _ _ _ _ e (connect d)) as [w [a|y]] eqn:E;
      inversion Hrun; subst.
    apply Writes.create_order_body_ok in E.
    destruct E as [subtotal [rows [Hs [Hid [_ [Ho [Hi [Hm _]]]]]]]].
    simpl in *.
    destruct (Numbers.create_order_numbers _ _ _ _ _ _ _ _ _ Hcall Hs)
      as [N1 [N2 [N3 Nu]]].
    apply (Numbers.as_read order_items0 (pending w) order_id subtotal);
      try assumption.
    eapply Stored.from_writes;
      [exact Href|exact Hs|exact Hid| | | | |exact Ho|exact Hi|exact Hm];
      reflexivity.
  - pose proof Hrun as Hcall.
    unfold Main.create_order, plain_connection in Hrun.
    destruct (Main.create_order_body _ _ _ e (connect d)) as [w [a|y]] eqn:E;
      inversion Hrun; subst.
    apply Writes.main_create_order_body_ok in E.
    destruct E as [subtotal [rows [Hs [Hid [_ [Ho [Hi [Hm [_ [_ [_ Hc]]]]]]]]]]].
    simpl in *.
    destruct (Numbers.main_create_order_numbers _ _ _ _ _ _ _ _ Hcall Hs)
      as [N1 [N2 [N3 Nu]]].
    apply (Numbers.as_read order_items0 (committed w) order_id subtotal);
      try assumption.
    rewrite Hc.
    eapply Stored.from_writes;
      [exact Href|exact Hs|exact Hid| | | | |exact Ho|exact Hi|exact Hm];
      reflexivity.
Qed.

(** ** Totals *)

(** C1, as the code has it.  The totals of the cart display and the totals
    [create_order] persists satisfy [total = subtotal + tax] and
    [tax = subtotal * 0.08], both in binary64 arithmetic, with [subtotal] the
    sum, from left to right, of quantity times unit price.  The tax is the
    product itself: nothing rounds it to two decimals, before display or
    before it is stored. *)
Theorem totals_are_sum_product_and_sum :
  (forall c t,
     Cart.update_totals c = Ok t ->
     Py.sum (map (fun l => Py.mul_int_float (l_quantity l) (p_price (l_product l))) c)
       = Ok (Cart.subtotal t) /\
     Cart.tax t = PrimFloat.mul (Cart.subtotal t) TAX_RATE /\
     Cart.total t = PrimFloat.add (Cart.subtotal t) (Cart.tax t)) /\
  (forall customer_id order_items0 payment_method cashier_name e d d' order_id,
     DbManager.create_order customer_id order_items0 payment_method cashier_name e d
       = (d', Ok order_id) ->
     exists o,
       orders d' = orders d ++ [o] /\ o_id o = order_id /\
       Py.sum (map (fun i => Py.mul_int_float (quantity i) (unit_price i)) order_items0)
         = Ok (o_subtotal o) /\
       o_tax o = PrimFloat.mul (o_subtotal o) TAX_RATE /\
       o_total o = PrimFloat.add (o_subtotal o) (o_tax o)) /\
  (forall order_items0 payment_method cashier_name e d d' order_id,
     Main.create_order order_items0 payment_method cashier_name e d
       = (d', Ok order_id) ->
     exists o,
       orders d' = orders d ++ [o] /\ o_id o = order_id /\
       Py.sum (map (fun i => Py.mul_int_float (quantity i) (unit_price i)) order_items0)
         = Ok (o_subtotal o) /\
       o_tax o = PrimFloat.mul (o_subtotal o) TAX_RATE /\
       o_total o = PrimFloat.add (o_subtotal o) (o_tax o)).
Proof.
  split; [|split].
  - intros c t. unfold Cart.update_totals.
    destruct (Py.sum _) as [s|x]; intros H; inversion H; subst. simpl. auto.
  - intros customer_id order_items0 payment_method cashier_name e d d' order_id.
    unfold DbManager.create_order, with_connection.
    destruct (DbManager.create_order_body _ _ _ _ e (connect d)) as [w [a|y]] eqn:E;
      intros H; inversion H; subst.
    apply Writes.create_order_body_ok in E.
    destruct E as [subtotal [rows [Hs [Hid [_ [Ho _]]]]]]. simpl in Ho.
    eexists. split; [exact Ho|]. simpl. repeat split; auto.
  - intros order_items0 payment_method cashier_name e d d' order_id.
    unfold Main.create_order, plain_connection.
    destruct (Main.create_order_body _ _ _ e (connect d)) as [w [a|y]] eqn:E;
      intros H; inversion H; subst.
    apply Writes.main_create_order_body_ok in E.
    destruct E as [subtotal [rows [Hs [Hid [_ [Ho [_ [_ [_ [_ [_ Hc]]]]]]]]]]].
    simpl in Ho. rewrite Hc.
    eexists. split; [exact Ho|]. simpl. repeat split; auto.
Qed.

(** Two Espressos (2.50) and a Macchiato (3.75): the subtotal is 8.75, the
    tax on the display and in the Order row is 0.70000000000000007, and
    [round(subtotal * 0.08, 2)] is 0.7 (0.69999999999999996): they differ. *)
Lemma tax_is_not_rounded_to_cents :
  let espresso := mkProduct 1 "Espresso" "Coffee" 2.5%float "" "" true in
  let macchiato := mkProduct 6 "Macchiato" "Coffee" 3.75%float "" "" true in
  let current_order := [mkLine espresso 2 []; mkLine macchiato 1 []] in
  let t := mkDatetime (mkDate 2024 3 5) 14 7 9 0 in
  let e := mkEnv t t (fun _ => false) (fun _ => 0) in
  (exists totals,
     Cart.update_totals current_order = Ok totals /\
     Cart.subtotal totals = 8.75%float /\
     PrimFloat.eqb (Cart.tax totals)
                   (Py.round2 (PrimFloat.mul (Cart.subtotal totals) TAX_RATE)) = false) /\
  (exists d' o,
     Main.process_payment current_order e empty_db = (d', [], Ok (Some 1)) /\
     orders d' = [o] /\
     PrimFloat.eqb (o_tax o)
                   (Py.round2 (PrimFloat.mul (o_subtotal o) TAX_RATE)) = false).
Proof.
  intros espresso macchiato current_order t e. split.
  - eexists. split; [vm_compute; reflexivity|]. split; vm_compute; reflexivity.
  - eexists. eexists. split; [vm_compute; reflexivity|].
    split; [reflexivity|vm_compute; reflexivity].
Qed.

(** ** Validation *)

(** [create_order] takes an empty list, and a line item of quantity -1, and
    commits them. *)
Lemma create_order_accepts_empty_and_nonpositive :
  let t := mkDatetime (mkDate 2024 3 5) 14 7 9 0 in
  let e := mkEnv t t (fun _ => false) (fun _ => 0) in
  (exists d',
     DbManager.create_order None [] "cash" "Jane Doe" e empty_db = (d', Ok 1) /\
     List.length (orders d') = 1%nat /\ d' <> empty_db) /\
  (exists d',
     DbManager.create_order None [mkItem 1 (-1) 2.5%float None] "cash" "Jane Doe"
                            e empty_db = (d', Ok 1) /\
     map oi_quantity (order_items d') = [-1] /\
     map o_subtotal (orders d') = [(-2.5)%float]).
Proof.
  intros t e. split.
  - eexists. split; [vm_compute; reflexivity|]. split; [reflexivity|discriminate].
  - eexists. split; [vm_compute; reflexivity|]. split; reflexivity.
Qed.

Module Empty.

Lemma zero_totals :
  order_subtotal [] = Ok PrimFloat.zero /\
  order_tax PrimFloat.zero = PrimFloat.zero /\
  order_total PrimFloat.zero = PrimFloat.zero.
Proof. repeat split. Qed.

(** [create_order] on an empty list: the Order row it commits. *)
Lemma create_order_nil customer_id payment_method cashier_name e d :
  fault e 0%nat = false -> fault e 1%nat = false ->
  Sql.opt_in_int64 customer_id = true ->
  existsb (fun o => String.eqb (o_order_number o) (order_number_of (now e)))
          (orders d) = false ->
  Sql.in_int64 (Sql.next_rowid (orders_seq d) (map o_id (orders d))) = true ->
  let order_id := Sql.next_rowid (orders_seq d) (map o_id (orders d)) in
  DbManager.create_order customer_id [] payment_method cashier_name e d =
  (mkDb (products d) (customers d)
        (orders d ++ [mkOrder order_id customer_id (order_number_of (now e))
                              PrimFloat.zero PrimFloat.zero PrimFloat.zero
                              payment_method "completed" cashier_name (utc_now e)])
        (order_items d) (inventory d) order_id (order_items_seq d),
   Ok order_id).
Proof.
  intros Hfault Hcommit Hcid Hfresh Hid order_id.
  unfold DbManager.create_order, with_connection, DbManager.create_order_body.
  unfold bind, lift, datetime_now, current_timestamp, execute, commit, connect.
  simpl. rewrite Hfault. unfold Sql.insert_order.
  rewrite Hcid. simpl. rewrite Hfresh. subst order_id. rewrite Hid. simpl.
  rewrite Hcommit. reflexivity.
Qed.

End Empty.

(** C4, as the code has it.  The empty cart is turned away by the caller:
    [process_payment] returns at once on an empty cart, without a call to
    [create_order], and the database is unchanged; and the carts it submits
    hold quantities of at least 1, since no sequence of cart operations
    produces another.  [create_order] itself validates nothing: called with
    an empty list, on a working store and with an order number not yet used,
    it commits one Order row with subtotal, tax and total 0 and no OrderItem
    row. *)
Theorem empty_cart_is_turned_away_by_the_caller :
  (forall e d, Main.process_payment [] e d = (d, [], Ok None)) /\
  (forall ops,
     Forall (fun i => 1 <= quantity i) (Main.order_items_of (Cart.run ops))) /\
  (forall customer_id payment_method cashier_name e d,
     fault e 0%nat = false -> fault e 1%nat = false ->
     Sql.opt_in_int64 customer_id = true ->
     existsb (fun o => String.eqb (o_order_number o) (order_number_of (now e)))
             (orders d) = false ->
     Sql.in_int64 (Sql.next_rowid (orders_seq d) (map o_id (orders d))) = true ->
     exists d' order_id o,
       DbManager.create_order customer_id [] payment_method cashier_name e d
         = (d', Ok order_id) /\
       orders d' = orders d ++ [o] /\ order_items d' = order_items d /\
       o_id o = order_id /\
       o_subtotal o = PrimFloat.zero /\ o_tax o = PrimFloat.zero /\
       o_total o = PrimFloat.zero).
Proof.
  split; [reflexivity|]. split.
  - intros ops.
    destruct (CartInvariant.inv_fold ops [] CartInvariant.inv_empty) as [_ Hp].
    unfold Main.order_items_of. apply Forall_map. simpl. exact Hp.
  - intros customer_id payment_method cashier_name e d H0 H1 H2 H3 H4.
    do 3 eexists. split; [apply Empty.create_order_nil; assumption|].
    simpl. repeat split.
Qed.

(** ** Order numbers *)

(** The order number of [create_order] is a function of the second the
    clock shows. *)
Lemma order_number_ignores_microseconds (d : date) (h m s us1 us2 : Z) :
  order_number_of (mkDatetime d h m s us1) = order_number_of (mkDatetime d h m s us2).
Proof. reflexivity. Qed.

Module Collide.

Lemma existsb_app_last {A : Type} (f : A -> bool) (l : list A) (a : A) :
  f a = true -> existsb f (l ++ [a]) = true.
Proof.
  intros H. rewrite existsb_app. simpl. rewrite H.
  destruct (existsb f l); reflexivity.
Qed.

End Collide.

(** C5, on the code: a second [create_order] within the second of a
    successful one builds the same order number, so it cannot succeed: it
    raises, and its sale is not stored.  Two runs of the generator collide
    whenever the clock shows the same second. *)
Theorem same_second_order_is_lost
    (customer_id1 customer_id2 : option Z) (items1 items2 : list order_item)
    (payment_method1 payment_method2 cashier1 cashier2 : string)
    (e1 e2 : env) (d d1 d2 : db) (order_id1 : Z) (r : result Z) :
  DbManager.create_order customer_id1 items1 payment_method1 cashier1 e1 d
    = (d1, Ok order_id1) ->
  order_number_of (now e2) = order_number_of (now e1) ->
  DbManager.create_order customer_id2 items2 payment_method2 cashier2 e2 d1
    = (d2, r) ->
  (exists x, r = Raise x) /\ d2 = d1.
Proof.
  unfold DbManager.create_order, with_connection.
  destruct (DbManager.create_order_body _ _ _ _ e1 (connect d)) as [w1 [a|y]] eqn:E1;
    intros H1; inversion H1; subst. clear H1.
  intros Hnum.
  destruct (DbManager.create_order_body _ _ _ _ e2 (connect (pending w1)))
    as [w2 [a|y]] eqn:E2; intros H2; inversion H2; subst; clear H2.
  - exfalso.
    apply Writes.create_order_body_ok in E1, E2.
    destruct E1 as [s1 [rows1 [_ [_ [_ [Ho1 _]]]]]].
    destruct E2 as [s2 [rows2 [_ [_ [Hfresh _]]]]].
    simpl in Ho1, Hfresh. rewrite Ho1, Hnum in Hfresh.
    rewrite Collide.existsb_app_last in Hfresh; [discriminate|].
    simpl. apply String.eqb_refl.
  - split; [eauto|].
    apply (Atomic.create_order_body_raises _ _ _ _ _ _ _ _ E2).
Qed.

Lemma same_second_order_is_lost_witness :
  let t1 := mkDatetime (mkDate 2024 3 5) 14 7 9 100000 in
  let t2 := mkDatetime (mkDate 2024 3 5) 14 7 9 900000 in
  let e1 := mkEnv t1 t1 (fun _ => false) (fun _ => 0) in
  let e2 := mkEnv t2 t2 (fun _ => false) (fun _ => 0) in
  let latte := [mkItem 2 1 3.5%float None] in
  let mocha := [mkItem 5 1 4%float None] in
  exists d1,
    DbManager.create_order None latte "cash" "Jane Doe" e1 empty_db = (d1, Ok 1) /\
    map o_order_number (orders d1) = ["ORD20240305140709"%string] /\
    DbManager.create_order None mocha "card" "Jane Doe" e2 d1
      = (d1, Raise IntegrityError) /\
    ((exists x, Raise (A:=Z) IntegrityError = Raise x) /\ d1 = d1).
Proof.
  intros t1 t2 e1 e2 latte mocha.
  eexists. split; [vm_compute; reflexivity|].
  split; [reflexivity|]. split; [vm_compute; reflexivity|].
  eapply (same_second_order_is_lost None None latte mocha "cash" "card"
            "Jane Doe" "Jane Doe" e1 e2 empty_db).
  - vm_compute. reflexivity.
  - reflexivity.
  - vm_compute. reflexivity.
Defined.

(** ** The orders of [ORDER BY] *)

Module TextOrder.

Lemma ascii_compare_refl (a : ascii) : Ascii.compare a a = Eq.
Proof. apply N.compare_refl. Qed.

Lemma ascii_compare_lt_trans (a b c : ascii) :
  Ascii.compare a b = Lt -> Ascii.compare b c = Lt -> Ascii.compare a c = Lt.
Proof.
  unfold Ascii.compare. rewrite !N.compare_lt_iff. apply N.lt_trans.
Qed.

Lemma compare_refl (s : string) : String.compare s s = Eq.
Proof.
  induction s as [|a s IH]; simpl; [reflexivity|].
  rewrite ascii_compare_refl. exact IH.
Qed.

Lemma compare_lt_trans (s1 s2 s3 : string) :
  String.compare s1 s2 = Lt -> String.compare s2 s3 = Lt ->
  String.compare s1 s3 = Lt.
Proof.
  revert s2 s3. induction s1 as [|a s1 IH]; intros [|b s2] [|c s3]; simpl;
    try discriminate; auto.
  destruct (Ascii.compare a b) eqn:Eab; try discriminate;
    destruct (Ascii.compare b c) eqn:Ebc; try discriminate; intros H1 H2.
  - apply Ascii.compare_eq_iff in Eab, Ebc. subst.
    rewrite ascii_compare_refl. eapply IH; eauto.
  - apply Ascii.compare_eq_iff in Eab. subst. rewrite Ebc. reflexivity.
  - apply Ascii.compare_eq_iff in Ebc. subst. rewrite Eab. reflexivity.
  - rewrite (ascii_compare_lt_trans a b c Eab Ebc). reflexivity.
Qed.

(** [<=] on TEXT, from [compare]. *)
Lemma leb_cases (s1 s2 : string) :
  String.leb s1 s2 = true <-> String.compare s1 s2 = Lt \/ s1 = s2.
Proof.
  unfold String.leb. split.
  - destruct (String.compare s1 s2) eqn:E; intros H; try discriminate; auto.
    right. apply String.compare_eq_iff, E.
  - intros [->| ->]; [reflexivity|]. rewrite compare_refl. reflexivity.
Qed.

Lemma leb_trans (s1 s2 s3 : string) :
  String.leb s1 s2 = true -> String.leb s2 s3 = true -> String.leb s1 s3 = true.
Proof.
  rewrite !leb_cases. intros [H1| ->] [H2| ->]; auto.
  left. eapply compare_lt_trans; eauto.
Qed.

Lemma by_name_trans : Transitive (fun a b => is_true (by_name a b)).
Proof. intros a b c. unfold by_name, is_true. apply leb_trans. Qed.

Lemma by_category_name_trans : Transitive (fun a b => is_true (by_category_name a b)).
Proof.
  intros a b c. unfold by_category_name, is_true.
  destruct (String.compare (p_category a) (p_category b)) eqn:Eab;
    try discriminate;
    destruct (String.compare (p_category b) (p_category c)) eqn:Ebc;
    try discriminate; intros H1 H2.
  - apply String.compare_eq_iff in Eab, Ebc. rewrite Eab, Ebc, compare_refl.
    eapply leb_trans; eauto.
  - apply String.compare_eq_iff in Eab. rewrite Eab, Ebc. reflexivity.
  - apply String.compare_eq_iff in Ebc. rewrite <- Ebc, Eab. reflexivity.
  - rewrite (compare_lt_trans _ _ _ Eab Ebc). reflexivity.
Qed.

Lemma by_stock_trans : Transitive (fun a b => is_true (by_stock a b)).
Proof.
  intros a b c. unfold by_stock, is_true. rewrite !Z.leb_le. lia.
Qed.

End TextOrder.

(** ** The catalog *)

Module CatalogFacts.

Lemma in_sorted_by_name (l : list product) (p : product) :
  In p (SortByName.sort l) <-> In p l.
Proof.
  split; apply Permutation_in.
  - apply Permutation_sym, SortByName.Permuted_sort.
  - apply SortByName.Permuted_sort.
Qed.

Lemma in_sorted_by_category_name (l : list product) (p : product) :
  In p (SortByCategoryName.sort l) <-> In p l.
Proof.
  split; apply Permutation_in.
  - apply Permutation_sym, SortByCategoryName.Permuted_sort.
  - apply SortByCategoryName.Permuted_sort.
Qed.

Lemma in_category_iff (category : string) (p : product) :
  Catalog.in_category category p = true <->
  p_category p = category /\ p_is_available p = true.
Proof.
  unfold Catalog.in_category. rewrite andb_true_iff, String.eqb_eq. tauto.
Qed.

End CatalogFacts.

(** C6, as the code has it.  For every category value,
    [get_products_by_category] of [db_manager.py] returns exactly the
    available products of that category, ordered by name; it has no
    sentinel, so ["All"] is a category like any other.  [main.py] answers
    the same for every value but ["All"], and for ["All"] returns every
    available product ordered by (category, name). *)
Theorem products_by_category (category : string) (d : db) :
  (Permutation (filter (Catalog.in_category category) (products d))
               (Catalog.get_products_by_category category d) /\
   (forall p, In p (Catalog.get_products_by_category category d) <->
              In p (products d) /\ p_category p = category /\ p_is_available p = true) /\
   StronglySorted (fun a b => String.leb (p_name a) (p_name b) = true)
                  (Catalog.get_products_by_category category d)) /\
  (category <> "All"%string ->
   Catalog.get_products_by_category_main category d =
   Catalog.get_products_by_category category d) /\
  (Permutation (filter p_is_available (products d))
               (Catalog.get_products_by_category_main "All" d) /\
   (forall p, In p (Catalog.get_products_by_category_main "All" d) <->
              In p (products d) /\ p_is_available p = true) /\
   StronglySorted (fun a b => by_category_name a b = true)
                  (Catalog.get_products_by_category_main "All" d)).
Proof.
  split; [|split].
  - unfold Catalog.get_products_by_category. split; [|split].
    + apply SortByName.Permuted_sort.
    + intros p. rewrite CatalogFacts.in_sorted_by_name, filter_In,
        CatalogFacts.in_category_iff. tauto.
    + apply (SortByName.StronglySorted_sort _ TextOrder.by_name_trans).
  - intros Hne. unfold Catalog.get_products_by_category_main.
    apply String.eqb_neq in Hne. rewrite Hne. reflexivity.
  - unfold Catalog.get_products_by_category_main. simpl. split; [|split].
    + apply SortByCategoryName.Permuted_sort.
    + intros p. rewrite CatalogFacts.in_sorted_by_category_name, filter_In. tauto.
    + apply (SortByCategoryName.StronglySorted_sort _ TextOrder.by_category_name_trans).
Qed.

(** In [db_manager.py] the value ["All"] selects the products whose category
    is the text All: with an Espresso and a Croissant on sale it returns
    nothing, where [main.py] returns both. *)
Lemma all_is_no_sentinel_in_db_manager :
  let espresso := mkProduct 1 "Espresso" "Coffee" 2.5%float "" "" true in
  let croissant := mkProduct 2 "Croissant" "Pastries" 2%float "" "" true in
  let d := mkDb [espresso; croissant] [] [] [] [] 0 0 in
  Catalog.get_products_by_category "All" d = [] /\
  filter p_is_available (products d) = [espresso; croissant] /\
  Catalog.get_products_by_category_main "All" d = [espresso; croissant].
Proof. intros espresso croissant d. repeat split. Qed.

(** ** The stock report *)

Module StockFacts.

(** The rows of the join, before sorting. *)
Lemma in_join (d : db) (r : low_stock_row) :
  In r (Inventory.low_stock_join d) <->
  exists p i,
    In p (products d) /\ In i (inventory d) /\
    p_id p = i_product_id i /\ i_current_stock i <= i_min_stock i /\
    r = mkLowStock (p_name p) (i_current_stock i) (i_min_stock i).
Proof.
  unfold Inventory.low_stock_join. rewrite in_flat_map. split.
  - intros [p [Hp Hr]]. apply in_map_iff in Hr. destruct Hr as [i [Hr Hi]].
    apply filter_In in Hi. destruct Hi as [Hi Hc].
    apply andb_true_iff in Hc. destruct Hc as [H1 H2].
    apply Z.eqb_eq in H1. apply Z.leb_le in H2.
    exists p, i. auto.
  - intros [p [i [Hp [Hi [H1 [H2 ->]]]]]]. exists p. split; [assumption|].
    apply in_map_iff. exists i. split; [reflexivity|].
    apply filter_In. split; [assumption|].
    apply andb_true_iff. rewrite Z.eqb_eq, Z.leb_le. auto.
Qed.

(** With [inventory.product_id] UNIQUE, a product joins at most one row. *)
Lemma one_inventory_row (pid : Z) (inv : list inventory_row) :
  NoDup (map i_product_id inv) ->
  (List.length (filter (fun i => ((pid =? i_product_id i)
                                  && (i_current_stock i <=? i_min_stock i))%Z) inv)
   <= 1)%nat.
Proof.
  induction inv as [|i inv IH]; simpl; intros Hd; [lia|].
  inversion Hd as [|? ? Hn Hd']; subst. specialize (IH Hd').
  destruct (pid =? i_product_id i) eqn:E; simpl; [|exact IH].
  destruct (i_current_stock i <=? i_min_stock i); simpl; [|exact IH].
  apply Z.eqb_eq in E.
  rewrite (Ids.filter_none _ inv); [simpl; lia|].
  intros j Hj. apply andb_false_iff. left. apply Z.eqb_neq.
  intros Hpj. apply Hn. rewrite <- E, Hpj. apply in_map, Hj.
Qed.

Lemma sorted_by_stock (l : list low_stock_row) :
  StronglySorted (fun a b => is_true (by_stock a b)) l ->
  StronglySorted (fun a b => ls_current_stock a <= ls_current_stock b) l.
Proof.
  intros Hs. induction Hs as [|a l Hl IH Ha]; constructor; auto.
  apply Forall_forall. intros b Hb.
  apply Z.leb_le. exact (proj1 (Forall_forall _ _) Ha b Hb).
Qed.

End StockFacts.

(** C8.  [get_low_stock_items] returns exactly the (name, current stock,
    minimum stock) triples of the products whose inventory row has
    [current_stock <= min_stock]: every such product is reported and nothing
    else is; the rows are in ascending order of current stock; and, the
    inventory holding one row per product at most (its [product_id] is
    UNIQUE), a product joins at most one row, so no product is reported
    twice. *)
Theorem low_stock_items_are_exactly_the_low_ones (d : db) :
  (forall r,
     In r (Inventory.get_low_stock_items d) <->
     exists p i,
       In p (products d) /\ In i (inventory d) /\
       p_id p = i_product_id i /\ i_current_stock i <= i_min_stock i /\
       r = mkLowStock (p_name p) (i_current_stock i) (i_min_stock i)) /\
  Permutation (Inventory.low_stock_join d) (Inventory.get_low_stock_items d) /\
  StronglySorted (fun a b => ls_current_stock a <= ls_current_stock b)
                 (Inventory.get_low_stock_items d) /\
  (NoDup (map i_product_id (inventory d)) ->
   (forall p,
      (List.length (filter (fun i => ((p_id p =? i_product_id i)
                                      && (i_current_stock i <=? i_min_stock i))%Z)
                           (inventory d)) <= 1)%nat) /\
   (List.length (Inventory.get_low_stock_items d) <= List.length (products d))%nat).
Proof.
  unfold Inventory.get_low_stock_items.
  pose proof (SortByStock.Permuted_sort (Inventory.low_stock_join d)) as Hperm.
  split; [|split; [exact Hperm|split]].
  - intros r. rewrite <- StockFacts.in_join. split; apply Permutation_in.
    + apply Permutation_sym, Hperm.
    + exact Hperm.
  - apply StockFacts.sorted_by_stock.
    apply (SortByStock.StronglySorted_sort _ TextOrder.by_stock_trans).
  - intros Hd. split; [intros p; apply StockFacts.one_inventory_row, Hd|].
    rewrite <- (Permutation_length Hperm).
    unfold Inventory.low_stock_join.
    induction (products d) as [|p ps IH]; simpl; [lia|].
    rewrite length_app, length_map.
    pose proof (StockFacts.one_inventory_row (p_id p) (inventory d) Hd). lia.
Qed.

(** ** Floats that are not NaN *)

Module FloatFacts.

(** Not a NaN and not below zero: a zero of either sign, a positive finite
    value or plus infinity. *)
Definition nonneg_sf (x : spec_float) : Prop :=
  match x with
  | S754_zero _ => True
  | S754_finite s _ _ => s = false
  | S754_infinity s => s = false
  | S754_nan => False
  end.

Definition nonneg (x : float) : Prop := nonneg_sf (Prim2SF x).

(** Finite and above zero. *)
Definition positive (x : float) : Prop :=
  exists m e, Prim2SF x = S754_finite false m e.

Lemma shr_1_nonneg mrs : 0 <= shr_m mrs -> 0 <= shr_m (shr_1 mrs).
Proof.
  destruct mrs as [m r s]. simpl.
  destruct m as [|[p|p|]|[p|p|]]; simpl; lia.
Qed.

Lemma iter_shr_1_nonneg p mrs :
  0 <= shr_m mrs -> 0 <= shr_m (iter_pos shr_1 p mrs).
Proof.
  revert mrs. induction p as [p IH|p IH|]; simpl; intros mrs H.
  - apply IH, IH, shr_1_nonneg, H.
  - apply IH, IH, H.
  - apply shr_1_nonneg, H.
Qed.

Lemma shr_fexp_nonneg m e l :
  0 <= m -> 0 <= shr_m (fst (shr_fexp prec emax m e l)).
Proof.
  intros H. unfold shr_fexp, shr.
  assert (H0 : 0 <= shr_m (shr_record_of_loc m l)).
  { destruct l as [|[ | | ]]; simpl; exact H. }
  destruct (_ - e) as [|p|p]; simpl; auto.
  apply iter_shr_1_nonneg, H0.
Qed.

Lemma round_nearest_even_nonneg m l : 0 <= m -> 0 <= round_nearest_even m l.
Proof.
  intros H. destruct l as [|[ | | ]]; simpl; try lia.
  destruct (Z.even m); lia.
Qed.

Lemma binary_round_aux_sign s m e l :
  0 <= m ->
  match binary_round_aux prec emax s m e l with
  | S754_nan => False
  | S754_zero s' | S754_infinity s' | S754_finite s' _ _ => s' = s
  end.
Proof.
  intros H. unfold binary_round_aux.
  pose proof (shr_fexp_nonneg m e l H) as H1.
  destruct (shr_fexp prec emax m e l) as [mrs' e']. simpl in H1.
  pose proof (shr_fexp_nonneg _ e' loc_Exact
                (round_nearest_even_nonneg _ (loc_of_shr_record mrs') H1)) as H2.
  destruct (shr_fexp prec emax (round_nearest_even _ _) e' loc_Exact) as [mrs'' e''].
  simpl in H2. destruct (shr_m mrs'') as [|p|p]; [reflexivity| |lia].
  destruct (e'' <=? emax - prec); reflexivity.
Qed.

Lemma binary_round_sign s m e :
  match binary_round prec emax s m e with
  | S754_nan => False
  | S754_zero s' | S754_infinity s' | S754_finite s' _ _ => s' = s
  end.
Proof.
  unfold binary_round. destruct (shl_align _ _ _) as [mz ez].
  apply binary_round_aux_sign. lia.
Qed.

Lemma nonneg_of_sign x : 
  match x with
  | S754_nan => False
  | S754_zero s' | S754_infinity s' | S754_finite s' _ _ => s' = false
  end -> nonneg_sf x.
Proof. destruct x; simpl; auto. Qed.

Lemma add_nonneg x y : nonneg x -> nonneg y -> nonneg (x + y).
Proof.
  unfold nonneg. rewrite add_spec. unfold SF64add, SFadd.
  destruct (Prim2SF x) as [sx|sx| |sx mx ex], (Prim2SF y) as [sy|sy| |sy my ey];
    simpl; intros Hx Hy; subst; try tauto; try reflexivity.
  - destruct sx, sy; exact I.
  - unfold binary_normalize.
    destruct (shl_align mx ex (Z.min ex ey)) as [m1 e1].
    destruct (shl_align my ey (Z.min ex ey)) as [m2 e2]. simpl.
    apply nonneg_of_sign, binary_round_sign.
Qed.

Lemma mul_nonneg_positive x c : nonneg x -> positive c -> nonneg (x * c).
Proof.
  unfold nonneg. intros Hx [m [e Hc]]. rewrite mul_spec, Hc.
  unfold SF64mul, SFmul.
  destruct (Prim2SF x) as [sx|sx| |sx mx ex]; simpl in *; subst; try tauto.
  apply nonneg_of_sign. apply (binary_round_aux_sign false). lia.
Qed.

Lemma mul_positive_nonneg c x : positive c -> nonneg x -> nonneg (c * x).
Proof.
  unfold nonneg. intros [m [e Hc]] Hx. rewrite mul_spec, Hc.
  unfold SF64mul, SFmul.
  destruct (Prim2SF x) as [sx|sx| |sx mx ex]; simpl in *; subst; try tauto.
  apply nonneg_of_sign. apply (binary_round_aux_sign false). lia.
Qed.

Lemma nonneg_not_nan x : nonneg x -> is_nan x = false.
Proof.
  unfold nonneg, is_nan. rewrite eqb_spec. unfold SFeqb, SFcompare.
  destruct (Prim2SF x) as [s|s| |s m e]; simpl; intros H; subst;
    try contradiction; try reflexivity.
  rewrite Z.compare_refl, Pos.compare_cont_refl. reflexivity.
Qed.

(** [0 <= x] in Python. *)
Lemma nonneg_of_leb x : (0 <=? x)%float = true -> nonneg x.
Proof.
  unfold nonneg. rewrite leb_spec. unfold SFleb, SFcompare.
  change (Prim2SF 0) with (S754_zero false).
  destruct (Prim2SF x) as [s|s| |s m e]; simpl; try discriminate; auto;
    destruct s; simpl; try discriminate; auto.
Qed.

End FloatFacts.

(** ** The calendar *)

Module CalendarFacts.
Import Calendar.

Lemma days_in_month_bounds (y m : Z) : 28 <= days_in_month y m <= 31.
Proof.
  unfold days_in_month.
  destruct (m =? 2); [destruct (is_leap y); lia|].
  destruct ((m =? 4) || (m =? 6) || (m =? 9) || (m =? 11)); lia.
Qed.

Lemma days_in_december (y : Z) : days_in_month y 12 = 31.
Proof. reflexivity. Qed.

Lemma lt_irrefl (d : date) : ~ lt d d.
Proof. unfold lt. lia. Qed.

Lemma lt_trans (a b c : date) : lt a b -> lt b c -> lt a c.
Proof. unfold lt. lia. Qed.

Lemma next_day_lt (d : date) : lt d (next_day d).
Proof.
  unfold next_day, lt.
  destruct (day d <? days_in_month (year d) (month d)) eqn:E1; simpl; [lia|].
  destruct (month d <? 12) eqn:E2; simpl; lia.
Qed.

Lemma add_days_lt (d : date) (i j : nat) :
  (i < j)%nat -> lt (add_days d i) (add_days d j).
Proof.
  intros H. induction H as [|j H IH].
  - apply next_day_lt.
  - eapply lt_trans; [exact IH|apply next_day_lt].
Qed.

(** Different numbers of days added give different dates. *)
Lemma add_days_inj (d : date) (i j : nat) :
  add_days d i = add_days d j -> i = j.
Proof.
  intros H.
  destruct (Nat.lt_trichotomy i j) as [Hlt|[Heq|Hgt]]; [|assumption|].
  - exfalso. apply (lt_irrefl (add_days d j)).
    rewrite <- H at 1. apply add_days_lt, Hlt.
  - exfalso. apply (lt_irrefl (add_days d i)).
    rewrite H at 1. apply add_days_lt, Hgt.
Qed.

Lemma prev_day_valid (d : date) :
  valid d -> 2 <= year d ->
  valid (prev_day d) /\ year d - 1 <= year (prev_day d) <= year d.
Proof.
  unfold valid, prev_day. intros [Hy [Hm Hd]] H2.
  destruct (1 <? day d) eqn:E1; simpl.
  - apply Z.ltb_lt in E1. lia.
  - destruct (1 <? month d) eqn:E2; simpl.
    + apply Z.ltb_lt in E2.
      pose proof (days_in_month_bounds (year d) (month d - 1)). lia.
    + change (days_in_month (year d - 1) 12) with 31. lia.
Qed.

Lemma next_prev_day (d : date) : valid d -> next_day (prev_day d) = d.
Proof.
  unfold valid, prev_day, next_day. intros [Hy [Hm Hd]].
  destruct d as [y m dd]. simpl in *.
  destruct (1 <? dd) eqn:E1; simpl.
  - apply Z.ltb_lt in E1.
    replace (dd - 1 <? days_in_month y m) with true
      by (symmetry; apply Z.ltb_lt; lia).
    f_equal. lia.
  - apply Z.ltb_ge in E1. assert (dd = 1) by lia. subst dd.
    destruct (1 <? m) eqn:E2; simpl.
    + apply Z.ltb_lt in E2. rewrite Z.ltb_irrefl.
      replace (m - 1 <? 12) with true by (symmetry; apply Z.ltb_lt; lia).
      f_equal. lia.
    + apply Z.ltb_ge in E2. assert (m = 1) by lia. subst m.
      change (days_in_month (y - 1) 12) with 31. simpl. f_equal. lia.
Qed.

Lemma sub_days_valid (d : date) (n : nat) :
  valid d -> Z.of_nat n < year d ->
  valid (sub_days d n) /\ year d - Z.of_nat n <= year (sub_days d n) <= year d.
Proof.
  intros Hv. induction n as [|n IH]; intros Hn.
  - simpl. split; [assumption|lia].
  - destruct IH as [IHv IHy]; [lia|].
    change (sub_days d (S n)) with (prev_day (sub_days d n)).
    destruct (prev_day_valid (sub_days d n) IHv) as [H1 H2]; [lia|].
    split; [assumption|lia].
Qed.

(** Going [n] days back and [k <= n] days forward is going [n - k] back. *)
Lemma add_sub_days (d : date) (n k : nat) :
  valid d -> Z.of_nat n < year d -> (k <= n)%nat ->
  add_days (sub_days d n) k = sub_days d (n - k).
Proof.
  intros Hv Hn. induction k as [|k IH]; intros Hk.
  - simpl. rewrite Nat.sub_0_r. reflexivity.
  - change (add_days (sub_days d n) (S k))
      with (next_day (add_days (sub_days d n) k)).
    rewrite IH by lia.
    replace (n - k)%nat with (S (n - S k)) by lia.
    change (sub_days d (S (n - S k))) with (prev_day (sub_days d (n - S k))).
    apply next_prev_day.
    apply sub_days_valid; [assumption|lia].
Qed.

(** The dates of the seed history are dates with a four-digit year. *)
Lemma history_date_valid (d : date) (k : nat) :
  valid d -> 1030 <= year d -> (k <= 30)%nat ->
  valid (add_days (sub_days d 30) k) /\
  1000 <= year (add_days (sub_days d 30) k).
Proof.
  intros Hv Hy Hk. rewrite add_sub_days by (auto; lia).
  destruct (sub_days_valid d (30 - k) Hv) as [H1 H2]; [lia|].
  split; [assumption|lia].
Qed.

End CalendarFacts.

(** ** Formatted numbers *)

Module FmtFacts.
Import Fmt.

Lemma app_inj_length {A : Type} (a a' b b' : list A) :
  List.length a = List.length a' -> a ++ b = a' ++ b' -> a = a' /\ b = b'.
Proof.
  revert a'. induction a as [|x a IH]; intros [|x' a'] Hl H;
    try discriminate; simpl in *.
  - auto.
  - injection H as Hx H. injection Hl as Hl.
    destruct (IH a' Hl H) as [-> ->]. subst. auto.
Qed.

Lemma digit_inj (a b : Z) : digit a = digit b -> a mod 10 = b mod 10.
Proof.
  unfold digit. intros H.
  pose proof (Z.mod_pos_bound a 10 ltac:(lia)) as Ha.
  pose proof (Z.mod_pos_bound b 10 ltac:(lia)) as Hb.
  apply (f_equal nat_of_ascii) in H.
  rewrite !nat_ascii_embedding in H by lia. lia.
Qed.

Lemma digits_length (w : nat) (n : Z) : List.length (digits w n) = w.
Proof.
  revert n. induction w as [|w IH]; intros n; simpl; [reflexivity|].
  rewrite length_app, IH. simpl. lia.
Qed.

(** Fixed-width decimal notation determines the number. *)
Lemma digits_inj (w : nat) (a b : Z) :
  0 <= a < 10 ^ Z.of_nat w -> 0 <= b < 10 ^ Z.of_nat w ->
  digits w a = digits w b -> a = b.
Proof.
  revert a b. induction w as [|w IH]; intros a b Ha Hb H.
  - simpl in Ha, Hb. lia.
  - simpl in H. apply app_inj_tail in H. destruct H as [H1 H2].
    apply digit_inj in H2.
    rewrite Nat2Z.inj_succ, Z.pow_succ_r in Ha, Hb by lia.
    assert (a / 10 = b / 10).
    { apply IH; [| |exact H1].
      - split; [apply Z.div_pos; lia|apply Z.div_lt_upper_bound; lia].
      - split; [apply Z.div_pos; lia|apply Z.div_lt_upper_bound; lia]. }
    rewrite (Z.div_mod a 10), (Z.div_mod b 10) by lia. lia.
Qed.

Lemma zfill_digits (w : nat) (n : Z) :
  n < 10 ^ Z.of_nat w -> zfill w n = digits w n.
Proof.
  intros H. unfold zfill. apply Z.ltb_lt in H. rewrite H. reflexivity.
Qed.

Lemma zfill_inj (w : nat) (a b : Z) :
  0 <= a < 10 ^ Z.of_nat w -> 0 <= b < 10 ^ Z.of_nat w ->
  zfill w a = zfill w b -> a = b.
Proof.
  intros Ha Hb. rewrite !zfill_digits by lia. apply digits_inj; assumption.
Qed.

Lemma zfill_length (w : nat) (n : Z) :
  n < 10 ^ Z.of_nat w -> List.length (zfill w n) = w.
Proof. intros H. rewrite zfill_digits by assumption. apply digits_length. Qed.

Lemma num_digits_fuel_small (fuel : nat) (n : Z) :
  n < 10 -> num_digits_fuel fuel n = 1%nat.
Proof.
  intros H. destruct fuel; simpl; [reflexivity|].
  apply Z.ltb_lt in H. rewrite H. reflexivity.
Qed.

(** A year from 1000 on is written with its four digits. *)
Lemma zfill_year (y : Z) : 1000 <= y < 10000 -> zfill 1 y = digits 4 y.
Proof.
  intros H. unfold zfill.
  replace (y <? 10 ^ Z.of_nat 1) with false
    by (symmetry; apply Z.ltb_ge; simpl Z.of_nat; lia).
  assert (Hl : 9 <= Z.log2 y).
  { change 9 with (Z.log2 512). apply Z.log2_le_mono. lia. }
  assert (H1 : 100 <= y / 10 < 1000).
  { split; [apply Z.div_le_lower_bound|apply Z.div_lt_upper_bound]; lia. }
  assert (H2 : 10 <= y / 10 / 10 < 100).
  { split; [apply Z.div_le_lower_bound|apply Z.div_lt_upper_bound]; lia. }
  assert (H3 : y / 10 / 10 / 10 < 10).
  { apply Z.div_lt_upper_bound; lia. }
  unfold num_digits.
  destruct (Z.to_nat (Z.log2 y)) as [|[|[|f]]] eqn:E; try lia.
  cbn [num_digits_fuel].
  replace (y <? 10) with false by (symmetry; apply Z.ltb_ge; lia).
  replace (y / 10 <? 10) with false by (symmetry; apply Z.ltb_ge; lia).
  replace (y / 10 / 10 <? 10) with false by (symmetry; apply Z.ltb_ge; lia).
  rewrite (num_digits_fuel_small f _ H3). reflexivity.
Qed.

(** A date whose month and day take two characters each and whose year
    takes at most four. *)
Definition eight_chars (d : date) : Prop :=
  0 <= year d < 10000 /\ 0 <= month d < 100 /\ 0 <= day d < 100.

Lemma valid_eight_chars (d : date) : Calendar.valid d -> eight_chars d.
Proof.
  unfold Calendar.valid, eight_chars. intros [Hy [Hm Hd]].
  pose proof (CalendarFacts.days_in_month_bounds (year d) (month d)). lia.
Qed.

(** From the year 1000 on [strftime('%Y%m%d')] writes eight characters. *)
Lemma ymd_length (d : date) :
  eight_chars d -> 1000 <= year d -> List.length (ymd d) = 8%nat.
Proof.
  intros [Hy [Hm Hd]] Hk. unfold ymd.
  rewrite zfill_year by lia.
  rewrite !length_app, digits_length, !zfill_length; [reflexivity| |];
    simpl Z.of_nat; lia.
Qed.

Lemma ymd_inj (a b : date) :
  eight_chars a -> eight_chars b -> 1000 <= year a -> 1000 <= year b ->
  ymd a = ymd b -> a = b.
Proof.
  intros [Hya [Hma Hda]] [Hyb [Hmb Hdb]] Hka Hkb. unfold ymd.
  rewrite !zfill_year by lia. intros H.
  apply app_inj_length in H.
  2:{ rewrite !digits_length. reflexivity. }
  destruct H as [Hy H].
  apply app_inj_length in H.
  2:{ rewrite !zfill_length; [reflexivity| |]; simpl Z.of_nat; lia. }
  destruct H as [Hm Hd].
  apply digits_inj in Hy; try (simpl Z.of_nat; lia).
  apply zfill_inj in Hm, Hd; try (simpl Z.of_nat; lia).
  destruct a, b. simpl in *. congruence.
Qed.

Lemma string_of_list_ascii_inj (a b : list ascii) :
  string_of_list_ascii a = string_of_list_ascii b -> a = b.
Proof.
  intros H. apply (f_equal list_ascii_of_string) in H.
  rewrite !list_ascii_of_string_of_list_ascii in H. exact H.
Qed.

(** The order numbers of the seed history determine the date and the
    sequence number. *)
Lemma seed_order_number_inj (t t' : datetime) (n n' : Z) :
  eight_chars (dt_date t) -> eight_chars (dt_date t') ->
  1000 <= year (dt_date t) -> 1000 <= year (dt_date t') ->
  0 <= n < 1000 -> 0 <= n' < 1000 ->
  Seed.order_number_of t n = Seed.order_number_of t' n' ->
  dt_date t = dt_date t' /\ n = n'.
Proof.
  intros Ht Ht' Hy Hy' Hn Hn'. unfold Seed.order_number_of. intros H.
  apply string_of_list_ascii_inj, app_inv_head in H.
  apply app_inj_length in H; [|rewrite !ymd_length; auto].
  destruct H as [Hd Hz]. split.
  - apply ymd_inj; assumption.
  - apply (zfill_inj 3); simpl Z.of_nat; try lia. exact Hz.
Qed.

End FmtFacts.

(** ** Draws *)

Module RandomFacts.
Import Random.

(** Two worlds that differ in the number of draws taken at most. *)
Definition same_store (w w' : world) : Prop :=
  committed w' = committed w /\ pending w' = pending w /\
  lastrowid w' = lastrowid w /\ statements w' = statements w.

Lemma same_store_refl (w : world) : same_store w w.
Proof. repeat split. Qed.

Lemma same_store_trans (w1 w2 w3 : world) :
  same_store w1 w2 -> same_store w2 w3 -> same_store w1 w3.
Proof. unfold same_store. intros [? [? [? ?]]] [? [? [? ?]]]. repeat split; congruence. Qed.

(** Running the continuation after a step that returned. *)
Lemma bind_run {A B : Type} (c : M A) (k : A -> M B) e w w1 a :
  c e w = (w1, Ok a) -> bind c k e w = k a e w1.
Proof. intros H. unfold bind. rewrite H. reflexivity. Qed.

Lemma randbelow_spec (n : Z) e w :
  0 < n ->
  exists w' r, randbelow n e w = (w', Ok r) /\ same_store w w' /\ 0 <= r < n.
Proof.
  intros Hn. unfold randbelow, bind, draw, ret. simpl.
  eexists. eexists. split; [reflexivity|]. split; [repeat split|].
  apply Z.mod_pos_bound, Hn.
Qed.

Lemma randint_spec (a b : Z) e w :
  a <= b ->
  exists w' r, randint a b e w = (w', Ok r) /\ same_store w w' /\ a <= r <= b.
Proof.
  intros Hab. unfold randint.
  destruct (randbelow_spec (b - a + 1) e w) as [w' [r [H [Hs Hr]]]]; [lia|].
  exists w', (a + r). rewrite (bind_run _ _ _ _ _ _ H).
  split; [reflexivity|]. split; [assumption|lia].
Qed.

Lemma random_spec e w :
  exists w' r, random e w = (w', Ok r) /\ same_store w w'.
Proof.
  unfold random, bind, draw, ret. simpl.
  eexists. eexists. split; [reflexivity|]. repeat split.
Qed.

Lemma index_spec {A : Type} (l : list A) (i : nat) :
  (i < List.length l)%nat -> exists x, Py.index l i = Ok x /\ nth_error l i = Some x.
Proof.
  intros H. unfold Py.index.
  destruct (nth_error l i) as [x|] eqn:E.
  - exists x. auto.
  - apply nth_error_None in E. lia.
Qed.

Lemma choice_spec {A : Type} (l : list A) e w :
  l <> [] ->
  exists w' x, choice l e w = (w', Ok x) /\ same_store w w' /\ In x l.
Proof.
  intros Hl. unfold choice. destruct l as [|a l]; [contradiction|].
  destruct (randbelow_spec (Z.of_nat (List.length (a :: l))) e w)
    as [w' [r [H [Hs Hr]]]]; [simpl; lia|].
  destruct (index_spec (a :: l) (Z.to_nat r)) as [x [Hx Hn]]; [lia|].
  exists w', x. rewrite (bind_run _ _ _ _ _ _ H). unfold lift. rewrite Hx.
  split; [reflexivity|]. split; [assumption|].
  eapply nth_error_In, Hn.
Qed.

(** Taking the [j]th element out of a list. *)
Lemma take_out {A : Type} (l : list A) (j : nat) (x : A) :
  nth_error l j = Some x ->
  Permutation l (x :: firstn j l ++ skipn (S j) l) /\
  List.length (firstn j l ++ skipn (S j) l) = pred (List.length l).
Proof.
  revert j. induction l as [|a l IH]; intros [|j] H; simpl in *; try discriminate.
  - inversion H; subst. split; [apply Permutation_refl|reflexivity].
  - destruct (IH j H) as [Hp Hl]. split.
    + eapply perm_trans; [apply perm_skip, Hp|apply perm_swap].
    + rewrite Hl. assert (j < List.length l)%nat
        by (apply nth_error_Some; congruence).
      destruct l; simpl in *; [lia|reflexivity].
Qed.

(** [random.sample]: as many elements as asked for, taken from different
    places of the population. *)
Lemma sample_from_spec {A : Type} (k : nat) (pool : list A) e w :
  (k <= List.length pool)%nat ->
  exists w' l rest,
    sample_from pool k e w = (w', Ok l) /\ same_store w w' /\
    List.length l = k /\ Permutation pool (l ++ rest).
Proof.
  revert pool w. induction k as [|k IH]; intros pool w Hk; simpl.
  - exists w, [], pool. split; [reflexivity|]. split; [apply same_store_refl|].
    split; [reflexivity|apply Permutation_refl].
  - destruct (randbelow_spec (Z.of_nat (List.length pool)) e w)
      as [w1 [r [H1 [Hs1 Hr]]]]; [lia|].
    destruct (index_spec pool (Z.to_nat r)) as [x [Hx Hn]]; [lia|].
    destruct (take_out pool (Z.to_nat r) x Hn) as [Hp Hl].
    destruct (IH (firstn (Z.to_nat r) pool ++ skipn (S (Z.to_nat r)) pool) w1)
      as [w2 [l [rest [H2 [Hs2 [Hlen Hperm]]]]]]; [rewrite Hl; lia|].
    exists w2, (x :: l), rest.
    rewrite (bind_run _ _ _ _ _ _ H1). unfold lift at 1.
    unfold bind at 1. rewrite Hx.
    rewrite (bind_run _ _ _ _ _ _ H2). unfold ret.
    split; [reflexivity|].
    split; [eapply same_store_trans; eassumption|].
    split; [simpl; lia|].
    simpl. eapply perm_trans; [exact Hp|apply perm_skip, Hperm].
Qed.

Lemma sample_spec {A : Type} (population : list A) (k : Z) e w :
  0 <= k <= Z.of_nat (List.length population) ->
  exists w' l rest,
    sample population k e w = (w', Ok l) /\ same_store w w' /\
    Z.of_nat (List.length l) = k /\ Permutation population (l ++ rest).
Proof.
  intros Hk. unfold sample.
  replace ((k <? 0) || (Z.of_nat (List.length population) <? k)) with false.
  - destruct (sample_from_spec (Z.to_nat k) population e w)
      as [w' [l [rest [H [Hs [Hl Hp]]]]]]; [lia|].
    exists w', l, rest. split; [assumption|]. split; [assumption|].
    split; [lia|assumption].
  - symmetry. apply orb_false_iff. rewrite !Z.ltb_ge. lia.
Qed.

End RandomFacts.

(** ** The seed history, step by step *)

Module SeedSteps.
Import RandomFacts.

(** The order tables of a database in which [n] orders and [m] order items
    have been numbered so far. *)
Definition tables (n m : Z) (d : db) : Prop :=
  0 <= n /\ 0 <= m /\ orders_seq d = n /\ order_items_seq d = m /\
  Forall (fun o => o_id o <= n) (orders d) /\
  Forall (fun r => oi_id r <= m) (order_items d) /\
  Forall (fun r => oi_order_id r <= n) (order_items d).

Lemma list_max_le (ids : list Z) (b : Z) :
  0 <= b -> Forall (fun x => x <= b) ids -> Sql.list_max ids <= b.
Proof.
  intros Hb H. induction H as [|x ids Hx H IH]; simpl; lia.
Qed.

Lemma next_rowid_tables (seq b : Z) (ids : list Z) :
  0 <= b -> seq = b -> Forall (fun x => x <= b) ids ->
  Sql.next_rowid seq ids = b + 1.
Proof.
  intros Hb Hs H. unfold Sql.next_rowid.
  pose proof (list_max_le ids b Hb H). lia.
Qed.

Lemma in_int64_small (z : Z) : 0 <= z < 2 ^ 63 -> Sql.in_int64 z = true.
Proof.
  intros H. unfold Sql.in_int64. apply andb_true_iff.
  rewrite Z.leb_le, Z.ltb_lt. lia.
Qed.

(** The OrderItem rows that the insert loop appends after [m] rows. *)
Fixpoint rows_from (m order_id : Z) (items : list (Z * Z * float))
  : list order_item_row :=
  match items with
  | [] => []
  | (product_id, quantity, unit_price) :: rest =>
      mkOrderItem (m + 1) order_id product_id quantity unit_price None
      :: rows_from (m + 1) order_id rest
  end.

Lemma rows_from_spec (m order_id : Z) (items : list (Z * Z * float)) :
  List.length (rows_from m order_id items) = List.length items /\
  map oi_product_id (rows_from m order_id items) = map (fun i => fst (fst i)) items /\
  map oi_quantity (rows_from m order_id items) = map (fun i => snd (fst i)) items /\
  Forall (fun r => oi_order_id r = order_id) (rows_from m order_id items) /\
  Forall (fun r => oi_id r <= m + Z.of_nat (List.length items))
         (rows_from m order_id items).
Proof.
  revert m. induction items as [|[[p q] u] items IH]; intros m; simpl.
  - repeat split; constructor.
  - destruct (IH (m + 1)) as [H1 [H2 [H3 [H4 H5]]]].
    rewrite H1, H2, H3. repeat split; constructor; auto; simpl; try lia.
    eapply Forall_impl; [|exact H5]. simpl. intros r Hr. lia.
Qed.

Section NoFault.

Variable e : env.
Hypothesis no_fault : forall n, fault e n = false.

Lemma run_insert_order customer_id order_number subtotal tax total
      payment_method cashier created_at n m w :
  tables n m (pending w) -> n + 1 < 2 ^ 63 ->
  Sql.opt_in_int64 customer_id = true ->
  PrimFloat.is_nan subtotal = false -> PrimFloat.is_nan tax = false ->
  PrimFloat.is_nan total = false ->
  existsb (fun o => String.eqb (o_order_number o) order_number)
          (orders (pending w)) = false ->
  execute (Sql.insert_order customer_id order_number subtotal tax total
                            payment_method cashier created_at) e w =
  (mkWorld (committed w)
           (mkDb (products (pending w)) (customers (pending w))
                 (orders (pending w) ++
                  [mkOrder (n + 1) customer_id order_number subtotal tax total
                           payment_method "completed" cashier created_at])
                 (order_items (pending w)) (inventory (pending w))
                 (n + 1) (order_items_seq (pending w)))
           (n + 1) (S (statements w)) (draws w),
   Ok tt).
Proof.
  intros [Hn [Hm [Hseq [_ [Hids _]]]]] Hb Hc Hs Ht Htot Hfresh.
  unfold execute. rewrite no_fault. unfold Sql.insert_order.
  rewrite Hc, Hs, Ht, Htot, Hfresh. simpl.
  rewrite (next_rowid_tables _ n) by (auto; apply Forall_map; exact Hids).
  rewrite in_int64_small by lia. reflexivity.
Qed.

Lemma run_insert_items (order_id : Z) (items : list (Z * Z * float)) w :
  Sql.in_int64 order_id = true ->
  Forall (fun i => Sql.in_int64 (fst (fst i)) = true /\
                   Sql.in_int64 (snd (fst i)) = true /\
                   PrimFloat.is_nan (snd i) = false) items ->
  let m := order_items_seq (pending w) in
  0 <= m -> m + Z.of_nat (List.length items) < 2 ^ 63 ->
  Forall (fun r => oi_id r <= m) (order_items (pending w)) ->
  for_each items
    (fun item =>
       match item with
       | (product_id, quantity, unit_price) =>
           execute (Sql.insert_order_item order_id product_id quantity unit_price None)
       end) e w =
  (mkWorld (committed w)
           (mkDb (products (pending w)) (customers (pending w))
                 (orders (pending w))
                 (order_items (pending w) ++ rows_from m order_id items)
                 (inventory (pending w)) (orders_seq (pending w))
                 (m + Z.of_nat (List.length items)))
           (match items with [] => lastrowid w
                        | _ => m + Z.of_nat (List.length items) end)
           (statements w + List.length items)%nat (draws w),
   Ok tt).
Proof.
  intros Ho Hitems. revert w.
  induction Hitems as [|[[p q] u] items [Hp [Hq Hu]] Hitems IH]; intros w m Hm Hb Hids.
  - simpl. unfold ret. rewrite app_nil_r, Z.add_0_r, Nat.add_0_r.
    subst m. destruct w as [c [ps cs os ois inv oseq iseq] l s dr]. reflexivity.
  - simpl in Hp, Hq, Hu. cbn [for_each].
    assert (Hexec :
      execute (Sql.insert_order_item order_id p q u None) e w =
      (mkWorld (committed w)
         (mkDb (products (pending w)) (customers (pending w)) (orders (pending w))
               (order_items (pending w) ++ [mkOrderItem (m + 1) order_id p q u None])
               (inventory (pending w)) (orders_seq (pending w)) (m + 1))
         (m + 1) (S (statements w)) (draws w), Ok tt)).
    { unfold execute. rewrite no_fault. unfold Sql.insert_order_item.
      rewrite Ho, Hp, Hq, Hu. simpl.
      rewrite (next_rowid_tables _ m) by (auto; apply Forall_map; exact Hids).
      rewrite in_int64_small by (simpl in Hb; lia). reflexivity. }
    rewrite (bind_run _ _ _ _ _ _ Hexec).
    rewrite IH; simpl.
    + rewrite <- app_assoc. simpl.
      replace (m + 1 + Z.of_nat (List.length items))
        with (m + Z.pos (Pos.of_succ_nat (List.length items))) by lia.
      replace (S (statements w) + List.length items)%nat
        with (statements w + S (List.length items))%nat by lia.
      destruct items; simpl; repeat f_equal; lia.
    + lia.
    + simpl in Hb. lia.
    + apply Forall_app. split.
      * eapply Forall_impl; [|exact Hids]. simpl. intros r Hr. lia.
      * repeat constructor. simpl. lia.
Qed.

End NoFault.

End SeedSteps.

Module SeedOrders.
Import RandomFacts SeedSteps.

(** What [_generate_dummy_orders] reads from the catalog and the customers:
    a non-empty list of products with distinct ids and prices that are
    numbers not below zero, and a non-empty list of customer ids. *)
Definition catalog_ok (products : list (Z * float)) : Prop :=
  products <> [] /\ NoDup (map fst products) /\
  Forall (fun p => Sql.in_int64 (fst p) = true /\ FloatFacts.nonneg (snd p)) products.

Definition customers_ok (customers : list Z) : Prop :=
  customers <> [] /\ Forall (fun c => Sql.in_int64 c = true) customers.

Lemma float_of_quantity (q : Z) :
  1 <= q <= 3 -> exists f, Py.float_of_int q = Ok f /\ FloatFacts.positive f.
Proof.
  intros H. assert (Hq : q = 1 \/ q = 2 \/ q = 3) by lia.
  destruct Hq as [->|[->| ->]]; eexists; (split; [vm_compute; reflexivity|]);
    eexists; eexists; vm_compute; reflexivity.
Qed.

Lemma tax_rate_positive : FloatFacts.positive TAX_RATE.
Proof. eexists. eexists. vm_compute. reflexivity. Qed.

Lemma zero_nonneg : FloatFacts.nonneg PrimFloat.zero.
Proof. vm_compute. exact I. Qed.

Lemma items_loop_spec (selected : list (Z * float)) (subtotal : float)
      (acc : list (Z * Z * float)) e w :
  Forall (fun p => FloatFacts.nonneg (snd p)) selected ->
  FloatFacts.nonneg subtotal ->
  exists w' subtotal' produced,
    Seed.items_loop selected subtotal acc e w
      = (w', Ok (subtotal', acc ++ produced)) /\
    same_store w w' /\ FloatFacts.nonneg subtotal' /\
    map (fun i => fst (fst i)) produced = map fst selected /\
    map snd produced = map snd selected /\
    Forall (fun i => 1 <= snd (fst i) <= 3) produced.
Proof.
  intros Hsel. revert subtotal acc w.
  induction Hsel as [|[pid price] selected Hp Hsel IH]; intros subtotal acc w Hs.
  - exists w, subtotal, []. simpl. unfold ret. rewrite app_nil_r.
    split; [reflexivity|]. split; [apply same_store_refl|].
    split; [assumption|]. repeat split. constructor.
  - simpl in Hp. cbn [Seed.items_loop].
    destruct (randint_spec 1 3 e w) as [w1 [q [H1 [Hs1 Hq]]]]; [lia|].
    destruct (float_of_quantity q Hq) as [f [Hf Hpos]].
    destruct (IH (PrimFloat.add subtotal (PrimFloat.mul f price))
                 (acc ++ [(pid, q, price)]) w1)
      as [w2 [subtotal' [produced [H2 [Hs2 [Hn [Hids [Hprices Hqs]]]]]]]].
    { apply FloatFacts.add_nonneg; [assumption|].
      apply FloatFacts.mul_positive_nonneg; assumption. }
    exists w2, subtotal', ((pid, q, price) :: produced).
    rewrite (bind_run _ _ _ _ _ _ H1).
    unfold lift, Py.mul_int_float. rewrite Hf. unfold bind at 1.
    rewrite H2, <- app_assoc. simpl.
    split; [reflexivity|]. split; [eapply same_store_trans; eassumption|].
    split; [assumption|]. rewrite Hids, Hprices.
    repeat split. constructor; [simpl; lia|assumption].
Qed.

Lemma produced_ok (P1 : Z -> Prop) (P2 : float -> Prop)
      (produced : list (Z * Z * float)) (selected : list (Z * float)) :
  map (fun i => fst (fst i)) produced = map fst selected ->
  map snd produced = map snd selected ->
  Forall (fun p => P1 (fst p) /\ P2 (snd p)) selected ->
  Forall (fun i => P1 (fst (fst i)) /\ P2 (snd i)) produced.
Proof.
  revert selected. induction produced as [|i produced IH];
    intros [|p selected] H1 H2 Hs; try discriminate; constructor.
  - simpl in H1, H2. injection H1 as H1 _. injection H2 as H2 _.
    inversion Hs; subst. rewrite H1, H2. assumption.
  - simpl in H1, H2. injection H1 as _ H1. injection H2 as _ H2.
    inversion Hs; subst. eapply IH; eassumption.
Qed.

Lemma selected_distinct (products selected rest : list (Z * float)) :
  NoDup (map fst products) -> Permutation products (selected ++ rest) ->
  NoDup (map fst selected).
Proof.
  intros Hd Hp. apply (Permutation_map fst) in Hp.
  apply (Permutation_NoDup Hp) in Hd. rewrite map_app in Hd.
  apply NoDup_app_remove_r in Hd. exact Hd.
Qed.

Lemma selected_forall (P : Z * float -> Prop) (products selected rest : list (Z * float)) :
  Forall P products -> Permutation products (selected ++ rest) -> Forall P selected.
Proof.
  intros Hf Hp. rewrite Forall_forall in *. intros x Hx. apply Hf.
  eapply Permutation_in; [apply Permutation_sym, Hp|].
  apply in_or_app. auto.
Qed.

Section NoFault.

Variable e : env.
Hypothesis no_fault : forall n, fault e n = false.

(** [random.choice(customers) if random.random() < 0.7 else None]. *)
Lemma customer_spec (customers : list Z) (r : float) w :
  customers_ok customers ->
  exists w' customer_id,
    (if PrimFloat.ltb r 0.7%float
     then c <- Random.choice customers ;; ret (Some c)
     else ret None) e w = (w', Ok customer_id) /\
    same_store w w' /\ Sql.opt_in_int64 customer_id = true.
Proof.
  intros [Hne Hin]. destruct (PrimFloat.ltb r 0.7%float).
  - destruct (choice_spec customers e w Hne) as [w' [c [H [Hs Hc]]]].
    exists w', (Some c). rewrite (bind_run _ _ _ _ _ _ H).
    split; [reflexivity|]. split; [assumption|].
    simpl. rewrite Forall_forall in Hin. apply Hin, Hc.
  - exists w, None. split; [reflexivity|]. split; [apply same_store_refl|reflexivity].
Qed.

End NoFault.

End SeedOrders.

Module SeedOrder.
Import RandomFacts SeedSteps SeedOrders.

Section NoFault.

Variable e : env.
Hypothesis no_fault : forall n, fault e n = false.

Lemma generate_order_spec (products : list (Z * float)) (customers : list Z)
      (order_date : datetime) (order_num n m : Z) w :
  catalog_ok products -> customers_ok customers ->
  tables n m (pending w) -> n + 1 < 2 ^ 63 -> m + 4 < 2 ^ 63 ->
  existsb (fun o => String.eqb (o_order_number o)
                               (Seed.order_number_of order_date order_num))
          (orders (pending w)) = false ->
  exists w' o rows,
    Seed.generate_order products customers order_date order_num e w = (w', Ok tt) /\
    orders (pending w') = orders (pending w) ++ [o] /\
    order_items (pending w') = order_items (pending w) ++ rows /\
    o_id o = n + 1 /\
    o_order_number o = Seed.order_number_of order_date order_num /\
    o_created_at o = order_date /\
    Forall (fun r => oi_order_id r = n + 1) rows /\
    (1 <= List.length rows <= 4)%nat /\
    NoDup (map oi_product_id rows) /\
    Forall (fun r => 1 <= oi_quantity r <= 3) rows /\
    tables (n + 1) (m + Z.of_nat (List.length rows)) (pending w').
Proof.
  intros [Hne [Hnd Hprods]] Hcust Htab Hn Hm Hfresh.
  unfold Seed.generate_order.
  destruct (random_spec e w) as [w1 [r [H1 Hs1]]].
  rewrite (bind_run _ _ _ _ _ _ H1).
  destruct (customer_spec e customers r w1 Hcust) as [w2 [cid [H2 [Hs2 Hcid]]]].
  rewrite (bind_run _ _ _ _ _ _ H2).
  destruct (randint_spec 1 4 e w2) as [w3 [num_items [H3 [Hs3 Hnum]]]]; [lia|].
  rewrite (bind_run _ _ _ _ _ _ H3).
  assert (Hlen : (1 <= List.length products)%nat).
  { destruct products; [contradiction|simpl; lia]. }
  destruct (sample_spec products (Z.min num_items (Z.of_nat (List.length products))) e w3)
    as [w4 [selected [rest [H4 [Hs4 [Hk Hperm]]]]]]; [lia|].
  rewrite (bind_run _ _ _ _ _ _ H4).
  pose proof (selected_forall _ _ _ _ Hprods Hperm) as Hsel.
  destruct (items_loop_spec selected PrimFloat.zero [] e w4)
    as [w5 [subtotal [produced [H5 [Hs5 [Hsub [Hids [Hprices Hqs]]]]]]]].
  { eapply Forall_impl; [|exact Hsel]. simpl. tauto. }
  { apply zero_nonneg. }
  simpl app in H5. rewrite (bind_run _ _ _ _ _ _ H5).
  cbn [fst snd].
  destruct (choice_spec Seed.payment_methods e w5) as [w6 [pm [H6 [Hs6 _]]]];
    [discriminate|].
  rewrite (bind_run _ _ _ _ _ _ H6).
  destruct (choice_spec Seed.cashiers e w6) as [w7 [cashier [H7 [Hs7 _]]]];
    [discriminate|].
  rewrite (bind_run _ _ _ _ _ _ H7).
  assert (Hs : same_store w w7).
  { repeat (eapply same_store_trans; [eassumption|]). apply same_store_refl. }
  destruct Hs as [Hc [Hp [Hl Hst]]].
  pose proof (FloatFacts.mul_nonneg_positive _ _ Hsub tax_rate_positive) as Htax.
  pose proof (FloatFacts.add_nonneg _ _ Hsub Htax) as Htot.
  assert (Htab7 : tables n m (pending w7)) by (rewrite Hp; exact Htab).
  rewrite <- Hp in Hfresh.
  rewrite (bind_run _ _ _ _ _ _
             (run_insert_order e no_fault cid _ subtotal _ _ pm cashier order_date
                n m w7 Htab7 Hn Hcid
                (FloatFacts.nonneg_not_nan _ Hsub)
                (FloatFacts.nonneg_not_nan _ Htax)
                (FloatFacts.nonneg_not_nan _ Htot) Hfresh)).
  unfold get_lastrowid at 1. unfold bind at 1. cbn [lastrowid].
  destruct Htab as [Hn0 [Hm0 [Hoseq [Hiseq [Hoids [Hiids Hrefs]]]]]].
  pose proof (produced_ok (fun z => Sql.in_int64 z = true) FloatFacts.nonneg
                produced selected Hids Hprices Hsel) as Hprod.
  assert (Hplen : List.length produced = List.length selected).
  { rewrite <- (length_map (fun i => fst (fst i)) produced), Hids. apply length_map. }
  rewrite run_insert_items; cbn [pending order_items_seq order_items];
    rewrite ?Hp, ?Hiseq; auto.
  - do 3 eexists. split; [reflexivity|]. cbn [pending orders order_items].
    split; [reflexivity|]. split; [reflexivity|].
    destruct (rows_from_spec m (n + 1) produced) as [R1 [R2 [R3 [R4 R5]]]].
    split; [reflexivity|]. split; [reflexivity|]. split; [reflexivity|].
    split; [exact R4|]. rewrite R1, Hplen.
    split; [lia|]. split.
    { rewrite R2, Hids. eapply selected_distinct; eassumption. }
    split.
    { apply Forall_forall. intros row Hrow.
      assert (Hin : In (oi_quantity row) (map oi_quantity (rows_from m (n + 1) produced)))
        by (apply in_map, Hrow).
      rewrite R3 in Hin. apply in_map_iff in Hin. destruct Hin as [i [Hi Hin]].
      rewrite Forall_forall in Hqs. rewrite <- Hi. apply Hqs, Hin. }
    unfold tables. cbn [orders_seq order_items_seq orders order_items].
    repeat split; try lia.
    + apply Forall_app. split.
      * eapply Forall_impl; [|exact Hoids]. simpl. intros. lia.
      * repeat constructor. simpl. lia.
    + apply Forall_app. split.
      * eapply Forall_impl; [|exact Hiids]. simpl. intros. lia.
      * rewrite <- Hplen. exact R5.
    + apply Forall_app. split.
      * eapply Forall_impl; [|exact Hrefs]. simpl. intros. lia.
      * eapply Forall_impl; [|exact R4]. simpl. intros. lia.
  - apply in_int64_small. lia.
  - apply Forall_forall. intros i Hi.
    rewrite Forall_forall in Hprod, Hqs.
    destruct (Hprod i Hi) as [Hi1 Hi2]. specialize (Hqs i Hi).
    split; [assumption|]. split; [apply in_int64_small; lia|].
    apply FloatFacts.nonneg_not_nan, Hi2.
  - rewrite Hplen. lia.
Qed.

End NoFault.
End SeedOrder.

Module Loops.
Import RandomFacts.

Lemma for_each_map {A B : Type} (f : A -> B) (xs : list A) (body : B -> M unit) :
  for_each (map f xs) body = for_each xs (fun x => body (f x)).
Proof.
  induction xs as [|x xs IH]; simpl; [reflexivity|]. rewrite IH. reflexivity.
Qed.

(** A loop over [a, a+1, ..., a+len-1] whose body keeps an invariant and
    returns: the loop returns, with the invariant at [a + len]. *)
Lemma for_each_seq (I : nat -> world -> Prop) (body : nat -> M unit) (e : env)
      (len a : nat) (w : world) :
  (forall p w0, (a <= p < a + len)%nat -> I p w0 ->
                exists w1, body p e w0 = (w1, Ok tt) /\ I (S p) w1) ->
  I a w ->
  exists w', for_each (seq a len) body e w = (w', Ok tt) /\ I (a + len)%nat w'.
Proof.
  revert a w. induction len as [|len IH]; intros a w Hbody Ha; simpl.
  - exists w. rewrite Nat.add_0_r. auto.
  - destruct (Hbody a w) as [w1 [H1 HI]]; [lia|assumption|].
    destruct (IH (S a) w1) as [w' [H' HI']].
    + intros p w0 Hp. apply Hbody. lia.
    + assumption.
    + exists w'. rewrite (bind_run _ _ _ _ _ _ H1).
      replace (a + S len)%nat with (S a + len)%nat by lia. auto.
Qed.

Lemma NoDup_map_injective {A B : Type} (f : A -> B) (l : list A) :
  (forall x y, f x = f y -> x = y) -> NoDup l -> NoDup (map f l).
Proof.
  intros Hf H. induction H as [|a l Ha H IH]; simpl; constructor; auto.
  intros Hin. apply in_map_iff in Hin. destruct Hin as [x [Hx Hin]].
  apply Hf in Hx. subst. contradiction.
Qed.

End Loops.

Module History.
Import RandomFacts SeedSteps SeedOrders.

Lemma date_eqb_eq (a b : date) : date_eqb a b = true <-> a = b.
Proof.
  unfold date_eqb. rewrite !andb_true_iff, !Z.eqb_eq.
  destruct a, b; simpl. split; [intros [[-> ->] ->]; reflexivity|].
  intros H. inversion H. auto.
Qed.

Lemma existsb_false_not_in (num : string) (os : list order_row) :
  (forall o, In o os -> o_order_number o <> num) ->
  existsb (fun o => String.eqb (o_order_number o) num) os = false.
Proof.
  intros H. induction os as [|o os IH]; simpl; [reflexivity|].
  apply orb_false_iff. split.
  - apply String.eqb_neq, H. simpl. auto.
  - apply IH. intros o' Ho'. apply H. simpl. auto.
Qed.

Section Run.

Variable e : env.
Hypothesis no_fault : forall n, fault e n = false.
Hypothesis now_valid : Calendar.valid (dt_date (now e)).
Hypothesis now_year : 1030 <= year (dt_date (now e)).

Let start : datetime := datetime_sub_days (now e) 30.

Lemma start_day (i : nat) :
  dt_date (datetime_add_days start i) = history_day (now e) i.
Proof. reflexivity. Qed.

Lemma history_day_inj (i j : nat) :
  history_day (now e) i = history_day (now e) j -> i = j.
Proof. apply CalendarFacts.add_days_inj. Qed.

Lemma history_day_chars (i : nat) :
  (i <= 30)%nat -> FmtFacts.eight_chars (history_day (now e) i).
Proof.
  intros Hi. apply FmtFacts.valid_eight_chars.
  apply CalendarFacts.history_date_valid; assumption.
Qed.

Lemma history_day_year (i : nat) :
  (i <= 30)%nat -> 1000 <= year (history_day (now e) i).
Proof.
  intros Hi. apply CalendarFacts.history_date_valid; assumption.
Qed.

(** The state of the order tables when the days before day [j] are done and
    day [j] has its first [k] orders. *)
Definition hist (j : nat) (k : Z) (d : db) : Prop :=
  exists n m,
    tables n m d /\ n <= 15 * Z.of_nat j + k /\ m <= 4 * n /\
    NoDup (map o_order_number (orders d)) /\
    (forall o, In o (orders d) ->
       good_items (items_of_order (o_id o) d) /\
       exists i q,
         ((i < j)%nat \/ (i = j /\ q < k)) /\ 0 <= q < 15 /\
         o_created_at o = datetime_add_days start i /\
         o_order_number o = Seed.order_number_of (datetime_add_days start i) q) /\
    (forall i, (i < j)%nat ->
       (5 <= List.length (orders_on (history_day (now e) i) d) <= 15)%nat) /\
    Z.of_nat (List.length (orders_on (history_day (now e) j) d)) = k.

Lemma hist_fresh (j : nat) (k : Z) (d : db) :
  (j < 30)%nat -> 0 <= k < 15 -> hist j k d ->
  existsb (fun o => String.eqb (o_order_number o)
                      (Seed.order_number_of (datetime_add_days start j) k))
          (orders d) = false.
Proof.
  intros Hj Hk [n [m [_ [_ [_ [_ [Hall _]]]]]]].
  apply existsb_false_not_in. intros o Ho Heq.
  destruct (Hall o Ho) as [_ [i [q [Hiq [Hq [_ Hnum]]]]]].
  rewrite Hnum in Heq.
  apply FmtFacts.seed_order_number_inj in Heq; try lia.
  - destruct Heq as [Hd Hqk]. rewrite !start_day in Hd.
    apply history_day_inj in Hd. lia.
  - rewrite start_day. apply history_day_chars. lia.
  - rewrite start_day. apply history_day_chars. lia.
  - rewrite start_day. apply history_day_year. lia.
  - rewrite start_day. apply history_day_year. lia.
Qed.

Lemma hist_order_step (products : list (Z * float)) (customers : list Z)
      (j : nat) (k : Z) (w : world) :
  catalog_ok products -> customers_ok customers ->
  (j < 30)%nat -> 0 <= k < 15 -> hist j k (pending w) ->
  exists w',
    Seed.generate_order products customers (datetime_add_days start j) k e w
      = (w', Ok tt) /\
    hist j (k + 1) (pending w').
Proof.
  intros Hcat Hcust Hj Hk Hh.
  pose proof (hist_fresh j k _ Hj Hk Hh) as Hfresh.
  destruct Hh as [n [m [Htab [Hn [Hm [Hnd [Hall [Hdone Hcount]]]]]]]].
  destruct (SeedOrder.generate_order_spec e no_fault products customers
              (datetime_add_days start j) k n m w Hcat Hcust Htab)
    as [w' [o [rows [Hrun [Ho [Hi [Hoid [Hnum [Hdate [Hrows [Hlen [Hdist [Hq Htab']]]]]]]]]]]]];
    [lia|lia|exact Hfresh|].
  exists w'. split; [exact Hrun|].
  destruct Htab as [Hn0 [Hm0 [Hoseq [Hiseq [Hoids [Hiids Hrefs]]]]]].
  exists (n + 1), (m + Z.of_nat (List.length rows)).
  split; [exact Htab'|]. split; [lia|]. split; [lia|].
  assert (Hnew : items_of_order (n + 1) (pending w') = rows).
  { unfold items_of_order. rewrite Hi, filter_app.
    rewrite (Ids.filter_none _ (order_items (pending w))), (Ids.filter_all _ rows).
    - reflexivity.
    - intros r Hr. rewrite Forall_forall in Hrows. apply Z.eqb_eq, Hrows, Hr.
    - intros r Hr. rewrite Forall_forall in Hrefs. apply Z.eqb_neq.
      specialize (Hrefs r Hr). lia. }
  assert (Hold : forall id, id <= n ->
            items_of_order id (pending w') = items_of_order id (pending w)).
  { intros id Hid. unfold items_of_order. rewrite Hi, filter_app.
    rewrite (Ids.filter_none _ rows), app_nil_r; [reflexivity|].
    intros r Hr. rewrite Forall_forall in Hrows. apply Z.eqb_neq.
    rewrite (Hrows r Hr). lia. }
  assert (Hon : forall day,
            orders_on day (pending w') =
            orders_on day (pending w) ++
            (if date_eqb (history_day (now e) j) day then [o] else [])).
  { intros day. unfold orders_on. rewrite Ho, filter_app. simpl.
    unfold created_on. rewrite Hdate, start_day. reflexivity. }
  split.
  { rewrite Ho, map_app. simpl. rewrite Hnum.
    apply NoDup_app; [exact Hnd|repeat constructor; intros []|].
    intros num Hin [<-|[]].
    apply in_map_iff in Hin. destruct Hin as [o' [Ho'1 Ho'2]].
    assert (existsb (fun o0 => String.eqb (o_order_number o0)
                      (Seed.order_number_of (datetime_add_days start j) k))
                    (orders (pending w)) = true); [|congruence].
    apply existsb_exists. exists o'. split; [assumption|].
    apply String.eqb_eq, Ho'1. }
  split.
  { intros o' Ho'. rewrite Ho in Ho'. apply in_app_or in Ho'.
    destruct Ho' as [Ho'|[<-|[]]].
    - rewrite Forall_forall in Hoids. rewrite (Hold _ (Hoids o' Ho')).
      destruct (Hall o' Ho') as [Hg [i [q [Hiq [Hq' [Hd' Hn']]]]]].
      split; [exact Hg|]. exists i, q. repeat split; auto; try lia.
    - rewrite Hoid, Hnew. split; [repeat split; auto; lia|].
      exists j, k. repeat split; auto; lia. }
  split.
  { intros i Hi'. rewrite Hon.
    replace (date_eqb (history_day (now e) j) (history_day (now e) i)) with false.
    - rewrite app_nil_r. apply Hdone, Hi'.
    - symmetry. apply not_true_is_false. intros Heq.
      apply date_eqb_eq, history_day_inj in Heq. lia. }
  rewrite Hon.
  replace (date_eqb (history_day (now e) j) (history_day (now e) j)) with true
    by (symmetry; apply date_eqb_eq; reflexivity).
  rewrite length_app. simpl. lia.
Qed.

Lemma hist_next_day (j : nat) (c : Z) (d : db) :
  5 <= c <= 15 -> hist j c d -> hist (S j) 0 d.
Proof.
  intros Hc [n [m [Htab [Hn [Hm [Hnd [Hall [Hdone Hcount]]]]]]]].
  exists n, m. split; [exact Htab|]. split; [lia|]. split; [lia|].
  split; [exact Hnd|]. split; [|split].
  - intros o Ho. destruct (Hall o Ho) as [Hg [i [q [Hiq [Hq [Hd Hnum]]]]]].
    split; [exact Hg|]. exists i, q. repeat split; auto; lia.
  - intros i Hi. assert (Hij : (i < j)%nat \/ i = j) by lia.
    destruct Hij as [Hij| ->]; [apply Hdone, Hij|lia].
  - unfold orders_on. rewrite Ids.filter_none; [reflexivity|].
    intros o Ho. destruct (Hall o Ho) as [_ [i [q [Hiq [_ [Hd _]]]]]].
    apply not_true_is_false. intros Heq. apply date_eqb_eq in Heq.
    unfold created_on in Heq. rewrite Hd, start_day in Heq.
    apply history_day_inj in Heq. lia.
Qed.

Lemma hist_day_step (products : list (Z * float)) (customers : list Z)
      (j : nat) (w : world) :
  catalog_ok products -> customers_ok customers ->
  (j < 30)%nat -> hist j 0 (pending w) ->
  exists w',
    Seed.generate_day products customers start j e w = (w', Ok tt) /\
    hist (S j) 0 (pending w').
Proof.
  intros Hcat Hcust Hj Hh. unfold Seed.generate_day.
  destruct (randint_spec 5 15 e w) as [w1 [c [H1 [[_ [Hp _]] Hc]]]]; [lia|].
  rewrite (bind_run _ _ _ _ _ _ H1). unfold range. rewrite Loops.for_each_map.
  destruct (Loops.for_each_seq
              (fun p w0 => hist j (Z.of_nat p) (pending w0))
              (fun p => Seed.generate_order products customers
                          (datetime_add_days start j) (Z.of_nat p))
              e (Z.to_nat c) 0 w1) as [w' [Hrun Hend]].
  - intros p w0 Hp0 Hh0.
    destruct (hist_order_step products customers j (Z.of_nat p) w0)
      as [w2 [H2 Hh2]]; auto; [lia|].
    exists w2. split; [exact H2|]. rewrite Nat2Z.inj_succ. exact Hh2.
  - simpl. rewrite Hp. exact Hh.
  - exists w'. split; [exact Hrun|].
    apply (hist_next_day j c); [lia|].
    simpl in Hend. rewrite Z2Nat.id in Hend by lia. exact Hend.
Qed.

Lemma seedable_catalog (d : db) :
  seedable d ->
  catalog_ok (map (fun p => (p_id p, p_price p)) (products d)) /\
  customers_ok (map c_id (customers d)).
Proof.
  intros [Hp [Hd [Hf [Hc [Hcf _]]]]]. split; [split; [|split]|split].
  - destruct (products d); [contradiction|discriminate].
  - rewrite map_map. exact Hd.
  - apply Forall_map. eapply Forall_impl; [|exact Hf].
    simpl. intros p [H1 H2]. split; [exact H1|].
    apply FloatFacts.nonneg_of_leb, H2.
  - destruct (customers d); [contradiction|discriminate].
  - apply Forall_map. exact Hcf.
Qed.

Lemma hist_start (d : db) : seedable d -> hist 0 0 d.
Proof.
  intros [_ [_ [_ [_ [_ [Ho [Hi [Hos His]]]]]]]].
  exists 0, 0. unfold tables, orders_on. rewrite Ho, Hi, Hos, His. simpl.
  repeat split; try lia; try constructor; try (intros o []); intros; lia.
Qed.

Lemma generate_dummy_orders_hist (w : world) :
  seedable (pending w) ->
  exists w', Seed.generate_dummy_orders e w = (w', Ok tt) /\ hist 30 0 (pending w').
Proof.
  intros Hs. destruct (seedable_catalog _ Hs) as [Hcat Hcust].
  unfold Seed.generate_dummy_orders.
  unfold bind at 1. unfold execute at 1. rewrite no_fault. simpl.
  unfold bind at 1. unfold execute at 1. rewrite no_fault. simpl.
  unfold bind at 1. unfold datetime_now at 1.
  fold start.
  destruct (Loops.for_each_seq
              (fun j w0 => hist j 0 (pending w0))
              (Seed.generate_day (map (fun p => (p_id p, p_price p)) (products (pending w)))
                                 (map c_id (customers (pending w))) start)
              e 30 0
              (mkWorld (committed w) (pending w) (lastrowid w)
                       (S (S (statements w))) (draws w)))
    as [w' [Hrun Hend]].
  - intros j w0 Hj Hh. apply hist_day_step; auto. lia.
  - simpl. apply hist_start, Hs.
  - exists w'. split; [exact Hrun|exact Hend].
Qed.

End Run.
End History.

(** C9.  A run of [_generate_dummy_orders] on a working store, on the
    database [_populate_dummy_data] hands it and with any draws of the
    random generator, returns, and the orders it has written lie on exactly
    the 30 days that end the day before [now], which are 30 different dates;
    each of these days has between 5 and 15 orders; each order has between 1
    and 4 line items, of different products; each order number is the date of
    its order followed by a sequence number below 15 in three digits; and no
    two orders have the same number. *)
Theorem seed_history_shape (e : env) (w : world) :
  (forall n, fault e n = false) ->
  Calendar.valid (dt_date (now e)) -> 1030 <= year (dt_date (now e)) ->
  seedable (pending w) ->
  exists w',
    Seed.generate_dummy_orders e w = (w', Ok tt) /\
    NoDup (history_days (now e)) /\
    List.length (history_days (now e)) = 30%nat /\
    (forall o, In o (orders (pending w')) ->
               In (created_on o) (history_days (now e))) /\
    (forall day, In day (history_days (now e)) ->
                 (5 <= List.length (orders_on day (pending w')) <= 15)%nat) /\
    (forall o, In o (orders (pending w')) ->
               good_items (items_of_order (o_id o) (pending w'))) /\
    (forall o, In o (orders (pending w')) ->
               exists n, 0 <= n < 15 /\
                         o_order_number o = Seed.order_number_of (o_created_at o) n) /\
    NoDup (map o_order_number (orders (pending w'))).
Proof.
  intros Hfault Hvalid Hyear Hseed.
  destruct (History.generate_dummy_orders_hist e Hfault Hvalid Hyear w Hseed)
    as [w' [Hrun [n [m [_ [_ [_ [Hnd [Hall [Hdone _]]]]]]]]]].
  exists w'. split; [exact Hrun|].
  split.
  { unfold history_days. apply Loops.NoDup_map_injective; [|apply seq_NoDup].
    intros i j. apply CalendarFacts.add_days_inj. }
  split; [unfold history_days; rewrite length_map, length_seq; reflexivity|].
  split.
  { intros o Ho. destruct (Hall o Ho) as [_ [i [q [Hiq [Hq [Hd _]]]]]].
    unfold created_on, history_days. rewrite Hd.
    apply in_map_iff. exists i. split; [symmetry; apply History.start_day|].
    apply in_seq. lia. }
  split.
  { intros day Hday. unfold history_days in Hday.
    apply in_map_iff in Hday. destruct Hday as [i [<- Hi]].
    apply in_seq in Hi. apply Hdone. lia. }
  split; [intros o Ho; apply (Hall o Ho)|].
  split; [|exact Hnd].
  intros o Ho. destruct (Hall o Ho) as [_ [i [q [_ [Hq [Hd Hnum]]]]]].
  exists q. split; [exact Hq|]. rewrite Hd. exact Hnum.
Qed.


Lemma seed_history_shape_witness :
  let t := mkDatetime (mkDate 2024 3 5) 14 7 9 0 in
  let e := mkEnv t t (fun _ => false) (fun n => Z.of_nat n * 7919 + 3) in
  let d := mkDb [mkProduct 1 "Espresso" "Coffee" 2.5%float "" "" true;
                 mkProduct 2 "Latte" "Coffee" 3.5%float "" "" true;
                 mkProduct 3 "Earl Grey" "Tea" 2.75%float "" "" true;
                 mkProduct 4 "Croissant" "Pastries" 2%float "" "" true]
                [mkCustomer 1 "John Smith" "john@email.com" "555-0101" 50]
                [] [] [] 0 0 in
  seedable d /\ Calendar.valid (dt_date t) /\
  exists w',
    Seed.generate_dummy_orders e (connect d) = (w', Ok tt) /\
    NoDup (map o_order_number (orders (pending w'))).
Proof.
  intros t e d.
  assert (Hseed : seedable d).
  { unfold seedable, d. simpl.
    split; [discriminate|]. split.
    { repeat constructor; simpl; intuition discriminate. }
    split; [repeat constructor|].
    split; [discriminate|]. split; [repeat constructor|]. repeat split. }
  assert (Hvalid : Calendar.valid (dt_date t)).
  { unfold Calendar.valid. simpl. unfold Calendar.days_in_month. simpl. lia. }
  split; [exact Hseed|]. split; [exact Hvalid|].
  destruct (seed_history_shape e (connect d)) as [w' [Hrun [_ [_ [_ [_ [_ [_ Hnd]]]]]]]].
  - reflexivity.
  - exact Hvalid.
  - simpl. lia.
  - exact Hseed.
  - exists w'. split; [exact Hrun|exact Hnd].
Defined.

(** * Further properties of the code *)

(** ** The cart: removing lines *)

Module CartMore.
Import Cart CartFacts.

Lemma remove_absent (product_id : Z) (c : cart) :
  (forall l, In l c -> p_id (l_product l) <> product_id) ->
  remove_from_order product_id c = c.
Proof.
  intros H. unfold remove_from_order. apply Ids.filter_all.
  intros l Hl. apply negb_true_iff, Z.eqb_neq, H, Hl.
Qed.

Lemma remove_leaves_none (product_id : Z) (c : cart) :
  forall l, In l (remove_from_order product_id c) ->
            p_id (l_product l) <> product_id.
Proof.
  intros l Hl. unfold remove_from_order in Hl. apply filter_In in Hl.
  destruct Hl as [_ Hl]. apply negb_true_iff, Z.eqb_neq in Hl. exact Hl.
Qed.

(** [==] on the lines of a cart is at least as fine as the product id. *)
Lemma line_eqb_id (a b : line) :
  line_eqb a b = true -> p_id (l_product a) = p_id (l_product b).
Proof.
  unfold line_eqb, product_eqb. rewrite !andb_true_iff, Z.eqb_eq. tauto.
Qed.

Lemma list_remove_by_id (item : line) (c : cart) :
  distinct_products c -> In item c -> line_eqb item item = true ->
  list_remove item c = Ok (remove_from_order (p_id (l_product item)) c).
Proof.
  unfold distinct_products, remove_from_order.
  induction c as [|x c IH]; intros Hd Hin Hrefl; [destruct Hin|].
  inversion Hd as [|? ? Hn Hd']; subst. simpl.
  destruct (line_eqb x item) eqn:E.
  - apply line_eqb_id in E. rewrite E, Z.eqb_refl. simpl.
    rewrite Ids.filter_all; [reflexivity|].
    intros l Hl. apply negb_true_iff, Z.eqb_neq. intros Heq. apply Hn.
    rewrite E, <- Heq. apply (in_map (fun l0 => p_id (l_product l0))), Hl.
  - destruct Hin as [->|Hin]; [congruence|].
    assert (Hne : p_id (l_product x) <> p_id (l_product item)).
    { intros Heq. apply Hn. rewrite Heq.
      apply (in_map (fun l0 => p_id (l_product l0))), Hin. }
    apply Z.eqb_neq in Hne. rewrite Hne. simpl.
    rewrite (IH Hd' Hin Hrefl). reflexivity.
Qed.

End CartMore.

(** X1.  Removing a product forgets it altogether: after an add and a
    remove of the same product the cart is the cart with that product
    removed, whatever quantity its line had; a cart is left as it is by the
    removal exactly when it has no line of the product; after a removal no
    line of the product is left, so that adding the product again starts a
    new line, of quantity 1, at the end of the cart. *)
Theorem remove_forgets_the_product (c : cart) (p : product) :
  Cart.remove_from_order (p_id p) (Cart.add_to_order p c)
    = Cart.remove_from_order (p_id p) c /\
  (Cart.lines_of (p_id p) c = [] <-> Cart.remove_from_order (p_id p) c = c) /\
  Cart.lines_of (p_id p) (Cart.remove_from_order (p_id p) c) = [] /\
  Cart.add_to_order p (Cart.remove_from_order (p_id p) c)
    = Cart.remove_from_order (p_id p) c ++ [mkLine p 1 []].
Proof.
  split; [|split; [|split]].
  - unfold Cart.remove_from_order.
    induction c as [|l c IH]; simpl.
    + rewrite Z.eqb_refl. reflexivity.
    + destruct (p_id (l_product l) =? p_id p) eqn:E; simpl; rewrite E; simpl.
      * reflexivity.
      * rewrite IH. reflexivity.
  - split; intros H.
    + apply CartMore.remove_absent. intros l Hl Heq.
      assert (Hin : In l (Cart.lines_of (p_id p) c)).
      { apply filter_In. split; [exact Hl|]. apply Z.eqb_eq, Heq. }
      rewrite H in Hin. destruct Hin.
    + unfold Cart.lines_of. apply Ids.filter_none. intros l Hl.
      rewrite <- H in Hl. apply Z.eqb_neq, (CartMore.remove_leaves_none _ _ l Hl).
  - unfold Cart.lines_of. apply Ids.filter_none.
    intros l Hl. apply Z.eqb_neq, (CartMore.remove_leaves_none _ _ l Hl).
  - apply CartFacts.add_absent. apply CartMore.remove_leaves_none.
Qed.

(** X2.  The remove button of [new_order_tab.py], which deletes the line it
    was made for with [list.remove], and the remove button of [main.py] and
    [simple_pos.py], which filters by product id, do the same to every cart
    that the operations can build, for a line of the cart whose price is a
    number (such a line is equal to itself). *)
Theorem remove_buttons_agree (ops : list Cart.op) (item : line) :
  In item (Cart.run ops) ->
  Cart.line_eqb item item = true ->
  Cart.remove_item item (Cart.run ops)
  = Cart.remove_from_order (p_id (l_product item)) (Cart.run ops).
Proof.
  intros Hin Hrefl.
  destruct (CartInvariant.inv_fold ops [] CartInvariant.inv_empty) as [Hd _].
  unfold Cart.remove_item, Cart.run in *.
  rewrite (CartMore.list_remove_by_id item _ Hd Hin Hrefl). reflexivity.
Qed.

Lemma remove_buttons_agree_witness :
  let latte := mkProduct 2 "Latte" "Coffee" 3.5%float "" "" true in
  let croissant := mkProduct 11 "Croissant" "Pastries" 2%float "" "" true in
  let ops := [Cart.Add latte; Cart.Add croissant; Cart.Add latte] in
  Cart.remove_item (mkLine latte 2 []) (Cart.run ops) = [mkLine croissant 1 []].
Proof.
  intros latte croissant ops.
  rewrite (remove_buttons_agree ops (mkLine latte 2 [])).
  - reflexivity.
  - simpl. auto.
  - vm_compute. reflexivity.
Defined.

(** ** Orders: what a call writes, seen from the database file *)

Module OrderPath.

(** [DatabaseManager.create_order] of [db_manager.py], when it returns. *)
Lemma create_order_ok customer_id order_items0 payment_method cashier_name
      e d d' order_id :
  DbManager.create_order customer_id order_items0 payment_method cashier_name e d
    = (d', Ok order_id) ->
  exists subtotal rows,
    order_subtotal order_items0 = Ok subtotal /\
    order_id = Sql.next_rowid (orders_seq d) (map o_id (orders d)) /\
    existsb (fun o => String.eqb (o_order_number o) (order_number_of (now e)))
            (orders d) = false /\
    orders d' =
      orders d ++
      [mkOrder order_id customer_id (order_number_of (now e)) subtotal
               (order_tax subtotal) (order_total subtotal) payment_method
               "completed" cashier_name (utc_now e)] /\
    order_items d' = order_items d ++ rows /\
    map Writes.stored rows =
      map (fun i => (order_id, product_id i, quantity i, unit_price i,
                     Some (match customizations i with Some cs => cs | None => [] end)))
          order_items0 /\
    products d' = products d /\ customers d' = customers d /\
    inventory d' = inventory d.
Proof.
  unfold DbManager.create_order, with_connection.
  destruct (DbManager.create_order_body _ _ _ _ e (connect d)) as [w [a|y]] eqn:E;
    intros H; inversion H; subst.
  apply Writes.create_order_body_ok in E.
  destruct E as [subtotal [rows [Hs [Hid [Hf [Ho [Hi [Hm [Hp [Hc [Hinv _]]]]]]]]]]].
  simpl in *. exists subtotal, rows. repeat split; assumption.
Qed.

Lemma create_order_raise customer_id order_items0 payment_method cashier_name
      e d d' x :
  DbManager.create_order customer_id order_items0 payment_method cashier_name e d
    = (d', Raise x) -> d' = d.
Proof.
  unfold DbManager.create_order, with_connection.
  destruct (DbManager.create_order_body _ _ _ _ e (connect d)) as [w [a|y]] eqn:E;
    intros H; inversion H; subst.
  apply (Atomic.create_order_body_raises _ _ _ _ _ _ _ _ E).
Qed.

(** [DatabaseManager.create_order] of [main.py], when it returns. *)
Lemma main_create_order_ok order_items0 payment_method cashier_name
      e d d' order_id :
  Main.create_order order_items0 payment_method cashier_name e d
    = (d', Ok order_id) ->
  exists subtotal rows,
    order_subtotal order_items0 = Ok subtotal /\
    order_id = Sql.next_rowid (orders_seq d) (map o_id (orders d)) /\
    existsb (fun o => String.eqb (o_order_number o) (order_number_of (now e)))
            (orders d) = false /\
    orders d' =
      orders d ++
      [mkOrder order_id None (order_number_of (now e)) subtotal
               (order_tax subtotal) (order_total subtotal) payment_method
               "completed" cashier_name (utc_now e)] /\
    order_items d' = order_items d ++ rows /\
    map Writes.stored rows =
      map (fun i => (order_id, product_id i, quantity i, unit_price i, None))
          order_items0 /\
    products d' = products d /\ customers d' = customers d /\
    inventory d' = inventory d.
Proof.
  unfold Main.create_order, plain_connection.
  destruct (Main.create_order_body _ _ _ e (connect d)) as [w [a|y]] eqn:E;
    intros H; inversion H; subst.
  apply Writes.main_create_order_body_ok in E.
  destruct E as [subtotal [rows [Hs [Hid [Hf [Ho [Hi [Hm [Hp [Hc [Hinv Hcm]]]]]]]]]]].
  simpl in *. rewrite Hcm. exists subtotal, rows. repeat split; assumption.
Qed.

Lemma main_create_order_raise order_items0 payment_method cashier_name e d d' x :
  Main.create_order order_items0 payment_method cashier_name e d
    = (d', Raise x) -> d' = d.
Proof.
  unfold Main.create_order, plain_connection.
  destruct (Main.create_order_body _ _ _ e (connect d)) as [w [a|y]] eqn:E;
    intros H; inversion H; subst.
  apply (Atomic.main_create_order_body_raises _ _ _ _ _ _ _ E).
Qed.

(** The new id is one more than the largest id handed out so far. *)
Lemma next_id (d : db) :
  Sql.next_rowid (orders_seq d) (map o_id (orders d)) = max_order_id d + 1.
Proof. reflexivity. Qed.

Lemma list_max_nonneg (ids : list Z) : 0 <= Sql.list_max ids.
Proof. induction ids as [|x ids IH]; simpl; lia. Qed.

Lemma max_order_id_after (d d' : db) (o : order_row) :
  orders d' = orders d ++ [o] -> o_id o <= max_order_id d'.
Proof.
  intros H. unfold max_order_id.
  assert (o_id o <= Sql.list_max (map o_id (orders d'))); [|lia].
  apply Ids.list_max_ge. rewrite H, map_app. apply in_or_app. right. simpl. auto.
Qed.

End OrderPath.

(** X3.  The Charge button of [main.py] on a cart that is not empty: when
    the order is saved the cart is emptied, and the order stored under the
    new id has one row for each line of the cart, in the cart's order, with
    the line's product id, its quantity and the price the product had when
    it was put into the cart; when saving raises, the cart keeps its lines
    and the database is as before.  It never ends without an order id. *)
Theorem process_payment_saves_the_cart (current_order : cart) (e : env) (d : db)
    (d' : db) (cart' : cart) (r : result (option Z)) :
  referential d -> current_order <> [] ->
  Main.process_payment current_order e d = (d', cart', r) ->
  match r with
  | Ok (Some order_id) =>
      cart' = [] /\
      stored_as_submitted (Main.order_items_of current_order) d' order_id /\
      map item_of_row (items_of_order order_id d')
        = map (fun l => (p_id (l_product l), l_quantity l, p_price (l_product l)))
              current_order
  | Ok None => False
  | Raise _ => cart' = current_order /\ d' = d
  end.
Proof.
  intros Href Hne. unfold Main.process_payment.
  destruct current_order as [|l0 c0]; [contradiction|].
  set (current_order := l0 :: c0) in *.
  destruct (Main.create_order (Main.order_items_of current_order) "cash" "Jane Doe" e d)
    as [d1 [order_id|x]] eqn:E; intros H; inversion H; subst; clear H.
  - pose proof (OrderPath.main_create_order_ok _ _ _ _ _ _ _ E) as Hok.
    destruct Hok as [subtotal [rows [Hs [Hid [_ [Ho [Hi [Hm _]]]]]]]].
    assert (Hst : stored_as_submitted (Main.order_items_of current_order) d' order_id).
    { eapply Stored.from_writes;
        [exact Href|exact Hs|exact Hid| | | | |exact Ho|exact Hi|exact Hm];
        reflexivity. }
    split; [reflexivity|]. split; [exact Hst|].
    destruct Hst as [o [s [_ [_ [_ [_ [_ [_ Hmap]]]]]]]].
    rewrite Hmap. unfold Main.order_items_of. rewrite map_map. reflexivity.
  - split; [reflexivity|].
    apply (OrderPath.main_create_order_raise _ _ _ _ _ _ _ E).
Qed.

Lemma process_payment_saves_the_cart_witness :
  let t := mkDatetime (mkDate 2024 3 5) 14 7 9 0 in
  let e := mkEnv t t (fun _ => false) (fun _ => 0) in
  let latte := mkProduct 2 "Latte" "Coffee" 3.5%float "" "" true in
  let croissant := mkProduct 11 "Croissant" "Pastries" 2%float "" "" true in
  let current_order := [mkLine latte 2 []; mkLine croissant 1 []] in
  exists d',
    Main.process_payment current_order e empty_db = (d', [], Ok (Some 1)) /\
    map item_of_row (items_of_order 1 d') = [(2, 2, 3.5%float); (11, 1, 2%float)].
Proof.
  intros t e latte croissant current_order.
  eexists. split; [vm_compute; reflexivity|].
  apply (process_payment_saves_the_cart current_order e empty_db _ [] (Ok (Some 1))).
  - apply Stored.referential_empty.
  - discriminate.
  - vm_compute. reflexivity.
Defined.

(** The catalog, the customers and the stock of [d'] are those of [d], and
    with them what the catalog and low-stock queries answer. *)
Definition same_catalog_and_stock (d d' : db) : Prop :=
  products d' = products d /\ customers d' = customers d /\
  inventory d' = inventory d /\
  Inventory.get_low_stock_items d' = Inventory.get_low_stock_items d /\
  (forall category,
     Catalog.get_products_by_category category d'
       = Catalog.get_products_by_category category d /\
     Catalog.get_products_by_category_main category d'
       = Catalog.get_products_by_category_main category d).

Lemma same_catalog_and_stock_of (d d' : db) :
  products d' = products d -> customers d' = customers d ->
  inventory d' = inventory d -> same_catalog_and_stock d d'.
Proof.
  intros Hp Hc Hi. unfold same_catalog_and_stock. repeat split; auto.
  - unfold Inventory.get_low_stock_items, Inventory.low_stock_join.
    rewrite Hp, Hi. reflexivity.
  - unfold Catalog.get_products_by_category. rewrite Hp. reflexivity.
  - unfold Catalog.get_products_by_category_main. rewrite Hp. reflexivity.
Qed.

(** X4.  A sale writes to the order tables only: whether [create_order]
    returns or raises, in [db_manager.py] and in [main.py], the products,
    the customers and the inventory are afterwards what they were.  So the
    stock of the products sold is not reduced: the low-stock report and the
    catalog of every category read the same before and after. *)
Theorem create_order_leaves_catalog_and_stock (customer_id : option Z)
    (order_items0 : list order_item) (payment_method cashier_name : string)
    (e : env) (d : db) :
  same_catalog_and_stock d
    (fst (DbManager.create_order customer_id order_items0 payment_method
                                 cashier_name e d)) /\
  same_catalog_and_stock d
    (fst (Main.create_order order_items0 payment_method cashier_name e d)).
Proof.
  split.
  - destruct (DbManager.create_order customer_id order_items0 payment_method
                                     cashier_name e d) as [d1 [id|x]] eqn:E; simpl.
    + apply OrderPath.create_order_ok in E.
      destruct E as [s [rows [_ [_ [_ [_ [_ [_ [Hp [Hc Hi]]]]]]]]]].
      apply same_catalog_and_stock_of; assumption.
    + apply OrderPath.create_order_raise in E. subst.
      apply same_catalog_and_stock_of; reflexivity.
  - destruct (Main.create_order order_items0 payment_method cashier_name e d)
      as [d1 [id|x]] eqn:E; simpl.
    + apply OrderPath.main_create_order_ok in E.
      destruct E as [s [rows [_ [_ [_ [_ [_ [_ [Hp [Hc Hi]]]]]]]]]].
      apply same_catalog_and_stock_of; assumption.
    + apply OrderPath.main_create_order_raise in E. subst.
      apply same_catalog_and_stock_of; reflexivity.
Qed.

(** X5.  Order ids only grow: the id a successful [create_order] returns is
    one more than the largest order id the database has ever handed out, so
    it is at least 1 and larger than the id of every order stored, and the
    next successful call, whatever it submits, returns a larger one. *)
Theorem order_ids_only_grow (customer_id : option Z)
    (order_items0 : list order_item) (payment_method cashier_name : string)
    (e : env) (d d' : db) (order_id : Z) :
  DbManager.create_order customer_id order_items0 payment_method cashier_name e d
    = (d', Ok order_id) ->
  order_id = max_order_id d + 1 /\ 1 <= order_id /\
  (forall o, In o (orders d) -> o_id o < order_id) /\
  (forall customer_id2 order_items2 payment_method2 cashier_name2 e2 d2 order_id2,
     DbManager.create_order customer_id2 order_items2 payment_method2
                            cashier_name2 e2 d' = (d2, Ok order_id2) ->
     order_id < order_id2).
Proof.
  intros H. apply OrderPath.create_order_ok in H.
  destruct H as [s [rows [_ [Hid [_ [Ho _]]]]]].
  rewrite OrderPath.next_id in Hid.
  split; [exact Hid|]. split.
  { pose proof (OrderPath.list_max_nonneg (map o_id (orders d))).
    unfold max_order_id in Hid. lia. }
  split.
  { intros o Hin. rewrite Hid, <- OrderPath.next_id.
    apply Ids.next_rowid_fresh, in_map, Hin. }
  intros c2 i2 p2 n2 e2 d2 id2 H2. apply OrderPath.create_order_ok in H2.
  destruct H2 as [s2 [rows2 [_ [Hid2 _]]]]. rewrite OrderPath.next_id in Hid2.
  apply OrderPath.max_order_id_after in Ho. simpl in Ho. lia.
Qed.

Lemma order_ids_only_grow_witness :
  let t := mkDatetime (mkDate 2024 3 5) 14 7 9 0 in
  let e := mkEnv t t (fun _ => false) (fun _ => 0) in
  let d := mkDb [] [] [] [] [] 41 0 in
  exists d',
    DbManager.create_order None [mkItem 2 1 3.5%float None] "cash" "Jane Doe" e d
      = (d', Ok 42) /\
    42 = max_order_id d + 1.
Proof.
  intros t e d. eexists. split; [vm_compute; reflexivity|].
  refine (proj1 (order_ids_only_grow None [mkItem 2 1 3.5%float None]
                                     "cash" "Jane Doe" e d _ 42 _)).
  vm_compute. reflexivity.
Defined.

(** ** Order numbers *)

Module NumberFacts.
Import Fmt FmtFacts.

Lemma string_length (l : list ascii) :
  String.length (string_of_list_ascii l) = List.length l.
Proof. induction l as [|a l IH]; simpl; [reflexivity|rewrite IH; reflexivity]. Qed.

Lemma ymdhms_length (t : datetime) :
  valid_datetime t -> 1000 <= year (dt_date t) ->
  List.length (ymdhms t) = 14%nat.
Proof.
  intros [Hd [Hh [Hm [Hs _]]]] Hy. unfold ymdhms.
  rewrite !length_app, ymd_length by (try apply valid_eight_chars; assumption).
  rewrite !zfill_length; [reflexivity| | |]; simpl Z.of_nat; lia.
Qed.

Lemma ymdhms_inj (t t' : datetime) :
  valid_datetime t -> valid_datetime t' ->
  1000 <= year (dt_date t) -> 1000 <= year (dt_date t') ->
  ymdhms t = ymdhms t' ->
  dt_date t = dt_date t' /\ hour t = hour t' /\ minute t = minute t' /\
  second t = second t'.
Proof.
  intros [Hd [Hh [Hm [Hs _]]]] [Hd' [Hh' [Hm' [Hs' _]]]] Hy Hy'.
  unfold ymdhms. intros H.
  apply valid_eight_chars in Hd, Hd'.
  apply app_inj_length in H; [|rewrite !ymd_length; auto].
  destruct H as [Hdate H].
  apply app_inj_length in H.
  2:{ rewrite !zfill_length; [reflexivity| |]; simpl Z.of_nat; lia. }
  destruct H as [Hhour H].
  apply app_inj_length in H.
  2:{ rewrite !zfill_length; [reflexivity| |]; simpl Z.of_nat; lia. }
  destruct H as [Hmin Hsec].
  apply ymd_inj in Hdate; auto.
  apply zfill_inj in Hhour, Hmin, Hsec; try (simpl Z.of_nat; lia).
  auto.
Qed.

End NumberFacts.

(** X6.  From the year 1000 on, the order numbers of two calls of
    [create_order] are the same exactly when the calls read the local clock
    in the same second of the same day: the number has 17 characters and
    determines the date, the hour, the minute and the second, and nothing
    else of the call enters it.  (Before the year 1000 [strftime('%Y')]
    writes fewer digits and the number is shorter.) *)
Theorem order_numbers_clash_only_within_a_second (t t' : datetime) :
  valid_datetime t -> valid_datetime t' ->
  1000 <= year (dt_date t) -> 1000 <= year (dt_date t') ->
  String.length (order_number_of t) = 17%nat /\
  (order_number_of t = order_number_of t' <->
   dt_date t = dt_date t' /\ hour t = hour t' /\ minute t = minute t' /\
   second t = second t').
Proof.
  intros Ht Ht' Hy Hy'. split.
  - unfold order_number_of. rewrite NumberFacts.string_length, length_app.
    rewrite (NumberFacts.ymdhms_length t Ht Hy). reflexivity.
  - split.
    + unfold order_number_of. intros H.
      apply FmtFacts.string_of_list_ascii_inj, app_inv_head in H.
      apply NumberFacts.ymdhms_inj; assumption.
    + intros [Hd [Hh [Hm Hs]]]. unfold order_number_of, Fmt.ymdhms.
      rewrite Hd, Hh, Hm, Hs. reflexivity.
Qed.

Lemma order_numbers_clash_only_within_a_second_witness :
  order_number_of (mkDatetime (mkDate 2024 3 5) 14 7 9 0)
  <> order_number_of (mkDatetime (mkDate 2024 3 5) 14 7 10 0).
Proof.
  intros H.
  destruct (order_numbers_clash_only_within_a_second
              (mkDatetime (mkDate 2024 3 5) 14 7 9 0)
              (mkDatetime (mkDate 2024 3 5) 14 7 10 0)) as [_ [Hto _]].
  - unfold valid_datetime, Calendar.valid. simpl. unfold Calendar.days_in_month.
    simpl. lia.
  - unfold valid_datetime, Calendar.valid. simpl. unfold Calendar.days_in_month.
    simpl. lia.
  - simpl. lia.
  - simpl. lia.
  - destruct (Hto H) as [_ [_ [_ Hs]]]. discriminate Hs.
Defined.

(** X7.  From the year 1000 on, the order numbers of the seed history have
    14 characters (the date and a three-digit sequence number) and those of
    [create_order] have 17, so a seeded order never takes the number of a
    sale, nor a sale that of a seeded order.  (With a clock before the year
    1000 the two can meet: [strftime('%Y')] then writes fewer digits.) *)
Theorem seeded_and_live_order_numbers_differ (t t' : datetime) (n : Z) :
  valid_datetime t -> Calendar.valid (dt_date t') -> 0 <= n < 1000 ->
  1000 <= year (dt_date t) -> 1000 <= year (dt_date t') ->
  String.length (order_number_of t) = 17%nat /\
  String.length (Seed.order_number_of t' n) = 14%nat /\
  Seed.order_number_of t' n <> order_number_of t.
Proof.
  intros Ht Ht' Hn Hy Hy'.
  assert (H17 : String.length (order_number_of t) = 17%nat).
  { unfold order_number_of. rewrite NumberFacts.string_length, length_app.
    rewrite (NumberFacts.ymdhms_length t Ht Hy). reflexivity. }
  assert (H14 : String.length (Seed.order_number_of t' n) = 14%nat).
  { unfold Seed.order_number_of.
    rewrite NumberFacts.string_length, !length_app.
    rewrite FmtFacts.ymd_length
      by (try apply FmtFacts.valid_eight_chars; assumption).
    rewrite FmtFacts.zfill_length by (simpl Z.of_nat; lia). reflexivity. }
  split; [exact H17|]. split; [exact H14|].
  intros Heq. rewrite Heq in H14. rewrite H17 in H14. discriminate.
Qed.

Lemma seeded_and_live_order_numbers_differ_witness :
  Seed.order_number_of (mkDatetime (mkDate 2024 2 5) 14 7 9 0) 7
  <> order_number_of (mkDatetime (mkDate 2024 3 5) 14 7 9 0).
Proof.
  apply (seeded_and_live_order_numbers_differ
           (mkDatetime (mkDate 2024 3 5) 14 7 9 0)
           (mkDatetime (mkDate 2024 2 5) 14 7 9 0) 7).
  - unfold valid_datetime, Calendar.valid. simpl. unfold Calendar.days_in_month.
    simpl. lia.
  - unfold Calendar.valid. simpl. unfold Calendar.days_in_month. simpl. lia.
  - lia.
  - simpl. lia.
  - simpl. lia.
Defined.


(** Why the year 1000: in the year 999 the order number of a sale has 16
    characters, and the sale of 0001-01-11 23:10:05 takes the number of the
    seeded order 5 of 1011-12-31. *)
Lemma order_numbers_before_the_year_1000 :
  order_number_of (mkDatetime (mkDate 999 1 2) 3 4 5 0) = "ORD9990102030405"%string /\
  order_number_of (mkDatetime (mkDate 1 1 11) 23 10 5 0)
  = Seed.order_number_of (mkDatetime (mkDate 1011 12 31) 0 0 0 0) 5.
Proof. split; vm_compute; reflexivity. Qed.
(** ** The sales report *)

Module ReportFacts.
Import Fmt FmtFacts.

Lemma sql_date_inj (a b : date) :
  eight_chars a -> eight_chars b -> sql_date a = sql_date b -> a = b.
Proof.
  intros [Hya [Hma Hda]] [Hyb [Hmb Hdb]]. unfold sql_date. intros H.
  apply string_of_list_ascii_inj in H.
  apply app_inj_length in H.
  2:{ rewrite !zfill_length; [reflexivity| |]; simpl Z.of_nat; lia. }
  destruct H as [Hy H]. injection H as H.
  apply app_inj_length in H.
  2:{ rewrite !zfill_length; [reflexivity| |]; simpl Z.of_nat; lia. }
  destruct H as [Hm H]. injection H as Hd.
  apply zfill_inj in Hy, Hm, Hd; try (simpl Z.of_nat; lia).
  destruct a, b. simpl in *. congruence.
Qed.

(** On orders with dates of the calendar, [WHERE DATE(created_at) = ?] with
    the text of a day selects the orders created on that day. *)
Lemma rows_of_day (day : date) (os : list order_row) :
  eight_chars day -> Forall (fun o => eight_chars (created_on o)) os ->
  filter (fun o => String.eqb (sql_date (created_on o)) (sql_date day)) os
  = filter (fun o => date_eqb (created_on o) day) os.
Proof.
  intros Hday Hall. induction Hall as [|o os Ho Hall IH]; simpl; [reflexivity|].
  rewrite IH.
  replace (String.eqb (sql_date (created_on o)) (sql_date day))
    with (date_eqb (created_on o) day); [reflexivity|].
  destruct (date_eqb (created_on o) day) eqn:E.
  - apply History.date_eqb_eq in E. rewrite E. symmetry. apply String.eqb_refl.
  - symmetry. apply String.eqb_neq. intros Heq.
    apply sql_date_inj in Heq; auto.
    apply History.date_eqb_eq in Heq. congruence.
Qed.

Lemma no_rows sql_sum (date : string) (d : db) :
  filter (fun o => String.eqb (sql_date (created_on o)) date) (orders d) = [] ->
  get_daily_sales sql_sum date d = mkDailySales 0 (Int 0) (Int 0) (Int 0).
Proof. intros H. unfold get_daily_sales. rewrite H. reflexivity. Qed.

End ReportFacts.

(** X8.  A sale is counted once, in the report of the UTC day on which
    [CURRENT_TIMESTAMP] was read: after a successful [create_order] the
    report asked for that day counts one order more than before, and the
    report asked for any other date text is what it was, also when the
    local day of the order number is another day. *)
Theorem a_sale_is_counted_on_its_utc_day (sql_sum : list float -> float)
    (customer_id : option Z) (order_items0 : list order_item)
    (payment_method cashier_name : string) (e : env) (d d' : db) (order_id : Z)
    (date : string) :
  DbManager.create_order customer_id order_items0 payment_method cashier_name e d
    = (d', Ok order_id) ->
  (date = sql_date (dt_date (utc_now e)) ->
   order_count (get_daily_sales sql_sum date d')
   = order_count (get_daily_sales sql_sum date d) + 1) /\
  (date <> sql_date (dt_date (utc_now e)) ->
   get_daily_sales sql_sum date d' = get_daily_sales sql_sum date d).
Proof.
  intros H. apply OrderPath.create_order_ok in H.
  destruct H as [s [rows [_ [_ [_ [Ho _]]]]]].
  assert (Hf : exists o,
            filter (fun o => String.eqb (sql_date (created_on o)) date) (orders d')
            = filter (fun o => String.eqb (sql_date (created_on o)) date) (orders d)
              ++ (if String.eqb (sql_date (dt_date (utc_now e))) date
                  then [o] else [])).
  { eexists. rewrite Ho, filter_app. reflexivity. }
  destruct Hf as [o Hf]. unfold get_daily_sales. rewrite Hf.
  split; intros Hd.
  - subst date. rewrite String.eqb_refl. simpl. rewrite length_app. simpl. lia.
  - apply not_eq_sym, String.eqb_neq in Hd. rewrite Hd, app_nil_r. reflexivity.
Qed.

Lemma a_sale_is_counted_on_its_utc_day_witness :
  let local := mkDatetime (mkDate 2024 3 5) 23 30 0 0 in
  let utc := mkDatetime (mkDate 2024 3 6) 4 30 0 0 in
  let e := mkEnv local utc (fun _ => false) (fun _ => 0) in
  let sql_sum := fun xs => fold_left PrimFloat.add xs 0%float in
  exists d',
    DbManager.create_order None [mkItem 2 2 3.5%float None] "cash" "Jane Doe"
                           e empty_db = (d', Ok 1) /\
    map o_order_number (orders d') = ["ORD20240305233000"%string] /\
    order_count (get_daily_sales sql_sum "2024-03-06" d') = 1 /\
    get_daily_sales sql_sum "2024-03-05" d'
    = mkDailySales 0 (Int 0) (Int 0) (Int 0).
Proof.
  intros local utc e sql_sum.
  set (d' := fst (DbManager.create_order None [mkItem 2 2 3.5%float None]
                                         "cash" "Jane Doe" e empty_db)).
  assert (Hrun : DbManager.create_order None [mkItem 2 2 3.5%float None]
                                        "cash" "Jane Doe" e empty_db = (d', Ok 1))
    by (vm_compute; reflexivity).
  exists d'. split; [exact Hrun|]. split; [vm_compute; reflexivity|].
  destruct (a_sale_is_counted_on_its_utc_day sql_sum None
              [mkItem 2 2 3.5%float None] "cash" "Jane Doe" e empty_db d' 1
              "2024-03-06" Hrun) as [H1 _].
  destruct (a_sale_is_counted_on_its_utc_day sql_sum None
              [mkItem 2 2 3.5%float None] "cash" "Jane Doe" e empty_db d' 1
              "2024-03-05" Hrun) as [_ H2].
  split.
  - rewrite H1; vm_compute; reflexivity.
  - rewrite H2; [vm_compute; reflexivity|vm_compute; discriminate].
Defined.

Module SeedReport.

(** The day of [now] is the day after the last day of the seed history. *)
Lemma today (t : datetime) :
  Calendar.valid (dt_date t) -> 1030 <= year (dt_date t) ->
  history_day t 30 = dt_date t.
Proof.
  intros Hv Hy. unfold history_day.
  rewrite CalendarFacts.add_sub_days by (auto; lia).
  rewrite Nat.sub_diag. reflexivity.
Qed.

End SeedReport.

(** X9.  The seed history as the sales report shows it: after
    [_generate_dummy_orders] has run on the database [_populate_dummy_data]
    hands it, the report of each of the 30 days before [now] counts between
    5 and 15 orders, and the report of the day of [now] itself is all zeros
    (the int 0, not a float). *)
Theorem seeded_days_in_the_sales_report (sql_sum : list float -> float)
    (e : env) (w : world) :
  (forall n, fault e n = false) ->
  Calendar.valid (dt_date (now e)) -> 1030 <= year (dt_date (now e)) ->
  seedable (pending w) ->
  exists w',
    Seed.generate_dummy_orders e w = (w', Ok tt) /\
    (forall i, (i < 30)%nat ->
       5 <= order_count (get_daily_sales sql_sum
                           (sql_date (history_day (now e) i)) (pending w')) <= 15) /\
    get_daily_sales sql_sum (sql_date (dt_date (now e))) (pending w')
    = mkDailySales 0 (Int 0) (Int 0) (Int 0).
Proof.
  intros Hfault Hvalid Hyear Hseed.
  destruct (History.generate_dummy_orders_hist e Hfault Hvalid Hyear w Hseed)
    as [w' [Hrun [n [m [_ [_ [_ [_ [Hall [Hdone _]]]]]]]]]].
  exists w'. split; [exact Hrun|].
  assert (Hday : forall o, In o (orders (pending w')) ->
            exists i, (i < 30)%nat /\ created_on o = history_day (now e) i).
  { intros o Ho. destruct (Hall o Ho) as [_ [i [q [Hiq [Hq [Hd _]]]]]].
    exists i. split; [lia|]. unfold created_on. rewrite Hd.
    apply History.start_day. }
  assert (Hchars : Forall (fun o => FmtFacts.eight_chars (created_on o))
                          (orders (pending w'))).
  { apply Forall_forall. intros o Ho. destruct (Hday o Ho) as [i [Hi ->]].
    apply History.history_day_chars; auto. lia. }
  split.
  - intros i Hi. unfold get_daily_sales. cbn [order_count].
    rewrite ReportFacts.rows_of_day;
      [|apply History.history_day_chars; auto; lia|exact Hchars].
    specialize (Hdone i Hi). unfold orders_on in Hdone. lia.
  - apply ReportFacts.no_rows.
    rewrite <- (SeedReport.today (now e)) by assumption.
    rewrite ReportFacts.rows_of_day;
      [|apply History.history_day_chars; auto|exact Hchars].
    apply Ids.filter_none. intros o Ho. destruct (Hday o Ho) as [i [Hi Hd]].
    apply not_true_is_false. intros Heq. apply History.date_eqb_eq in Heq.
    rewrite Hd in Heq. apply History.history_day_inj in Heq. lia.
Qed.

Lemma seeded_days_in_the_sales_report_witness :
  let t := mkDatetime (mkDate 2024 3 5) 14 7 9 0 in
  let e := mkEnv t t (fun _ => false) (fun n => Z.of_nat n * 7919 + 3) in
  let d := mkDb [mkProduct 1 "Espresso" "Coffee" 2.5%float "" "" true;
                 mkProduct 2 "Latte" "Coffee" 3.5%float "" "" true]
                [mkCustomer 1 "John Smith" "john@email.com" "555-0101" 50]
                [] [] [] 0 0 in
  let sql_sum := fun xs => fold_left PrimFloat.add xs 0%float in
  seedable d /\
  exists w',
    Seed.generate_dummy_orders e (connect d) = (w', Ok tt) /\
    get_daily_sales sql_sum "2024-03-05" (pending w')
    = mkDailySales 0 (Int 0) (Int 0) (Int 0).
Proof.
  intros t e d sql_sum.
  assert (Hseed : seedable d).
  { unfold seedable, d. simpl.
    split; [discriminate|]. split.
    { repeat constructor; simpl; intuition discriminate. }
    split; [repeat constructor|].
    split; [discriminate|]. split; [repeat constructor|]. repeat split. }
  split; [exact Hseed|].
  destruct (seeded_days_in_the_sales_report sql_sum e (connect d))
    as [w' [Hrun [_ Htoday]]].
  - reflexivity.
  - unfold Calendar.valid. simpl. unfold Calendar.days_in_month. simpl. lia.
  - simpl. lia.
  - exact Hseed.
  - exists w'. split; [exact Hrun|exact Htoday].
Defined.

(** ** Product options *)

Module OptionFacts.

Lemma by_option_trans : Transitive (fun a b => is_true (by_option a b)).
Proof.
  intros a b c. unfold by_option, is_true.
  destruct (String.compare (po_option_name a) (po_option_name b)) eqn:Eab;
    try discriminate;
    destruct (String.compare (po_option_name b) (po_option_name c)) eqn:Ebc;
    try discriminate; intros H1 H2.
  - apply String.compare_eq_iff in Eab, Ebc.
    rewrite Eab, Ebc, TextOrder.compare_refl.
    eapply TextOrder.leb_trans; eauto.
  - apply String.compare_eq_iff in Eab. rewrite Eab, Ebc. reflexivity.
  - apply String.compare_eq_iff in Ebc. rewrite <- Ebc, Eab. reflexivity.
  - rewrite (TextOrder.compare_lt_trans _ _ _ Eab Ebc). reflexivity.
Qed.

End OptionFacts.

(** X10.  [get_product_options] raises [OverflowError] for a product id
    outside 64 bits and nothing else; for every other id it returns exactly
    the options stored for that product, each once, ordered by option name
    and then by option value; options whose product id is NULL belong to no
    product; and for a product without options the answer is the empty
    list, not an error. *)
Theorem product_options_of_a_product (product_id : Z)
    (product_options : list product_option) :
  match get_product_options product_id product_options with
  | Raise x => x = OverflowError /\ Sql.in_int64 product_id = false
  | Ok l =>
      Sql.in_int64 product_id = true /\
      Permutation (filter (of_product product_id) product_options) l /\
      (forall o, In o l <->
                 In o product_options /\ po_product_id o = Some product_id) /\
      StronglySorted (fun a b => by_option a b = true) l /\
      ((forall o, In o product_options -> po_product_id o <> Some product_id) ->
       l = [])
  end.
Proof.
  unfold get_product_options.
  destruct (Sql.in_int64 product_id) eqn:E; simpl; [|auto].
  split; [reflexivity|]. split; [apply SortByOption.Permuted_sort|].
  split; [|split].
  - intros o. split.
    + intros H.
      apply (Permutation_in _ (Permutation_sym (SortByOption.Permuted_sort _))) in H.
      apply filter_In in H. destruct H as [H1 H2]. split; [exact H1|].
      unfold of_product in H2. destruct (po_product_id o) as [p|]; [|discriminate].
      apply Z.eqb_eq in H2. congruence.
    + intros [H1 H2].
      apply (Permutation_in _ (SortByOption.Permuted_sort _)).
      apply filter_In. split; [exact H1|]. unfold of_product. rewrite H2.
      apply Z.eqb_refl.
  - apply (SortByOption.StronglySorted_sort _ OptionFacts.by_option_trans).
  - intros Hnone. rewrite Ids.filter_none; [reflexivity|].
    intros o Ho. unfold of_product.
    destruct (po_product_id o) as [p|] eqn:Ep; [|reflexivity].
    apply Z.eqb_neq. intros ->. apply (Hnone o Ho). exact Ep.
Qed.

(** ** The whole file: [_populate_dummy_data] *)

(** Nothing of the seed generator commits. *)
Module SeedKeeps.
Import Run.

Lemma keeps_randbelow (n : Z) : keeps_committed (Random.randbelow n).
Proof.
  unfold Random.randbelow. apply keeps_bind; [apply keeps_draw|].
  intros r. apply keeps_ret.
Qed.

Lemma keeps_randint (a b : Z) : keeps_committed (Random.randint a b).
Proof.
  unfold Random.randint. apply keeps_bind; [apply keeps_randbelow|].
  intros r. apply keeps_ret.
Qed.

Lemma keeps_random : keeps_committed Random.random.
Proof.
  unfold Random.random. apply keeps_bind; [apply keeps_draw|].
  intros r. apply keeps_ret.
Qed.

Lemma keeps_choice {A : Type} (l : list A) : keeps_committed (Random.choice l).
Proof.
  unfold Random.choice. destruct l as [|a l]; [apply keeps_raise|].
  apply keeps_bind; [apply keeps_randbelow|]. intros i. apply keeps_lift.
Qed.

Lemma keeps_sample_from {A : Type} (k : nat) (pool : list A) :
  keeps_committed (Random.sample_from pool k).
Proof.
  revert pool. induction k as [|k IH]; intros pool; simpl; [apply keeps_ret|].
  apply keeps_bind; [apply keeps_randbelow|]. intros j.
  apply keeps_bind; [apply keeps_lift|]. intros x.
  apply keeps_bind; [apply IH|]. intros rest. apply keeps_ret.
Qed.

Lemma keeps_sample {A : Type} (population : list A) (k : Z) :
  keeps_committed (Random.sample population k).
Proof.
  unfold Random.sample. destruct (_ || _); [apply keeps_raise|].
  apply keeps_sample_from.
Qed.

Lemma keeps_items_loop (selected : list (Z * float)) (subtotal : float)
      (acc : list (Z * Z * float)) :
  keeps_committed (Seed.items_loop selected subtotal acc).
Proof.
  revert subtotal acc.
  induction selected as [|[pid price] selected IH]; intros subtotal acc; simpl.
  - apply keeps_ret.
  - apply keeps_bind; [apply keeps_randint|]. intros q.
    apply keeps_bind; [apply keeps_lift|]. intros t. apply IH.
Qed.

Lemma keeps_generate_order products customers order_date order_num :
  keeps_committed (Seed.generate_order products customers order_date order_num).
Proof.
  unfold Seed.generate_order.
  apply keeps_bind; [apply keeps_random|]. intros r.
  apply keeps_bind.
  { destruct (PrimFloat.ltb r 0.7%float); [|apply keeps_ret].
    apply keeps_bind; [apply keeps_choice|]. intros c. apply keeps_ret. }
  intros customer_id.
  apply keeps_bind; [apply keeps_randint|]. intros num_items.
  apply keeps_bind; [apply keeps_sample|]. intros selected.
  apply keeps_bind; [apply keeps_items_loop|]. intros totals.
  apply keeps_bind; [apply keeps_choice|]. intros pm.
  apply keeps_bind; [apply keeps_choice|]. intros cashier.
  apply keeps_bind; [apply keeps_execute|]. intros u.
  apply keeps_bind; [apply keeps_lastrowid|]. intros order_id.
  apply keeps_for_each. intros [[p q] u0]. apply keeps_execute.
Qed.

Lemma keeps_generate_day products customers start_date day :
  keeps_committed (Seed.generate_day products customers start_date day).
Proof.
  unfold Seed.generate_day.
  apply keeps_bind; [apply keeps_randint|]. intros n.
  apply keeps_for_each. intros k. apply keeps_generate_order.
Qed.

Lemma keeps_generate_dummy_orders : keeps_committed Seed.generate_dummy_orders.
Proof.
  unfold Seed.generate_dummy_orders.
  apply keeps_bind; [apply keeps_execute|]. intros products.
  apply keeps_bind; [apply keeps_execute|]. intros customers.
  apply keeps_bind; [apply keeps_now|]. intros t.
  apply keeps_for_each. intros day. apply keeps_generate_day.
Qed.

End SeedKeeps.

Module FileRun.

Lemma f_bind_ok {A B : Type} (c : File.F A) (f : A -> File.F B) e k k' b :
  File.bind c f e k = (k', Ok b) ->
  exists a k1, c e k = (k1, Ok a) /\ f a e k1 = (k', Ok b).
Proof.
  unfold File.bind. destruct (c e k) as [k1 [a|x]]; intros H.
  - exists a, k1. auto.
  - discriminate.
Qed.

Lemma f_bind_run {A B : Type} (c : File.F A) (f : A -> File.F B) e k k1 a :
  c e k = (k1, Ok a) -> File.bind c f e k = f a e k1.
Proof. intros H. unfold File.bind. rewrite H. reflexivity. Qed.

(** The committed file of a connection. *)
Definition committed_file (k : File.conn) : file :=
  (committed (File.main k), File.rest_committed k).

Definition pending_file (k : File.conn) : file :=
  (pending (File.main k), File.rest_pending k).

(** Nothing but [commit] touches the committed file. *)
Definition keeps {A : Type} (c : File.F A) : Prop :=
  forall e k k' r, c e k = (k', r) -> committed_file k' = committed_file k.

Lemma f_keeps_ret {A : Type} (a : A) : keeps (File.ret a).
Proof. intros e k k' r H. inversion H. reflexivity. Qed.

Lemma f_keeps_bind {A B : Type} (c : File.F A) (f : A -> File.F B) :
  keeps c -> (forall a, keeps (f a)) -> keeps (File.bind c f).
Proof.
  intros Hc Hf e k k' r. unfold File.bind.
  destruct (c e k) as [k1 [a|x]] eqn:E; intros H.
  - rewrite (Hf a e k1 k' r H). apply (Hc e k k1 _ E).
  - inversion H; subst. apply (Hc e k k' _ E).
Qed.

Lemma f_keeps_for_each {A : Type} (xs : list A) (body : A -> File.F unit) :
  (forall x, keeps (body x)) -> keeps (File.for_each xs body).
Proof.
  intros Hb. induction xs as [|x xs IH]; simpl.
  - apply f_keeps_ret.
  - apply f_keeps_bind; auto.
Qed.

Lemma f_keeps_execute {A : Type} (stmt : file -> result (file * A * option Z)) :
  keeps (File.execute stmt).
Proof.
  intros e k k' r. unfold File.execute, committed_file.
  destruct (fault e (statements (File.main k))).
  - intros H. inversion H. reflexivity.
  - destruct (stmt _) as [[[[d' r'] a] rowid]|x]; intros H; inversion H; reflexivity.
Qed.

Lemma f_keeps_lift {A : Type} (c : M A) : Run.keeps_committed c -> keeps (File.lift c).
Proof.
  intros Hc e k k' r. unfold File.lift, committed_file.
  destruct (c e (File.main k)) as [w r0] eqn:E. intros H. inversion H; subst.
  simpl. rewrite (Hc e _ _ _ E). reflexivity.
Qed.

(** A computation that, when it raises, has committed nothing. *)
Definition raises_uncommitted {A : Type} (c : File.F A) : Prop :=
  forall e k k' x, c e k = (k', Raise x) -> committed_file k' = committed_file k.

Lemma raises_of_keeps {A : Type} (c : File.F A) : keeps c -> raises_uncommitted c.
Proof. intros H e k k' x E. apply (H e k k' _ E). Qed.

Lemma raises_bind {A B : Type} (c : File.F A) (f : A -> File.F B) :
  keeps c -> (forall a, raises_uncommitted (f a)) ->
  raises_uncommitted (File.bind c f).
Proof.
  intros Hc Hf e k k' x. unfold File.bind.
  destruct (c e k) as [k1 [a|y]] eqn:E; intros H.
  - rewrite (Hf a e k1 k' x H). apply (Hc e k k1 _ E).
  - inversion H; subst. apply (Hc e k k' _ E).
Qed.

Lemma raises_commit : raises_uncommitted File.commit.
Proof.
  intros e k k' x. unfold File.commit, commit, committed_file.
  destruct (fault e (statements (File.main k))); intros H; inversion H; reflexivity.
Qed.

Lemma populate_raises : raises_uncommitted Populate.populate_dummy_data_body.
Proof.
  unfold Populate.populate_dummy_data_body.
  apply raises_bind; [apply f_keeps_execute|]. intros count.
  destruct (count >? 0); [apply raises_of_keeps, f_keeps_ret|].
  apply raises_bind.
  { apply f_keeps_for_each. intros [[[[n c] p] ds] u]. apply f_keeps_execute. }
  intros _. apply raises_bind.
  { apply f_keeps_for_each. intros [[[a b] c] d]. apply f_keeps_execute. }
  intros _. apply raises_bind.
  { apply f_keeps_for_each. intros [[[a b] c] d]. apply f_keeps_execute. }
  intros _. apply raises_bind.
  { apply f_keeps_for_each. intros [[[a b] c] d]. apply f_keeps_execute. }
  intros _. apply raises_bind; [apply f_keeps_execute|]. intros product_ids.
  apply raises_bind.
  { apply f_keeps_for_each. intros product_id.
    apply f_keeps_bind; [apply f_keeps_lift, SeedKeeps.keeps_randint|].
    intros stock. apply f_keeps_execute. }
  intros _. apply raises_bind.
  { apply f_keeps_lift, SeedKeeps.keeps_generate_dummy_orders. }
  intros _. apply raises_commit.
Qed.

Lemma populate_skips (e : env) (f : file) :
  products (fst f) <> [] ->
  fst (Populate.populate_dummy_data e f) = f /\
  (fault e 0 = false -> snd (Populate.populate_dummy_data e f) = Ok tt).
Proof.
  intros Hne. destruct f as [d r]. simpl in Hne.
  unfold Populate.populate_dummy_data, File.with_connection,
    Populate.populate_dummy_data_body, File.bind, File.execute. simpl.
  destruct (fault e 0); simpl.
  - split; [reflexivity|discriminate].
  - destruct (products d) as [|p ps] eqn:Ep; [contradiction|]. simpl.
    split; reflexivity.
Qed.

End FileRun.

(** X11.  [_populate_dummy_data] writes all of the seed data or nothing:
    whenever it raises, at whichever statement and for whichever reason, the
    database file afterwards is the file before. *)
Theorem populate_is_all_or_nothing (e : env) (f : file) :
  match Populate.populate_dummy_data e f with
  | (f', Raise _) => f' = f
  | (_, Ok _) => True
  end.
Proof.
  unfold Populate.populate_dummy_data, File.with_connection.
  destruct (Populate.populate_dummy_data_body e (File.connect f)) as [k [u|x]] eqn:E;
    [exact I|].
  apply FileRun.populate_raises in E. unfold FileRun.committed_file in E.
  simpl in E. rewrite E. destruct f. reflexivity.
Qed.

(** X12.  [_populate_dummy_data] leaves a database that has a product as it
    is, whatever else the file holds: it reads the number of products, and
    writes nothing; it then returns unless the storage engine failed that
    one read. *)
Theorem populate_skips_a_file_with_products (e : env) (f : file) :
  products (fst f) <> [] ->
  fst (Populate.populate_dummy_data e f) = f /\
  (fault e 0 = false -> snd (Populate.populate_dummy_data e f) = Ok tt).
Proof.
  intros Hne. destruct f as [d r]. simpl in Hne.
  unfold Populate.populate_dummy_data, File.with_connection,
    Populate.populate_dummy_data_body, File.bind, File.execute. simpl.
  destruct (fault e 0); simpl.
  - split; [reflexivity|discriminate].
  - destruct (products d) as [|p ps] eqn:Ep; [contradiction|]. simpl.
    split; reflexivity.
Qed.

Lemma populate_skips_a_file_with_products_witness :
  let t := mkDatetime (mkDate 2024 3 5) 14 7 9 0 in
  let e := mkEnv t t (fun _ => false) (fun _ => 0) in
  let f := (mkDb [mkProduct 1 "Tap Water" "Other" 0%float "" "" false]
                 [] [] [] [] 0 0, mkRest [] [] 1 0 0 0 0) in
  Populate.populate_dummy_data e f = (f, Ok tt).
Proof.
  intros t e f.
  destruct (populate_skips_a_file_with_products e f) as [H1 H2].
  - discriminate.
  - specialize (H2 eq_refl).
    destruct (Populate.populate_dummy_data e f) as [f' r]. simpl in H1, H2.
    rewrite H1, H2. reflexivity.
Defined.

(** ** What a computation leaves of the pending database *)

Module Preserve.

Section Observe.

Variable T : Type.

(** What is observed of the database. *)
Variable g : db -> T.

Definition preserves {A : Type} (c : M A) : Prop :=
  forall e w w' r, c e w = (w', r) -> g (pending w') = g (pending w).

Lemma p_ret {A : Type} (a : A) : preserves (ret a).
Proof. intros e w w' r H. inversion H. reflexivity. Qed.

Lemma p_raise {A : Type} (x : exn) : preserves (@raise A x).
Proof. intros e w w' r H. inversion H. reflexivity. Qed.

Lemma p_lift {A : Type} (r0 : result A) : preserves (lift r0).
Proof. intros e w w' r H. inversion H. reflexivity. Qed.

Lemma p_now : preserves datetime_now.
Proof. intros e w w' r H. inversion H. reflexivity. Qed.

Lemma p_lastrowid : preserves get_lastrowid.
Proof. intros e w w' r H. inversion H. reflexivity. Qed.

Lemma p_draw : preserves Random.draw.
Proof. intros e w w' r H. inversion H. reflexivity. Qed.

Lemma p_bind {A B : Type} (c : M A) (k : A -> M B) :
  preserves c -> (forall a, preserves (k a)) -> preserves (bind c k).
Proof.
  intros Hc Hk e w w' r. unfold bind.
  destruct (c e w) as [w1 [a|x]] eqn:E; intros H.
  - rewrite (Hk a e w1 w' r H). apply (Hc e w w1 _ E).
  - inversion H; subst. apply (Hc e w w' _ E).
Qed.

Lemma p_for_each {A : Type} (xs : list A) (body : A -> M unit) :
  (forall x, preserves (body x)) -> preserves (for_each xs body).
Proof.
  intros Hb. induction xs as [|x xs IH]; simpl.
  - apply p_ret.
  - apply p_bind; auto.
Qed.

Lemma p_execute {A : Type} (stmt : db -> result (db * A * option Z)) :
  (forall d d' a rowid, stmt d = Ok (d', a, rowid) -> g d' = g d) ->
  preserves (execute stmt).
Proof.
  intros Hs e w w' r. unfold execute.
  destruct (fault e (statements w)).
  - intros H. inversion H. reflexivity.
  - destruct (stmt (pending w)) as [[[d' a] rowid]|x] eqn:E; intros H;
      inversion H; subst; simpl; [|reflexivity].
    apply (Hs _ _ _ _ E).
Qed.

Lemma p_randbelow (n : Z) : preserves (Random.randbelow n).
Proof.
  unfold Random.randbelow. apply p_bind; [apply p_draw|].
  intros r. apply p_ret.
Qed.

Lemma p_randint (a b : Z) : preserves (Random.randint a b).
Proof.
  unfold Random.randint. apply p_bind; [apply p_randbelow|].
  intros r. apply p_ret.
Qed.

Lemma p_random : preserves Random.random.
Proof.
  unfold Random.random. apply p_bind; [apply p_draw|].
  intros r. apply p_ret.
Qed.

Lemma p_choice {A : Type} (l : list A) : preserves (Random.choice l).
Proof.
  unfold Random.choice. destruct l as [|a l]; [apply p_raise|].
  apply p_bind; [apply p_randbelow|]. intros i. apply p_lift.
Qed.

Lemma p_sample_from {A : Type} (k : nat) (pool : list A) :
  preserves (Random.sample_from pool k).
Proof.
  revert pool. induction k as [|k IH]; intros pool; simpl; [apply p_ret|].
  apply p_bind; [apply p_randbelow|]. intros j.
  apply p_bind; [apply p_lift|]. intros x.
  apply p_bind; [apply IH|]. intros rest. apply p_ret.
Qed.

Lemma p_sample {A : Type} (population : list A) (k : Z) :
  preserves (Random.sample population k).
Proof.
  unfold Random.sample. destruct (_ || _); [apply p_raise|].
  apply p_sample_from.
Qed.

Lemma p_items_loop (selected : list (Z * float)) (subtotal : float)
      (acc : list (Z * Z * float)) :
  preserves (Seed.items_loop selected subtotal acc).
Proof.
  revert subtotal acc.
  induction selected as [|[pid price] selected IH]; intros subtotal acc; simpl.
  - apply p_ret.
  - apply p_bind; [apply p_randint|]. intros q.
    apply p_bind; [apply p_lift|]. intros t. apply IH.
Qed.

(** The statements of the order paths leave [g] alone. *)
Hypothesis insert_order_g :
  forall customer_id order_number subtotal tax total payment_method cashier_name
         created_at d d' u rowid,
    Sql.insert_order customer_id order_number subtotal tax total payment_method
                     cashier_name created_at d = Ok (d', u, rowid) ->
    g d' = g d.

Hypothesis insert_order_item_g :
  forall order_id product_id quantity unit_price customizations d d' u rowid,
    Sql.insert_order_item order_id product_id quantity unit_price customizations d
      = Ok (d', u, rowid) ->
    g d' = g d.

Lemma p_generate_order products customers order_date order_num :
  preserves (Seed.generate_order products customers order_date order_num).
Proof.
  unfold Seed.generate_order.
  apply p_bind; [apply p_random|]. intros r.
  apply p_bind.
  { destruct (PrimFloat.ltb r 0.7%float); [|apply p_ret].
    apply p_bind; [apply p_choice|]. intros c. apply p_ret. }
  intros customer_id.
  apply p_bind; [apply p_randint|]. intros num_items.
  apply p_bind; [apply p_sample|]. intros selected.
  apply p_bind; [apply p_items_loop|]. intros totals.
  apply p_bind; [apply p_choice|]. intros pm.
  apply p_bind; [apply p_choice|]. intros cashier.
  apply p_bind; [apply p_execute, insert_order_g|]. intros u.
  apply p_bind; [apply p_lastrowid|]. intros order_id.
  apply p_for_each. intros [[p q] u0]. apply p_execute, insert_order_item_g.
Qed.

Lemma p_generate_day products customers start_date day :
  preserves (Seed.generate_day products customers start_date day).
Proof.
  unfold Seed.generate_day.
  apply p_bind; [apply p_randint|]. intros n.
  apply p_for_each. intros k. apply p_generate_order.
Qed.

Lemma p_generate_dummy_orders : preserves Seed.generate_dummy_orders.
Proof.
  unfold Seed.generate_dummy_orders.
  apply p_bind.
  { apply p_execute. intros d d' a rowid H. inversion H. reflexivity. }
  intros products. apply p_bind.
  { apply p_execute. intros d d' a rowid H. inversion H. reflexivity. }
  intros customers.
  apply p_bind; [apply p_now|]. intros t.
  apply p_for_each. intros day. apply p_generate_day.
Qed.

End Observe.

(** The catalog, the customers and the stock. *)
Definition catalog_and_stock (d : db) : list product * list customer * list inventory_row :=
  (products d, customers d, inventory d).

Lemma seed_keeps_catalog_and_stock :
  preserves _ catalog_and_stock Seed.generate_dummy_orders.
Proof.
  apply p_generate_dummy_orders.
  - intros. apply Run.insert_order_ok in H. destruct H as [_ [_ ->]]. reflexivity.
  - intros. apply Run.insert_order_item_ok in H. destruct H as [id [_ ->]].
    reflexivity.
Qed.

End Preserve.

(** ** [_populate_dummy_data] on a new file *)

Module Populated.
Import FileRun.

(** The statements of a loop, run one after the other on the file. *)
Fixpoint run_all {A : Type} (stmt : A -> file -> result (file * unit * option Z))
    (xs : list A) (f : file) (last : Z) : result (file * Z) :=
  match xs with
  | [] => Ok (f, last)
  | x :: rest =>
      match stmt x f with
      | Ok (f', _, rowid) =>
          run_all stmt rest f' (match rowid with Some i => i | None => last end)
      | Raise y => Raise y
      end
  end.

Section NoFault.

Variable e : env.
Hypothesis no_fault : forall n, fault e n = false.

Lemma execute_run {A : Type} (stmt : file -> result (file * A * option Z))
      k f' a rowid :
  stmt (pending_file k) = Ok (f', a, rowid) ->
  File.execute stmt e k =
  (File.mkConn
     (mkWorld (committed (File.main k)) (fst f')
              (match rowid with Some i => i | None => lastrowid (File.main k) end)
              (S (statements (File.main k))) (draws (File.main k)))
     (File.rest_committed k) (snd f'),
   Ok a).
Proof.
  unfold File.execute, pending_file. intros H. rewrite no_fault, H.
  destruct f'. reflexivity.
Qed.

Lemma for_each_run {A : Type} (stmt : A -> file -> result (file * unit * option Z))
      (body : A -> File.F unit) (xs : list A) k f' last' :
  (forall x, body x = File.execute (stmt x)) ->
  run_all stmt xs (pending_file k) (lastrowid (File.main k)) = Ok (f', last') ->
  File.for_each xs body e k =
  (File.mkConn
     (mkWorld (committed (File.main k)) (fst f') last'
              (statements (File.main k) + List.length xs) (draws (File.main k)))
     (File.rest_committed k) (snd f'),
   Ok tt).
Proof.
  intros Hbody. revert k. induction xs as [|x xs IH]; intros k H.
  - simpl in H. inversion H; subst. simpl. unfold File.ret.
    rewrite Nat.add_0_r. destruct k as [[c p l s dr] rc rp]. reflexivity.
  - simpl in H. destruct (stmt x (pending_file k)) as [[[f1 u] rowid]|y] eqn:E;
      [|discriminate].
    cbn [File.for_each]. rewrite Hbody.
    rewrite (f_bind_run _ _ _ _ _ _ (execute_run _ _ _ _ _ E)).
    rewrite IH.
    + cbn [File.main File.rest_committed committed statements draws List.length].
      rewrite Nat.add_succ_r. reflexivity.
    + unfold pending_file. cbn [File.main File.rest_pending pending lastrowid].
      destruct f1. exact H.
Qed.

(** The loop that stocks the products. *)
Lemma inventory_loop (ids : list Z) k :
  NoDup ids -> Forall (fun i => Sql.in_int64 i = true) ids ->
  (forall i, In i (inventory (pending (File.main k))) -> ~ In (i_product_id i) ids) ->
  let m := inventory_seq (File.rest_pending k) in
  0 <= m -> m + Z.of_nat (List.length ids) < 2 ^ 63 ->
  Forall (fun i => i_id i <= m) (inventory (pending (File.main k))) ->
  exists k' rows,
    File.for_each ids (fun product_id =>
      File.bind (File.lift (Random.randint 15 50)) (fun stock =>
        File.execute (Populate.insert_inventory product_id stock))) e k
      = (k', Ok tt) /\
    committed_file k' = committed_file k /\
    products (pending (File.main k')) = products (pending (File.main k)) /\
    customers (pending (File.main k')) = customers (pending (File.main k)) /\
    orders (pending (File.main k')) = orders (pending (File.main k)) /\
    order_items (pending (File.main k')) = order_items (pending (File.main k)) /\
    orders_seq (pending (File.main k')) = orders_seq (pending (File.main k)) /\
    order_items_seq (pending (File.main k')) = order_items_seq (pending (File.main k)) /\
    inventory (pending (File.main k')) = inventory (pending (File.main k)) ++ rows /\
    File.rest_pending k' =
      mkRest (product_options (File.rest_pending k)) (users (File.rest_pending k))
             (products_seq (File.rest_pending k))
             (product_options_seq (File.rest_pending k))
             (customers_seq (File.rest_pending k)) (users_seq (File.rest_pending k))
             (m + Z.of_nat (List.length ids)) /\
    map i_product_id rows = ids /\
    map i_id rows = map (fun j => m + Z.of_nat j) (seq 1 (List.length ids)) /\
    Forall (fun i => 15 <= i_current_stock i <= 50 /\
                     i_min_stock i = 10 /\ i_max_stock i = 100) rows.
Proof.
  intros Hnd Hids. revert k.
  induction Hids as [|pid ids Hpid Hids IH]; intros k Hfresh m Hm Hb Hle.
  - exists k, []. simpl. unfold File.ret. rewrite app_nil_r, Z.add_0_r.
    destruct k as [w rc [po us ps pos cs uss invs]]. simpl in *.
    repeat split; try reflexivity. constructor.
  - inversion Hnd as [|? ? Hnotin Hnd']; subst.
    cbn [File.for_each].
    destruct (RandomFacts.randint_spec 15 50 e (File.main k))
      as [w1 [stock [H1 [[Hc1 [Hp1 [Hl1 Hs1]]] Hstock]]]]; [lia|].
    set (k1 := File.mkConn w1 (File.rest_committed k) (File.rest_pending k)).
    assert (Hlift : File.lift (Random.randint 15 50) e k = (k1, Ok stock)).
    { unfold File.lift. rewrite H1. reflexivity. }
    set (row := mkInventory (m + 1) pid stock 10 100).
    set (d1 := mkDb (products (pending w1)) (customers (pending w1))
                    (orders (pending w1)) (order_items (pending w1))
                    (inventory (pending w1) ++ [row]) (orders_seq (pending w1))
                    (order_items_seq (pending w1))).
    set (r1 := mkRest (product_options (File.rest_pending k))
                      (users (File.rest_pending k))
                      (products_seq (File.rest_pending k))
                      (product_options_seq (File.rest_pending k))
                      (customers_seq (File.rest_pending k))
                      (users_seq (File.rest_pending k)) (m + 1)).
    assert (Hstmt : Populate.insert_inventory pid stock (pending_file k1)
                    = Ok ((d1, r1), tt, Some (m + 1))).
    { unfold pending_file, Populate.insert_inventory. subst k1.
      cbn [File.main File.rest_pending].
      rewrite Hpid, (SeedSteps.in_int64_small stock) by lia. cbn [andb negb].
      replace (existsb (fun i => i_product_id i =? pid) (inventory (pending w1)))
        with false.
      2:{ symmetry. apply not_true_is_false. intros Hex.
          apply existsb_exists in Hex. destruct Hex as [i [Hi Heq]].
          apply Z.eqb_eq in Heq. rewrite Hp1 in Hi.
          apply (Hfresh i Hi). rewrite Heq. simpl. auto. }
      fold m.
      rewrite (SeedSteps.next_rowid_tables _ m);
        [|exact Hm|reflexivity|apply Forall_map; rewrite Hp1; exact Hle].
      rewrite SeedSteps.in_int64_small by (simpl in Hb; lia). reflexivity. }
    pose proof (execute_run _ _ _ _ _ Hstmt) as Hexec.
    match type of Hexec with _ = (?c, _) => set (k2 := c) in * end.
    assert (Hbody :
      File.bind (File.lift (Random.randint 15 50)) (fun stock0 =>
        File.execute (Populate.insert_inventory pid stock0)) e k = (k2, Ok tt)).
    { rewrite (f_bind_run _ _ _ _ _ _ Hlift). exact Hexec. }
    rewrite (f_bind_run _ _ _ _ _ _ Hbody).
    destruct (IH Hnd' k2) as [k' [rows H]].
    + subst k2 k1. cbn [File.main pending inventory fst d1].
      intros i Hi Hin. apply in_app_or in Hi. destruct Hi as [Hi|[<-|[]]].
      * rewrite Hp1 in Hi. apply (Hfresh i Hi). simpl. auto.
      * simpl in Hin. contradiction.
    + subst k2 k1. cbn [File.rest_pending snd r1 inventory_seq]. lia.
    + subst k2 k1. cbn [File.rest_pending snd r1 inventory_seq]. simpl in Hb. lia.
    + subst k2 k1. cbn [File.rest_pending snd r1 inventory_seq File.main pending
                     inventory fst d1].
      apply Forall_app. split.
      * rewrite Hp1. eapply Forall_impl; [|exact Hle]. simpl. intros. lia.
      * repeat constructor. simpl. lia.
    + destruct H as [Hrun [Hcf [Hps [Hcs [Hos [Hois [Hoseq [Hoiseq [Hinv
                     [Hrest [Hmap [Hidsr Hall]]]]]]]]]]]].
      exists k', (row :: rows). split; [exact Hrun|].
      subst k2 k1. cbn [File.main File.rest_pending pending fst snd d1 r1 products
                     customers orders order_items orders_seq order_items_seq
                     inventory inventory_seq product_options users products_seq
                     product_options_seq customers_seq users_seq] in *.
      split.
      { rewrite Hcf. unfold committed_file. cbn [File.main File.rest_committed committed].
        rewrite Hc1. reflexivity. }
      rewrite Hps, Hcs, Hos, Hois, Hoseq, Hoiseq, Hinv, Hrest, Hp1, <- app_assoc.
      repeat split; try reflexivity.
      * f_equal. simpl List.length. lia.
      * simpl. rewrite Hmap. reflexivity.
      * cbn [map List.length seq].
        assert (Hhead : i_id row = m + Z.of_nat 1) by (simpl; lia).
        rewrite Hhead. f_equal.
        rewrite Hidsr, <- (seq_shift (List.length ids) 1), map_map.
        apply map_ext. intros j. lia.
      * constructor; [simpl; lia|exact Hall].
Qed.

Hypothesis now_valid : Calendar.valid (dt_date (now e)).
Hypothesis now_year : 1030 <= year (dt_date (now e)).

(** A run on the file [_init_database] has just made. *)
Ltac step_in H :=
  match type of H with
  | context [File.bind ?c ?f ?e0 ?k] =>
      let kn := fresh "k" in
      set (kn := k) in H; erewrite (f_bind_run c f e0 kn) in H
  end.

Lemma fresh_run :
  exists d r,
    Populate.populate_dummy_data e empty_file = ((d, r), Ok tt) /\
    products d = Seeded.products /\ customers d = Seeded.customers /\
    Seeded.stocked Seeded.products (inventory d) /\
    product_options r = Seeded.product_options /\ users r = Seeded.users /\
    History.hist e 30 0 d.
Proof.
  remember (Populate.populate_dummy_data e empty_file) as res eqn:Hres.
  unfold Populate.populate_dummy_data, File.with_connection,
    Populate.populate_dummy_data_body in Hres.
  step_in Hres; [|apply execute_run; reflexivity].
  match type of Hres with
  | context [if ?b then _ else _] =>
      replace b with false in Hres by (vm_compute; reflexivity)
  end.
  cbv iota in Hres.
  step_in Hres.
  2:{ eapply (for_each_run
                (fun p => match p with
                          | (name, category, price, description, image_url) =>
                              Populate.insert_product name category price
                                                      description image_url
                          end)).
      - intros [[[[n c] p] ds] u]. reflexivity.
      - vm_compute. reflexivity. }
  step_in Hres.
  2:{ eapply (for_each_run
                (fun o => match o with
                          | (product_id, option_name, option_value, price_modifier) =>
                              Populate.insert_product_option
                                product_id option_name option_value price_modifier
                          end)).
      - intros [[[a b] c] d]. reflexivity.
      - vm_compute. reflexivity. }
  step_in Hres.
  2:{ eapply (for_each_run
                (fun c => match c with
                          | (name, email, phone, loyalty_points) =>
                              Populate.insert_customer name email phone loyalty_points
                          end)).
      - intros [[[a b] c] d]. reflexivity.
      - vm_compute. reflexivity. }
  step_in Hres.
  2:{ eapply (for_each_run
                (fun u => match u with
                          | (username, password_hash, full_name, role) =>
                              Populate.insert_user username password_hash full_name role
                          end)).
      - intros [[[a b] c] d]. reflexivity.
      - vm_compute. reflexivity. }
  step_in Hres; [|apply execute_run; vm_compute; reflexivity].
  match type of Hres with
  | context [File.bind (File.for_each ?ids0 ?body) ?f e ?k] =>
      set (ids := ids0) in Hres; set (k5 := k) in Hres
  end.
  assert (Hp5 : products (pending (File.main k5)) = Seeded.products)
    by (vm_compute; reflexivity).
  assert (Hc5 : customers (pending (File.main k5)) = Seeded.customers)
    by (vm_compute; reflexivity).
  assert (Ho5 : orders (pending (File.main k5)) = []) by reflexivity.
  assert (Hoi5 : order_items (pending (File.main k5)) = []) by reflexivity.
  assert (Hos5 : orders_seq (pending (File.main k5)) = 0) by reflexivity.
  assert (Hois5 : order_items_seq (pending (File.main k5)) = 0) by reflexivity.
  assert (Hi5 : inventory (pending (File.main k5)) = []) by reflexivity.
  assert (Hm5 : inventory_seq (File.rest_pending k5) = 0) by reflexivity.
  assert (Hpo5 : product_options (File.rest_pending k5) = Seeded.product_options)
    by (vm_compute; reflexivity).
  assert (Hu5 : users (File.rest_pending k5) = Seeded.users)
    by (vm_compute; reflexivity).
  assert (Hids : ids = map p_id Seeded.products) by (vm_compute; reflexivity).
  assert (Hseq : ids = map (fun j => Z.of_nat j) (seq 1 17))
    by (vm_compute; reflexivity).
  destruct (inventory_loop ids k5) as [k6 [rows H6]].
  { rewrite Hseq. apply Loops.NoDup_map_injective; [|apply seq_NoDup].
    intros i j. apply Nat2Z.inj. }
  { rewrite Hseq. repeat constructor. }
  { rewrite Hi5. intros i []. }
  { rewrite Hm5. lia. }
  { rewrite Hm5, Hseq. simpl. lia. }
  { rewrite Hi5. constructor. }
  destruct H6 as [Hrun6 [_ [Hp6 [Hc6 [Ho6 [Hoi6 [Hos6 [Hois6 [Hi6 [Hr6 [Hmap6
                  [Hid6 Hall6]]]]]]]]]]]].
  rewrite (f_bind_run _ _ _ _ _ _ Hrun6) in Hres.
  assert (Hseed : seedable (pending (File.main k6))).
  { unfold seedable.
    rewrite Hp6, Hc6, Ho6, Hoi6, Hos6, Hois6, Hp5, Hc5, Ho5, Hoi5, Hos5, Hois5.
    split; [discriminate|]. split.
    { rewrite <- Hids, Hseq. apply Loops.NoDup_map_injective; [|apply seq_NoDup].
      intros i j. apply Nat2Z.inj. }
    split; [repeat constructor|].
    split; [discriminate|]. split; [repeat constructor|]. repeat split. }
  destruct (History.generate_dummy_orders_hist e no_fault now_valid now_year
              (File.main k6) Hseed) as [w7 [Hrun7 Hhist]].
  pose proof (Preserve.seed_keeps_catalog_and_stock e _ _ _ Hrun7) as Hframe.
  unfold Preserve.catalog_and_stock in Hframe. injection Hframe as Hp7 Hc7 Hi7.
  assert (Hlift : File.lift Seed.generate_dummy_orders e k6
                  = (File.mkConn w7 (File.rest_committed k6) (File.rest_pending k6),
                     Ok tt)).
  { unfold File.lift. rewrite Hrun7. reflexivity. }
  rewrite (f_bind_run _ _ _ _ _ _ Hlift) in Hres.
  unfold File.commit, commit in Hres.
  cbn [File.main File.rest_pending File.rest_committed] in Hres.
  rewrite no_fault in Hres. cbn [File.main File.rest_pending pending] in Hres.
  exists (pending w7), (File.rest_pending k6).
  split; [exact Hres|].
  split; [rewrite Hp7, Hp6; exact Hp5|].
  split; [rewrite Hc7, Hc6; exact Hc5|].
  split.
  { rewrite Hi7, Hi6, Hi5. simpl. unfold Seeded.stocked.
    split; [rewrite Hmap6; exact Hids|]. split; [|exact Hall6].
    rewrite Hid6, Hm5, Hseq, length_map, length_seq.
    replace (List.length Seeded.products) with 17%nat by reflexivity.
    apply map_ext. intros j. lia. }
  rewrite Hr6. cbn [product_options users].
  split; [exact Hpo5|]. split; [exact Hu5|exact Hhist].
Qed.

End NoFault.

End Populated.

Module SeededFacts.

Lemma flat_map_nil {A B : Type} (f : A -> list B) (l : list A) :
  (forall a, In a l -> f a = []) -> flat_map f l = [].
Proof.
  induction l as [|a l IH]; intros H; simpl; [reflexivity|].
  rewrite (H a) by (simpl; auto). apply IH. intros b Hb. apply H. simpl. auto.
Qed.

(** No row of a stocked inventory is at or below its minimum. *)
Lemma nothing_low (d : db) :
  Forall (fun i => i_min_stock i < i_current_stock i) (inventory d) ->
  Inventory.get_low_stock_items d = [].
Proof.
  intros H. unfold Inventory.get_low_stock_items, Inventory.low_stock_join.
  rewrite flat_map_nil; [reflexivity|].
  intros p _. rewrite Ids.filter_none; [reflexivity|].
  intros i Hi. rewrite Forall_forall in H. specialize (H i Hi).
  apply andb_false_iff. right. apply Z.leb_gt. exact H.
Qed.

End SeededFacts.

(** X13.  On the file [_init_database] has just made, with a working store
    and a valid clock, [_populate_dummy_data] returns, and afterwards the
    catalog is the 17 listed products, numbered from 1 in the order of the
    lists and all on sale; the listed options, customers and users are
    stored, numbered from 1; every product is in one of the four category
    tabs of the product panel; only products 1 and 2 have options.  A
    second run, with whatever clock and store, leaves this file as it
    is. *)
Theorem populate_seeds_a_new_file (e : env) :
  (forall n, fault e n = false) ->
  Calendar.valid (dt_date (now e)) -> 1030 <= year (dt_date (now e)) ->
  exists d r,
    Populate.populate_dummy_data e empty_file = ((d, r), Ok tt) /\
    products d = Seeded.products /\
    customers d = Seeded.customers /\
    product_options r = Seeded.product_options /\
    users r = Seeded.users /\
    List.length (products d) = 17%nat /\
    (forall p, In p (products d) ->
       p_is_available p = true /\ In (p_category p) categories) /\
    (forall product_id, product_id <> 1 -> product_id <> 2 ->
       Sql.in_int64 product_id = true ->
       get_product_options product_id (product_options r) = Ok []) /\
    (forall e', fst (Populate.populate_dummy_data e' (d, r)) = (d, r)).
Proof.
  intros Hfault Hvalid Hyear.
  destruct (Populated.fresh_run e Hfault Hvalid Hyear)
    as [d [r [Hrun [Hp [Hc [_ [Hpo [Hu _]]]]]]]].
  exists d, r. split; [exact Hrun|]. split; [exact Hp|]. split; [exact Hc|].
  split; [exact Hpo|]. split; [exact Hu|]. split; [rewrite Hp; reflexivity|].
  split; [|split].
  - rewrite Hp. intros p Hin.
    assert (Hall : forallb (fun q => p_is_available q
                                     && existsb (String.eqb (p_category q)) categories)
                           Seeded.products = true) by (vm_compute; reflexivity).
    rewrite forallb_forall in Hall. specialize (Hall p Hin).
    apply andb_true_iff in Hall. destruct Hall as [Ha Hc'].
    split; [exact Ha|]. apply existsb_exists in Hc'.
    destruct Hc' as [c [Hc1 Hc2]]. apply String.eqb_eq in Hc2. rewrite Hc2. exact Hc1.
  - intros product_id H1 H2 Hin. unfold get_product_options.
    rewrite Hin, Hpo. simpl negb. cbv iota. f_equal.
    rewrite Ids.filter_none; [reflexivity|].
    intros o Ho. unfold of_product.
    assert (Hall : forallb (fun q => match po_product_id q with
                                     | Some i => (i =? 1) || (i =? 2)
                                     | None => false
                                     end) Seeded.product_options = true)
      by (vm_compute; reflexivity).
    rewrite forallb_forall in Hall. specialize (Hall o Ho).
    destruct (po_product_id o) as [i|]; [|reflexivity].
    apply orb_true_iff in Hall. rewrite !Z.eqb_eq in Hall.
    apply Z.eqb_neq. lia.
  - intros e'. apply FileRun.populate_skips. simpl. rewrite Hp. discriminate.
Qed.

Lemma populate_seeds_a_new_file_witness :
  let t := mkDatetime (mkDate 2024 3 5) 14 7 9 0 in
  let e := mkEnv t t (fun _ => false) (fun n => Z.of_nat n * 7919 + 3) in
  exists d r,
    Populate.populate_dummy_data e empty_file = ((d, r), Ok tt) /\
    products d = Seeded.products.
Proof.
  intros t e.
  destruct (populate_seeds_a_new_file e) as [d [r [H1 [H2 _]]]].
  - reflexivity.
  - unfold Calendar.valid. simpl. unfold Calendar.days_in_month. simpl. lia.
  - simpl. lia.
  - exists d, r. split; [exact H1|exact H2].
Defined.

(** X14.  The same run stocks the catalog and writes the history: each
    product gets one inventory row, in the order of the products, with a
    stock between 15 and 50 and the limits 10 and 100, so the low-stock
    report of the new file is empty; and each of the 30 days before [now]
    has between 5 and 15 orders, each with one to four line items of
    different products. *)
Theorem populate_stocks_the_catalog_and_writes_history (e : env) :
  (forall n, fault e n = false) ->
  Calendar.valid (dt_date (now e)) -> 1030 <= year (dt_date (now e)) ->
  exists d r,
    Populate.populate_dummy_data e empty_file = ((d, r), Ok tt) /\
    Seeded.stocked (products d) (inventory d) /\
    Inventory.get_low_stock_items d = [] /\
    (forall i, (i < 30)%nat ->
       (5 <= List.length (orders_on (history_day (now e) i) d) <= 15)%nat) /\
    (forall o, In o (orders d) ->
       In (created_on o) (history_days (now e)) /\
       good_items (items_of_order (o_id o) d)).
Proof.
  intros Hfault Hvalid Hyear.
  destruct (Populated.fresh_run e Hfault Hvalid Hyear)
    as [d [r [Hrun [Hp [_ [Hst [_ [_ Hhist]]]]]]]].
  exists d, r. split; [exact Hrun|]. rewrite Hp. split; [exact Hst|].
  destruct Hhist as [n [m [_ [_ [_ [_ [Hall [Hdone _]]]]]]]].
  split; [|split].
  - apply SeededFacts.nothing_low. destruct Hst as [_ [_ Hst]].
    eapply Forall_impl; [|exact Hst]. simpl. intros i [H1 [H2 H3]]. lia.
  - exact Hdone.
  - intros o Ho. destruct (Hall o Ho) as [Hg [i [q [Hiq [Hq [Hd _]]]]]].
    split; [|exact Hg].
    unfold created_on, history_days. rewrite Hd.
    apply in_map_iff. exists i. split; [symmetry; apply History.start_day|].
    apply in_seq. lia.
Qed.

Lemma populate_stocks_the_catalog_and_writes_history_witness :
  let t := mkDatetime (mkDate 2024 3 5) 14 7 9 0 in
  let e := mkEnv t t (fun _ => false) (fun n => Z.of_nat n * 7919 + 3) in
  exists d r,
    Populate.populate_dummy_data e empty_file = ((d, r), Ok tt) /\
    Inventory.get_low_stock_items d = [].
Proof.
  intros t e.
  destruct (populate_stocks_the_catalog_and_writes_history e)
    as [d [r [H1 [_ [H2 _]]]]].
  - reflexivity.
  - unfold Calendar.valid. simpl. unfold Calendar.days_in_month. simpl. lia.
  - simpl. lia.
  - exists d, r. split; [exact H1|exact H2].
Defined.

(** ** The product grids *)

Module GridFacts.

(** The position of the [i]th card of a grid of three columns. *)
Definition at_index {A : Type} (i : Z) (p : A) : cell A := (p, i / 3, i mod 3).

Lemma number_from_app {A B : Type} (mk : Z -> A -> B) (i : Z) (xs ys : list A) :
  number_from mk i (xs ++ ys)
  = number_from mk i xs ++ number_from mk (i + Z.of_nat (List.length xs)) ys.
Proof.
  revert i. induction xs as [|x xs IH]; intros i; simpl.
  - rewrite Z.add_0_r. reflexivity.
  - rewrite IH. do 3 f_equal. lia.
Qed.

Lemma number_from_length {A B : Type} (mk : Z -> A -> B) (i : Z) (xs : list A) :
  List.length (number_from mk i xs) = List.length xs.
Proof. revert i. induction xs as [|x xs IH]; intros i; simpl; auto. Qed.

Lemma number_from_fst {A : Type} (i : Z) (xs : list A) :
  map (fun c => fst (fst c)) (number_from at_index i xs) = xs.
Proof.
  revert i. induction xs as [|x xs IH]; intros i; simpl; [reflexivity|].
  rewrite IH. reflexivity.
Qed.

Lemma number_from_index {A : Type} (i : Z) (xs : list A) :
  map (fun c => 3 * snd (fst c) + snd c) (number_from at_index i xs)
  = map (fun k => i + Z.of_nat k) (seq 0 (List.length xs)).
Proof.
  revert i. induction xs as [|x xs IH]; intros i; [reflexivity|].
  cbn [number_from map List.length seq].
  rewrite IH, <- seq_shift, map_map.
  unfold at_index at 1. cbn [fst snd]. f_equal.
  - change (Z.of_nat 0) with 0. rewrite Z.add_0_r. symmetry. apply Z.div_mod. lia.
  - apply map_ext. intros k. lia.
Qed.

(** The counters [row] and [col] of the loop are the quotient and the
    remainder of the index by 3. *)
Lemma place_from_index {A : Type} (row col : Z) (products : list A) :
  0 <= col < 3 ->
  Grid.place_from row col products = number_from at_index (3 * row + col) products.
Proof.
  revert row col. induction products as [|p ps IH]; intros row col Hc;
    [reflexivity|].
  cbn [Grid.place_from number_from]. unfold at_index at 1.
  assert (Hq : (3 * row + col) / 3 = row)
    by (symmetry; apply (Z.div_unique _ 3 row col); lia).
  assert (Hr : (3 * row + col) mod 3 = col)
    by (symmetry; apply (Z.mod_unique _ 3 row col); lia).
  rewrite Hq, Hr. f_equal.
  - destruct (col + 1 >=? 3) eqn:E.
    + apply Z.geb_le in E. rewrite IH by lia. f_equal. lia.
    + assert (col + 1 < 3).
      { destruct (Z.ltb_spec (col + 1) 3) as [H|H]; [exact H|].
        apply Z.geb_le in H. congruence. }
      rewrite IH by lia. f_equal. lia.
Qed.

Lemma cells_distinct {A : Type} (i : Z) (xs : list A) :
  NoDup (map (fun c : cell A => (snd (fst c), snd c)) (number_from at_index i xs)).
Proof.
  assert (H : NoDup (map (fun c => 3 * snd (fst c) + snd c)
                         (number_from at_index i xs))).
  { rewrite number_from_index.
    apply Loops.NoDup_map_injective; [|apply seq_NoDup].
    intros a b Hab. lia. }
  revert H. generalize (number_from at_index i xs). intros l.
  induction l as [|c l IH]; simpl; intros H; [constructor|].
  inversion H as [|? ? Hn Hd]; subst. constructor; [|apply IH, Hd].
  intros Hin. apply Hn. apply in_map_iff in Hin. destruct Hin as [c' [Hc' Hin']].
  apply in_map_iff. exists c'. split; [|exact Hin'].
  injection Hc' as H1 H2. rewrite H1, H2. reflexivity.
Qed.

End GridFacts.

(** X15.  The product grid of [main.py] and [simple_pos.py] shows every
    product once, in the order of the query, three to a row: the card of
    the product at index [i] is at row [i // 3] and column [i % 3], the
    place [new_order_tab.py] computes for it; the columns are 0, 1 and 2,
    and no two cards share a place. *)
Theorem grid_has_three_columns (A : Type) (products : list A) :
  Grid.load_products_grid products
    = number_from (fun i p => (p, i / 3, i mod 3)) 0 products /\
  map (fun c => fst (fst c)) (Grid.load_products_grid products) = products /\
  Forall (fun c : cell A => 0 <= snd (fst c) /\ 0 <= snd c < 3)
         (Grid.load_products_grid products) /\
  NoDup (map (fun c : cell A => (snd (fst c), snd c))
             (Grid.load_products_grid products)).
Proof.
  unfold Grid.load_products_grid.
  rewrite (GridFacts.place_from_index 0 0 products) by lia. simpl (3 * 0 + 0).
  split; [reflexivity|]. split; [apply GridFacts.number_from_fst|].
  split; [|apply GridFacts.cells_distinct].
  assert (H : forall i, 0 <= i ->
            Forall (fun c : cell A => 0 <= snd (fst c) /\ 0 <= snd c < 3)
                   (number_from GridFacts.at_index i products)).
  { induction products as [|p ps IH]; intros i Hi; cbn [number_from];
      constructor.
    - unfold GridFacts.at_index. cbn [fst snd].
      split; [apply Z.div_pos; lia|apply Z.mod_pos_bound; lia].
    - apply IH. lia. }
  apply H. lia.
Qed.

Module LazyFacts.
Import LazyGrid GridFacts.

Lemma getitem_ok {A : Type} (l : list A) (i : Z) :
  0 <= i < Z.of_nat (List.length l) ->
  exists x, getitem l i = Ok x /\ nth_error l (Z.to_nat i) = Some x.
Proof.
  intros Hi. unfold getitem.
  replace ((i <? - Z.of_nat (List.length l)) || (Z.of_nat (List.length l) <=? i))
    with false.
  - replace (i <? 0) with false by (symmetry; apply Z.ltb_ge; lia).
    apply RandomFacts.index_spec. lia.
  - symmetry. apply orb_false_iff. rewrite Z.ltb_ge, Z.leb_gt. lia.
Qed.

Lemma firstn_snoc {A : Type} (l : list A) (n : nat) (x : A) :
  nth_error l n = Some x -> firstn (S n) l = firstn n l ++ [x].
Proof.
  revert n. induction l as [|a l IH]; intros [|n] H; simpl in *; try discriminate.
  - inversion H. reflexivity.
  - rewrite (IH n H). reflexivity.
Qed.

(** The cards of the first [n] products. *)
Definition shown (ps : list product) (n : Z) : list (cell product) :=
  number_from at_index 0 (firstn (Z.to_nat n) ps).

Lemma shown_next (ps : list product) (a : Z) (x : product) :
  0 <= a -> nth_error ps (Z.to_nat a) = Some x ->
  shown ps (a + 1) = shown ps a ++ [(x, a / 3, a mod 3)].
Proof.
  intros Ha Hx. unfold shown.
  replace (Z.to_nat (a + 1)) with (S (Z.to_nat a)) by lia.
  rewrite (firstn_snoc _ _ _ Hx), number_from_app. cbn [number_from].
  assert (Hlen : 0 + Z.of_nat (List.length (firstn (Z.to_nat a) ps)) = a).
  { rewrite firstn_length_le; [lia|].
    apply Nat.lt_le_incl, nth_error_Some. congruence. }
  rewrite Hlen. reflexivity.
Qed.

Lemma load_range (n : nat) (ps : list product) (a : Z) :
  0 <= a -> a + Z.of_nat n <= Z.of_nat (List.length ps) ->
  load_loop (map (fun k => a + Z.of_nat k) (seq 0 n)) (mkGrid ps a (shown ps a))
  = (mkGrid ps (a + Z.of_nat n) (shown ps (a + Z.of_nat n)), Ok tt).
Proof.
  revert a. induction n as [|n IH]; intros a Ha Hb.
  - simpl. rewrite Z.add_0_r. reflexivity.
  - cbn [seq map load_loop]. change (Z.of_nat 0) with 0. rewrite Z.add_0_r.
    destruct (getitem_ok ps a) as [x [Hx Hn]]; [lia|].
    unfold load_one. cbn [products loaded_products cards]. rewrite Hx.
    rewrite <- (shown_next ps a x Ha Hn).
    rewrite <- seq_shift, map_map.
    rewrite (map_ext _ (fun k => (a + 1) + Z.of_nat k)) by (intros k; lia).
    rewrite IH by lia. do 2 f_equal; [lia|f_equal; lia].
Qed.

(** The grid shows the first [loaded_products] products. *)
Definition inv (g : grid) : Prop :=
  0 <= loaded_products g <= Z.of_nat (List.length (products g)) /\
  cards g = shown (products g) (loaded_products g).

Lemma load_more_spec (g : grid) :
  inv g ->
  load_more_products g
  = (mkGrid (products g)
            (Z.min (loaded_products g + 6) (Z.of_nat (List.length (products g))))
            (shown (products g)
                   (Z.min (loaded_products g + 6)
                          (Z.of_nat (List.length (products g))))),
     Ok tt).
Proof.
  intros [Hl Hc]. destruct g as [ps a cs]. cbn [products loaded_products cards] in *.
  unfold load_more_products. cbn [products loaded_products].
  destruct ps as [|p ps'] eqn:Eps.
  - simpl in Hl. assert (a = 0) by lia. subst a.
    rewrite Hc. reflexivity.
  - rewrite <- Eps in *. unfold range_from, products_per_page.
    set (b := Z.min (a + 6) (Z.of_nat (List.length ps))).
    rewrite Hc.
    rewrite (load_range (Z.to_nat (b - a)) ps a) by lia.
    replace (a + Z.of_nat (Z.to_nat (b - a))) with b by lia. reflexivity.
Qed.

Lemma inv_loaded (ps : list product) (n : Z) :
  0 <= n <= Z.of_nat (List.length ps) -> inv (mkGrid ps n (shown ps n)).
Proof. intros H. split; [exact H|reflexivity]. Qed.

Lemma check_cases (v : view) (g : grid) :
  check_load_more v g = load_more_products g \/
  exists r, check_load_more v g = (g, r).
Proof.
  unfold check_load_more.
  destruct (_ <=? _); [right; eexists; reflexivity|].
  destruct (Py.float_of_int (canvas_height v)) as [h|x];
    destruct (Py.float_of_int (content_height v)) as [c|y];
    try (right; eexists; reflexivity).
  destruct (PrimFloat.ltb _ _); [left; reflexivity|right; eexists; reflexivity].
Qed.

(** What every grid that the events build satisfies. *)
Definition good (g : grid) : Prop :=
  inv g /\
  Z.min 6 (Z.of_nat (List.length (products g))) <= loaded_products g /\
  (loaded_products g = Z.of_nat (List.length (products g)) \/
   loaded_products g mod 6 = 0).

Lemma good_load_more (g : grid) :
  inv g ->
  (loaded_products g = Z.of_nat (List.length (products g)) \/
   loaded_products g mod 6 = 0) ->
  good (fst (load_more_products g)).
Proof.
  intros Hi Hm. rewrite (load_more_spec g Hi). cbn [fst]. destruct Hi as [Hl _].
  split; [apply inv_loaded; lia|]. cbn [products loaded_products].
  split; [lia|].
  destruct (Z.min_spec (loaded_products g + 6) (Z.of_nat (List.length (products g))))
    as [[H1 H2]|[H1 H2]]; rewrite H2; [right|left; reflexivity].
  destruct Hm as [Hm|Hm]; [lia|].
  rewrite <- (Z.mul_1_l 6) at 1. rewrite Z.mod_add by lia. exact Hm.
Qed.

Lemma good_step (g : grid) (ev : event) : good g -> good (step g ev).
Proof.
  intros [Hi [Hmin Hm]]. destruct ev as [ps|v]; cbn [step].
  - unfold set_products. apply good_load_more.
    + apply (inv_loaded ps 0). lia.
    + right. reflexivity.
  - destruct (check_cases v g) as [H|[r H]]; rewrite H.
    + apply good_load_more; assumption.
    + split; [exact Hi|]. split; assumption.
Qed.

Lemma good_run (events : list event) (g : grid) :
  good g -> good (fold_left step events g).
Proof.
  revert g. induction events as [|ev events IH]; intros g H; simpl; [exact H|].
  apply IH, good_step, H.
Qed.

Lemma good_init : good init.
Proof.
  split; [split; [simpl; lia|reflexivity]|]. split; [simpl; lia|left; reflexivity].
Qed.

End LazyFacts.

(** X16.  Whatever categories are shown and however the view is scrolled or
    resized, the lazy grid of [new_order_tab.py] holds cards for a prefix of
    the products: the first [loaded_products] of them, each once and in
    order, laid out as [main.py] lays out that prefix (row [i // 3], column
    [i % 3]); [loaded_products] never passes the number of products; the
    first page of 6 (or every product, if there are fewer) is always there;
    and the cards come in whole pages of 6 until the products run out. *)
Theorem lazy_grid_shows_a_prefix (events : list LazyGrid.event) :
  let g := LazyGrid.run events in
  let n := Z.of_nat (List.length (LazyGrid.products g)) in
  0 <= LazyGrid.loaded_products g <= n /\
  Z.min 6 n <= LazyGrid.loaded_products g /\
  (LazyGrid.loaded_products g = n \/ LazyGrid.loaded_products g mod 6 = 0) /\
  LazyGrid.cards g
  = Grid.load_products_grid
      (firstn (Z.to_nat (LazyGrid.loaded_products g)) (LazyGrid.products g)).
Proof.
  intros g n.
  destruct (LazyFacts.good_run events LazyGrid.init LazyFacts.good_init)
    as [[Hl Hc] [Hmin Hm]].
  fold (LazyGrid.run events) in Hl, Hc, Hmin, Hm. fold g in Hl, Hc, Hmin, Hm.
  split; [exact Hl|]. split; [exact Hmin|]. split; [exact Hm|].
  rewrite Hc. unfold LazyFacts.shown, Grid.load_products_grid.
  rewrite (GridFacts.place_from_index 0 0) by lia. reflexivity.
Qed.

Module ScrollFacts.
Import LazyGrid GridFacts LazyFacts.

Lemma scroll_near (ps : list product) (a : Z) (v : view) :
  0 <= a <= Z.of_nat (List.length ps) ->
  near_bottom v = true ->
  step (mkGrid ps a (shown ps a)) (Scrolled v)
  = mkGrid ps (Z.min (a + 6) (Z.of_nat (List.length ps)))
           (shown ps (Z.min (a + 6) (Z.of_nat (List.length ps)))).
Proof.
  intros Ha Hv. cbn [step]. unfold check_load_more. cbn [products loaded_products].
  destruct (Z.leb_spec (Z.of_nat (List.length ps)) a) as [Hle|Hlt].
  - cbn [fst]. replace (Z.min (a + 6) (Z.of_nat (List.length ps))) with a by lia.
    reflexivity.
  - unfold near_bottom in Hv.
    destruct (Py.float_of_int (canvas_height v)) as [h|x]; [|discriminate].
    destruct (Py.float_of_int (content_height v)) as [c|y]; [|discriminate].
    rewrite Hv. rewrite (load_more_spec _ (inv_loaded ps a Ha)). reflexivity.
Qed.

Lemma scroll_all_loaded (ps : list product) (cs : list (cell product)) (v : view) :
  step (mkGrid ps (Z.of_nat (List.length ps)) cs) (Scrolled v)
  = mkGrid ps (Z.of_nat (List.length ps)) cs.
Proof.
  cbn [step]. unfold check_load_more. cbn [products loaded_products].
  rewrite Z.leb_refl. reflexivity.
Qed.

Lemma scrolls_near (vs : list view) (ps : list product) (a : Z) :
  0 <= a <= Z.of_nat (List.length ps) ->
  forallb near_bottom vs = true ->
  fold_left step (map Scrolled vs) (mkGrid ps a (shown ps a))
  = mkGrid ps (Z.min (a + 6 * Z.of_nat (List.length vs)) (Z.of_nat (List.length ps)))
           (shown ps (Z.min (a + 6 * Z.of_nat (List.length vs))
                            (Z.of_nat (List.length ps)))).
Proof.
  revert a. induction vs as [|v vs IH]; intros a Ha Hvs.
  - cbn [map fold_left List.length]. change (Z.of_nat 0) with 0.
    replace (Z.min (a + 6 * 0) (Z.of_nat (List.length ps))) with a by lia.
    reflexivity.
  - cbn [forallb] in Hvs. apply andb_prop in Hvs. destruct Hvs as [Hv Hvs].
    cbn [map fold_left]. rewrite (scroll_near ps a v Ha Hv).
    rewrite IH by (try exact Hvs; lia).
    replace (Z.min (Z.min (a + 6) (Z.of_nat (List.length ps))
                    + 6 * Z.of_nat (List.length vs))
                   (Z.of_nat (List.length ps)))
      with (Z.min (a + 6 * Z.of_nat (List.length (v :: vs)))
                  (Z.of_nat (List.length ps)))
      by (cbn [List.length]; lia).
    reflexivity.
Qed.

Lemma set_products_spec (ps : list product) (g : grid) :
  step g (SetProducts ps)
  = mkGrid ps (Z.min 6 (Z.of_nat (List.length ps)))
           (shown ps (Z.min 6 (Z.of_nat (List.length ps)))).
Proof.
  cbn [step]. unfold set_products.
  assert (Hi : inv (mkGrid ps 0 [])) by (apply (inv_loaded ps 0); lia).
  rewrite (load_more_spec _ Hi). reflexivity.
Qed.

End ScrollFacts.

(** X17.  Scrolling loads every product.  After [set_products(ps)], on a
    grid in any state, followed by [n] scroll or resize events that each find
    the view near the bottom, the grid holds the first [min(6 * (n + 1),
    len(ps))] products of [ps]; so once [6 * (n + 1)] reaches [len(ps)] the
    grid is the whole grid of [ps] as [main.py] lays it out, and from then on
    no scroll or resize event changes it. *)
Theorem scrolling_loads_every_product
    (events : list LazyGrid.event) (ps : list product) (vs : list LazyGrid.view) :
  forallb near_bottom vs = true ->
  let g := LazyGrid.run
             (events ++ LazyGrid.SetProducts ps :: map LazyGrid.Scrolled vs) in
  let n := Z.of_nat (List.length vs) in
  LazyGrid.products g = ps /\
  LazyGrid.loaded_products g = Z.min (6 * (n + 1)) (Z.of_nat (List.length ps)) /\
  LazyGrid.cards g
  = Grid.load_products_grid (firstn (Z.to_nat (6 * (n + 1))) ps) /\
  (Z.of_nat (List.length ps) <= 6 * (n + 1) ->
   LazyGrid.cards g = Grid.load_products_grid ps /\
   forall v, LazyGrid.step g (LazyGrid.Scrolled v) = g).
Proof.
  intros Hvs g n.
  assert (Hg : g = LazyGrid.mkGrid ps
                     (Z.min (6 * (n + 1)) (Z.of_nat (List.length ps)))
                     (LazyFacts.shown ps
                        (Z.min (6 * (n + 1)) (Z.of_nat (List.length ps))))).
  { unfold g, LazyGrid.run. rewrite fold_left_app. cbn [fold_left].
    rewrite ScrollFacts.set_products_spec.
    rewrite ScrollFacts.scrolls_near by (try exact Hvs; lia).
    fold n.
    replace (Z.min (Z.min 6 (Z.of_nat (List.length ps)) + 6 * n)
                   (Z.of_nat (List.length ps)))
      with (Z.min (6 * (n + 1)) (Z.of_nat (List.length ps))) by lia.
    reflexivity. }
  assert (Hshown : forall k, 0 <= k ->
            LazyFacts.shown ps (Z.min k (Z.of_nat (List.length ps)))
            = Grid.load_products_grid (firstn (Z.to_nat k) ps)).
  { intros k Hk. unfold LazyFacts.shown, Grid.load_products_grid.
    rewrite (GridFacts.place_from_index 0 0) by lia.
    f_equal. destruct (Z.min_spec k (Z.of_nat (List.length ps))) as [[H1 H2]|[H1 H2]];
      rewrite H2; [reflexivity|].
    rewrite Nat2Z.id, firstn_all, firstn_all2 by lia. reflexivity. }
  rewrite Hg. cbn [LazyGrid.products LazyGrid.loaded_products LazyGrid.cards].
  split; [reflexivity|]. split; [reflexivity|].
  split; [apply Hshown; lia|].
  intros Hall. rewrite Z.min_r by exact Hall. split.
  - rewrite <- (Z.min_id (Z.of_nat (List.length ps))) at 1.
    rewrite Hshown by lia. rewrite Nat2Z.id, firstn_all. reflexivity.
  - intros v. apply ScrollFacts.scroll_all_loaded.
Qed.

Lemma scrolling_loads_every_product_witness :
  forallb near_bottom
    [LazyGrid.mkView 600 0%float 500; LazyGrid.mkView 600 0%float 500] = true /\
  LazyGrid.loaded_products
    (LazyGrid.run
       ([] ++ LazyGrid.SetProducts Seeded.products
           :: map LazyGrid.Scrolled
                [LazyGrid.mkView 600 0%float 500; LazyGrid.mkView 600 0%float 500]))
  = 17.
Proof.
  split; [vm_compute; reflexivity|].
  refine (proj1 (proj2 (scrolling_loads_every_product
                          [] Seeded.products
                          [LazyGrid.mkView 600 0%float 500;
                           LazyGrid.mkView 600 0%float 500] _))).
  vm_compute. reflexivity.
Defined.

(** ** The totals on the display and in the Order row *)

Module DisplayFacts.

Lemma subtotal_of_cart (current_order : cart) :
  order_subtotal (Main.order_items_of current_order)
  = Py.sum (map (fun l => Py.mul_int_float (l_quantity l) (p_price (l_product l)))
                current_order).
Proof.
  unfold order_subtotal, Main.order_items_of. rewrite map_map. reflexivity.
Qed.

Lemma create_order_no_subtotal order_items0 payment_method cashier_name e d x :
  order_subtotal order_items0 = Raise x ->
  Main.create_order order_items0 payment_method cashier_name e d = (d, Raise x).
Proof.
  intros H. unfold Main.create_order, plain_connection, Main.create_order_body.
  unfold bind at 1. unfold lift. rewrite H. reflexivity.
Qed.

End DisplayFacts.

(** X18.  What the order panel of [main.py] shows is what is saved.  When the
    totals of the cart can be computed, a successful [process_payment]
    appends one Order row whose subtotal, tax and total equal, as [==] has
    it, the floats [update_order_display] computed for the labels (a zero is
    read back from SQLite without its sign, so the comparison is [==] and
    not one of bits); when computing them raises (an int too large for a
    float), [process_payment] of a non-empty cart raises the same exception
    before anything is written, and the cart keeps its lines. *)
Theorem the_totals_shown_are_the_totals_saved
    (current_order : cart) (e : env) (d : db) :
  match Cart.update_totals current_order with
  | Ok t =>
      forall d' c' order_id,
        Main.process_payment current_order e d = (d', c', Ok (Some order_id)) ->
        exists o,
          orders d' = orders d ++ [o] /\ o_id o = order_id /\
          PrimFloat.eqb (o_subtotal o) (Cart.subtotal t) = true /\
          PrimFloat.eqb (o_tax o) (Cart.tax t) = true /\
          PrimFloat.eqb (o_total o) (Cart.total t) = true
  | Raise x =>
      current_order <> [] ->
      Main.process_payment current_order e d = (d, current_order, Raise x)
  end.
Proof.
  pose proof (DisplayFacts.subtotal_of_cart current_order) as Hs.
  unfold Cart.update_totals.
  destruct (Py.sum _) as [s|x] eqn:Esum.
  - intros d' c' order_id H. unfold Main.process_payment in H.
    destruct current_order as [|l rest] eqn:Ec; [discriminate|].
    rewrite <- Ec in *.
    destruct (Main.create_order _ _ _ e d) as [d1 [oid|y]] eqn:E; [|discriminate].
    inversion H; subst d1 c' oid.
    pose proof E as Hcall.
    apply OrderPath.main_create_order_ok in E.
    destruct E as [subtotal [rows [Hsub [_ [_ [Ho _]]]]]].
    destruct (Numbers.main_create_order_numbers _ _ _ _ _ _ _ _ Hcall Hsub)
      as [N1 [N2 [N3 _]]].
    rewrite Hs in Hsub. inversion Hsub; subst subtotal.
    eexists. split; [exact Ho|]. cbn.
    split; [reflexivity|].
    split; [apply Numbers.eqb_of_not_nan, N1|].
    split; [apply Numbers.eqb_of_not_nan, N2|apply Numbers.eqb_of_not_nan, N3].
  - intros Hne. unfold Main.process_payment.
    destruct current_order as [|l rest] eqn:Ec; [contradiction|].
    rewrite <- Ec in *.
    rewrite (DisplayFacts.create_order_no_subtotal _ _ _ e d x Hs). reflexivity.
Qed.

Lemma the_totals_shown_are_the_totals_saved_witness :
  exists t o,
    Cart.update_totals
      [mkLine (mkProduct 1 "Espresso" "Coffee" 2.5%float "" "" true) 2 [];
       mkLine (mkProduct 6 "Macchiato" "Coffee" 3.75%float "" "" true) 1 []]
    = Ok t /\
    orders
      (fst (fst (Main.process_payment
                   [mkLine (mkProduct 1 "Espresso" "Coffee" 2.5%float "" "" true) 2 [];
                    mkLine (mkProduct 6 "Macchiato" "Coffee" 3.75%float "" "" true) 1 []]
                   (mkEnv (mkDatetime (mkDate 2024 3 5) 14 7 9 0)
                          (mkDatetime (mkDate 2024 3 5) 14 7 9 0)
                          (fun _ => false) (fun _ => 0))
                   empty_db)))
    = [o] /\
    PrimFloat.eqb (o_subtotal o) (Cart.subtotal t) = true /\
    PrimFloat.eqb (o_tax o) (Cart.tax t) = true /\
    PrimFloat.eqb (o_total o) (Cart.total t) = true.
Proof.
  set (c0 := [mkLine (mkProduct 1 "Espresso" "Coffee" 2.5%float "" "" true) 2 [];
              mkLine (mkProduct 6 "Macchiato" "Coffee" 3.75%float "" "" true) 1 []]).
  set (e0 := mkEnv (mkDatetime (mkDate 2024 3 5) 14 7 9 0)
                   (mkDatetime (mkDate 2024 3 5) 14 7 9 0)
                   (fun _ => false) (fun _ => 0)).
  pose proof (the_totals_shown_are_the_totals_saved c0 e0 empty_db) as H.
  destruct (Cart.update_totals c0) as [t|x] eqn:E.
  - destruct (H (fst (fst (Main.process_payment c0 e0 empty_db))) [] 1) as [o Ho].
    + vm_compute. reflexivity.
    + exists t, o. split; [reflexivity|]. split; [exact (proj1 Ho)|].
      exact (proj2 (proj2 Ho)).
  - vm_compute in E. discriminate E.
Defined.

(** ** [_init_database] of [main.py] *)

Module MainInitFacts.
Import FileRun.

Lemma f_execute_ok {A : Type} (stmt : file -> result (file * A * option Z))
      e k k' (a : A) :
  File.execute stmt e k = (k', Ok a) ->
  exists f' rowid,
    stmt (pending_file k) = Ok (f', a, rowid) /\
    pending_file k' = f' /\
    committed_file k' = committed_file k.
Proof.
  unfold File.execute, pending_file, committed_file.
  destruct (fault e _); [discriminate|].
  destruct (stmt _) as [[[[d' r'] a0] rowid]|x] eqn:E; intros H; inversion H; subst.
  exists (d', r'), rowid. simpl. auto.
Qed.

Lemma f_commit_ok e k k' u :
  File.commit e k = (k', Ok u) -> committed_file k' = pending_file k.
Proof.
  unfold File.commit, commit, committed_file, pending_file.
  destruct (fault e _); intros H; inversion H; subst. reflexivity.
Qed.

(** The products table has grown by [rows], and the order tables are as
    they were. *)
Definition grown (f f' : file) (rows : list product) : Prop :=
  products (fst f') = products (fst f) ++ rows /\
  orders (fst f') = orders (fst f) /\
  order_items (fst f') = order_items (fst f).

Lemma insert_product_ok name category price description f f' u rowid :
  MainInit.insert_product name category price description f = Ok (f', u, rowid) ->
  exists row,
    grown f f' [row] /\
    seed_of row = (name, category, price, description) /\
    p_is_available row = true.
Proof.
  unfold MainInit.insert_product, Populate.insert_product. destruct f as [d r].
  destruct (PrimFloat.is_nan price); [discriminate|].
  destruct (negb _); [discriminate|].
  intros H. inversion H; subst. eexists.
  split; [split; [|split]; reflexivity|split; reflexivity].
Qed.

Lemma populate_rows_ok (xs : list (string * string * float * string)) e k k' u :
  File.for_each xs
    (fun '(name, category, price, description) =>
       File.execute (MainInit.insert_product name category price description))
    e k = (k', Ok u) ->
  exists rows,
    grown (pending_file k) (pending_file k') rows /\
    map seed_of rows = xs /\
    Forall (fun p => p_is_available p = true) rows /\
    committed_file k' = committed_file k.
Proof.
  revert k. induction xs as [|[[[n c] p] ds] xs IH]; intros k H.
  - inversion H; subst. exists []. unfold grown. rewrite app_nil_r. auto.
  - cbn [File.for_each] in H. apply f_bind_ok in H.
    destruct H as [a [k1 [H1 H2]]].
    apply f_execute_ok in H1. destruct H1 as [f1 [rowid [Hs [Hp Hc]]]].
    apply insert_product_ok in Hs. destruct Hs as [row [[Hg1 [Hg2 Hg3]] [Hseed Hav]]].
    apply IH in H2. destruct H2 as [rows [[Hr1 [Hr2 Hr3]] [Hmap [Hall Hc2]]]].
    rewrite Hp in *. exists (row :: rows). split; [|split; [|split]].
    + split; [|split].
      * rewrite Hr1, Hg1, <- app_assoc. reflexivity.
      * rewrite Hr2. exact Hg2.
      * rewrite Hr3. exact Hg3.
    + cbn [map]. rewrite Hseed, Hmap. reflexivity.
    + constructor; assumption.
    + rewrite Hc2. exact Hc.
Qed.

Lemma create_table_ok e k k' u :
  File.execute MainInit.create_table_if_not_exists e k = (k', Ok u) ->
  pending_file k' = pending_file k /\ committed_file k' = committed_file k.
Proof.
  intros H. apply f_execute_ok in H. destruct H as [f' [rowid [Hs [Hp Hc]]]].
  inversion Hs; subst. auto.
Qed.

Lemma init_raises : raises_uncommitted MainInit.init_database_body.
Proof.
  unfold MainInit.init_database_body.
  do 4 (apply raises_bind; [apply f_keeps_execute|]; intros ?).
  apply raises_bind; [|intros _; apply raises_commit].
  destruct (_ =? 0); [|apply f_keeps_ret].
  apply f_keeps_for_each. intros [[[n c] p] ds]. apply f_keeps_execute.
Qed.

Lemma init_skips (e : env) (f : file) :
  no_fault e -> products (fst f) <> [] ->
  MainInit.init_database e f = (f, Ok tt).
Proof.
  intros Hnf Hne. destruct f as [d r]. simpl in Hne.
  unfold MainInit.init_database, MainInit.plain_connection,
    MainInit.init_database_body, File.bind, File.execute, File.commit, commit.
  cbn. rewrite !Hnf. cbn.
  destruct (products d) as [|p ps] eqn:Ep; [contradiction|].
  cbn. rewrite !Hnf. reflexivity.
Qed.

Lemma categories_of_rows (rows : list product) :
  map seed_of rows = MainInit.products ->
  Forall (fun p => In (p_category p) categories) rows.
Proof.
  assert (Hall : forallb (fun s => existsb (String.eqb (snd (fst (fst s)))) categories)
                         MainInit.products = true) by (vm_compute; reflexivity).
  intros Hmap. rewrite <- Hmap in Hall. rewrite forallb_forall in Hall.
  apply Forall_forall. intros p Hp.
  specialize (Hall (seed_of p) (in_map seed_of rows p Hp)).
  apply existsb_exists in Hall. destruct Hall as [c [Hc Heq]].
  apply String.eqb_eq in Heq. cbn in Heq. rewrite Heq. exact Hc.
Qed.

End MainInitFacts.

(** X19.  [_init_database] of [main.py] seeds the catalog once.  When it
    raises, the file is as it was.  When it returns on a file without
    products, the products table holds the 16 listed rows, in list order,
    all available and each under one of the four category buttons, and the
    order tables are as they were; on a file with a product it changes
    nothing.  Either way, running it again on the file it left (a restart of
    the application, with a working store) changes nothing: the catalog is
    never duplicated. *)
Theorem main_init_database_seeds_once (e : env) (f : file) :
  match MainInit.init_database e f with
  | (f', Ok _) =>
      match products (fst f) with
      | [] =>
          map seed_of (products (fst f')) = MainInit.products /\
          Forall (fun p => p_is_available p = true /\ In (p_category p) categories)
                 (products (fst f')) /\
          orders (fst f') = orders (fst f) /\
          order_items (fst f') = order_items (fst f)
      | _ :: _ => f' = f
      end /\
      forall e', no_fault e' -> MainInit.init_database e' f' = (f', Ok tt)
  | (f', Raise _) => f' = f
  end.
Proof.
  destruct (MainInit.init_database e f) as [f' [u|x]] eqn:E.
  - unfold MainInit.init_database, MainInit.plain_connection in E.
    destruct (MainInit.init_database_body e (File.connect f)) as [k r] eqn:Eb.
    inversion E; subst f' r. clear E.
    unfold MainInit.init_database_body in Eb.
    apply FileRun.f_bind_ok in Eb. destruct Eb as [u1 [k1 [H1 Eb]]].
    apply FileRun.f_bind_ok in Eb. destruct Eb as [u2 [k2 [H2 Eb]]].
    apply FileRun.f_bind_ok in Eb. destruct Eb as [u3 [k3 [H3 Eb]]].
    apply FileRun.f_bind_ok in Eb. destruct Eb as [count [k4 [H4 Eb]]].
    apply FileRun.f_bind_ok in Eb. destruct Eb as [u5 [k5 [H5 H6]]].
    apply MainInitFacts.create_table_ok in H1, H2, H3.
    destruct H1 as [P1 _], H2 as [P2 _], H3 as [P3 _].
    apply MainInitFacts.f_execute_ok in H4.
    destruct H4 as [f4 [rowid [Hs [P4 _]]]].
    unfold Populate.count_products in Hs.
    injection Hs as Hf4 Hcount. rewrite <- Hf4 in P4. subst count.
    apply MainInitFacts.f_commit_ok in H6.
    change (committed (File.main k), File.rest_committed k)
      with (FileRun.committed_file k).
    rewrite H6.
    assert (P0 : FileRun.pending_file k4 = f).
    { rewrite P4, P3, P2, P1. destruct f. reflexivity. }
    assert (P3f : FileRun.pending_file k3 = f) by (rewrite <- P4; exact P0).
    change (pending (File.main k3)) with (fst (FileRun.pending_file k3)) in H5.
    rewrite P3f in H5.
    destruct (products (fst f)) as [|p ps] eqn:Ep.
    + change (Z.of_nat (List.length (@nil product)) =? 0) with true in H5.
      cbv iota in H5. unfold MainInit.populate_dummy_data in H5.
      apply MainInitFacts.populate_rows_ok in H5.
      destruct H5 as [rows [[Hg1 [Hg2 Hg3]] [Hmap [Hall _]]]].
      rewrite P0 in Hg1, Hg2, Hg3. rewrite Ep in Hg1. cbn [app] in Hg1.
      split.
      * rewrite Hg1. split; [exact Hmap|]. split; [|split; assumption].
        pose proof (MainInitFacts.categories_of_rows rows Hmap) as Hcat.
        rewrite Forall_forall in *. intros q Hq. split; auto.
      * intros e' Hnf. apply MainInitFacts.init_skips; [exact Hnf|].
        rewrite Hg1. intros Hnil. rewrite Hnil in Hmap. discriminate Hmap.
    + cbn in H5. inversion H5; subst k5. rewrite P0.
      split; [reflexivity|].
      intros e' Hnf. apply MainInitFacts.init_skips; [exact Hnf|].
      rewrite Ep. discriminate.
  - unfold MainInit.init_database, MainInit.plain_connection in E.
    destruct (MainInit.init_database_body e (File.connect f)) as [k r] eqn:Eb.
    inversion E; subst f' r.
    apply MainInitFacts.init_raises in Eb. unfold FileRun.committed_file in Eb.
    rewrite Eb. destruct f. reflexivity.
Qed.

Lemma main_init_database_seeds_once_witness :
  exists f',
    MainInit.init_database
      (mkEnv (mkDatetime (mkDate 2024 3 5) 14 7 9 0)
             (mkDatetime (mkDate 2024 3 5) 14 7 9 0)
             (fun _ => false) (fun _ => 0))
      empty_file = (f', Ok tt) /\
    map p_id (products (fst f')) = [1; 2; 3; 4; 5; 6; 7; 8; 9; 10; 11; 12; 13; 14; 15; 16] /\
    map seed_of (products (fst f')) = MainInit.products /\
    MainInit.init_database
      (mkEnv (mkDatetime (mkDate 2024 3 5) 14 7 9 0)
             (mkDatetime (mkDate 2024 3 5) 14 7 9 0)
             (fun _ => false) (fun _ => 0))
      f' = (f', Ok tt).
Proof.
  set (e0 := mkEnv (mkDatetime (mkDate 2024 3 5) 14 7 9 0)
                   (mkDatetime (mkDate 2024 3 5) 14 7 9 0)
                   (fun _ => false) (fun _ => 0)).
  pose proof (main_init_database_seeds_once e0 empty_file) as H.
  destruct (MainInit.init_database e0 empty_file) as [f' [u|x]] eqn:E.
  - exists f'. destruct u. split; [reflexivity|].
    cbn [empty_file fst products empty_db] in H. destruct H as [[Hm _] Hidem].
    split; [|split; [exact Hm|apply Hidem; intros n; reflexivity]].
    vm_compute in E. injection E as Ef. rewrite <- Ef. reflexivity.
  - vm_compute in E. discriminate E.
Defined.

(** ** The seeded database is referential *)

Module Refers.
Import Run.

(** From [d] to [d']: OrderItem rows that referred to ids handed out still
    do, and no id handed out is forgotten. *)
Definition grows (d d' : db) : Prop :=
  (referential d -> referential d') /\ max_order_id d <= max_order_id d'.

Lemma grows_refl (d : db) : grows d d.
Proof. split; [auto|lia]. Qed.

Lemma grows_trans (d1 d2 d3 : db) : grows d1 d2 -> grows d2 d3 -> grows d1 d3.
Proof. intros [H1 L1] [H2 L2]. split; [auto|lia]. Qed.

Lemma grows_same (d d' : db) :
  orders d' = orders d -> order_items d' = order_items d ->
  orders_seq d' = orders_seq d -> grows d d'.
Proof.
  intros Ho Hi Hs. unfold grows, referential, max_order_id.
  rewrite Ho, Hi, Hs. split; [auto|lia].
Qed.

Definition moves {A : Type} (c : M A) : Prop :=
  forall e w w' r, c e w = (w', r) -> grows (pending w) (pending w').

Lemma moves_ret {A : Type} (a : A) : moves (ret a).
Proof. intros e w w' r H. inversion H. apply grows_refl. Qed.

Lemma moves_bind {A B : Type} (c : M A) (k : A -> M B) :
  moves c -> (forall a, moves (k a)) -> moves (bind c k).
Proof.
  intros Hc Hk e w w' r. unfold bind.
  destruct (c e w) as [w1 [a|x]] eqn:E; intros H.
  - apply (grows_trans _ (pending w1)); [apply (Hc e w w1 _ E)|].
    apply (Hk a e w1 w' r H).
  - inversion H; subst. apply (Hc e w w' _ E).
Qed.

Lemma moves_for_each {A : Type} (xs : list A) (body : A -> M unit) :
  (forall x, moves (body x)) -> moves (for_each xs body).
Proof.
  intros Hb. induction xs as [|x xs IH]; simpl.
  - apply moves_ret.
  - apply moves_bind; auto.
Qed.

Lemma moves_still {A : Type} (c : M A) :
  Preserve.preserves db (fun d => d) c -> moves c.
Proof. intros Hc e w w' r H. rewrite (Hc e w w' r H). apply grows_refl. Qed.

Lemma execute_raise_pending {A : Type} (stmt : db -> result (db * A * option Z))
      e w w' x :
  execute stmt e w = (w', Raise x) -> pending w' = pending w.
Proof.
  unfold execute. destruct (fault e (statements w)).
  - intros H. inversion H. reflexivity.
  - destruct (stmt (pending w)) as [[[d' a] rowid]|y]; intros H;
      inversion H; subst; reflexivity.
Qed.

Lemma moves_execute {A : Type} (stmt : db -> result (db * A * option Z)) :
  (forall d d' a rowid, stmt d = Ok (d', a, rowid) -> grows d d') ->
  moves (execute stmt).
Proof.
  intros Hs e w w' [a|x] H.
  - apply execute_ok in H. destruct H as [_ [d' [rowid [E Hw]]]].
    subst w'. simpl. apply (Hs _ _ _ _ E).
  - rewrite (execute_raise_pending _ _ _ _ _ H). apply grows_refl.
Qed.

Lemma insert_order_grows customer_id order_number subtotal tax total
      payment_method cashier_name created_at d d' u rowid :
  Sql.insert_order customer_id order_number subtotal tax total payment_method
                   cashier_name created_at d = Ok (d', u, rowid) ->
  grows d d' /\ exists id, rowid = Some id /\ id <= max_order_id d'.
Proof.
  intros H. apply insert_order_ok in H. destruct H as [Hrow [_ Hd']].
  cbv zeta in Hrow.
  assert (Hmax : max_order_id d < Sql.next_rowid (orders_seq d) (map o_id (orders d))).
  { unfold max_order_id, Sql.next_rowid. lia. }
  assert (Hid : Sql.next_rowid (orders_seq d) (map o_id (orders d)) <= max_order_id d').
  { subst d'. unfold max_order_id. simpl. lia. }
  split; [split|].
  - intros Href. unfold referential in *. rewrite Forall_forall in *.
    intros r Hr. assert (Hin : In r (order_items d)) by (subst d'; exact Hr).
    specialize (Href r Hin). lia.
  - lia.
  - eexists. split; [exact Hrow|exact Hid].
Qed.

Lemma insert_order_item_grows order_id product_id quantity unit_price
      customizations d d' u rowid :
  order_id <= max_order_id d ->
  Sql.insert_order_item order_id product_id quantity unit_price customizations d
    = Ok (d', u, rowid) ->
  grows d d' /\ max_order_id d' = max_order_id d.
Proof.
  intros Hle H. apply insert_order_item_ok in H. destruct H as [id [_ Hd']].
  assert (Hmax : max_order_id d' = max_order_id d) by (subst d'; reflexivity).
  split; [split|exact Hmax]; [|lia].
  intros Href. unfold referential in *. rewrite Hmax. subst d'. simpl.
  apply Forall_app. split; [exact Href|]. constructor; [exact Hle|constructor].
Qed.

(** The loop that stores the line items of a seeded order. *)
Lemma seed_items_move (order_id : Z) (items : list (Z * Z * float)) e w w' r :
  order_id <= max_order_id (pending w) ->
  for_each items (fun item =>
    match item with
    | (product_id, quantity, unit_price) =>
        execute (Sql.insert_order_item order_id product_id quantity unit_price None)
    end) e w = (w', r) ->
  grows (pending w) (pending w').
Proof.
  revert w. induction items as [|[[p q] u] items IH]; intros w Hle H.
  - inversion H. apply grows_refl.
  - cbn [for_each] in H. unfold bind in H.
    destruct (execute _ e w) as [w1 [a|x]] eqn:E.
    + apply execute_ok in E. destruct E as [_ [d' [rowid [Es Hw]]]].
      apply (insert_order_item_grows _ _ _ _ _ _ _ _ _ Hle) in Es.
      destruct Es as [Hg Hmax].
      assert (Hp : pending w1 = d') by (subst w1; reflexivity).
      rewrite <- Hp in Hg, Hmax.
      apply (grows_trans _ (pending w1)); [exact Hg|].
      apply (IH w1); [rewrite Hmax; exact Hle|exact H].
    + inversion H; subst.
      rewrite (execute_raise_pending _ _ _ _ _ E). apply grows_refl.
Qed.

(** The Order row and its line items. *)
Lemma seed_order_moves customer_id order_number subtotal tax total
      payment_method cashier order_date (items : list (Z * Z * float)) :
  moves (execute (Sql.insert_order customer_id order_number subtotal tax total
                                   payment_method cashier order_date) ;;;
         order_id <- get_lastrowid ;;
         for_each items (fun item =>
           match item with
           | (product_id, quantity, unit_price) =>
               execute (Sql.insert_order_item order_id product_id quantity
                                              unit_price None)
           end)).
Proof.
  intros e w w' r H. unfold bind at 1 in H.
  destruct (execute _ e w) as [w1 [a|x]] eqn:E.
  - apply execute_ok in E. destruct E as [_ [d' [rowid [Es Hw]]]].
    apply insert_order_grows in Es. destruct Es as [Hg [id [Hrow Hid]]].
    subst rowid.
    assert (Hp : pending w1 = d') by (subst w1; reflexivity).
    assert (Hl : lastrowid w1 = id) by (subst w1; reflexivity).
    rewrite <- Hp in Hg, Hid.
    apply (grows_trans _ (pending w1)); [exact Hg|].
    unfold bind, get_lastrowid in H.
    apply (seed_items_move (lastrowid w1) items e w1 w' r); [|exact H].
    rewrite Hl. exact Hid.
  - inversion H; subst.
    rewrite (execute_raise_pending _ _ _ _ _ E). apply grows_refl.
Qed.

Lemma generate_order_moves products customers order_date order_num :
  moves (Seed.generate_order products customers order_date order_num).
Proof.
  unfold Seed.generate_order.
  apply moves_bind; [apply moves_still, Preserve.p_random|]. intros r.
  apply moves_bind.
  { destruct (PrimFloat.ltb r 0.7%float); [|apply moves_ret].
    apply moves_bind; [apply moves_still, Preserve.p_choice|].
    intros c. apply moves_ret. }
  intros customer_id.
  apply moves_bind; [apply moves_still, Preserve.p_randint|]. intros num_items.
  apply moves_bind; [apply moves_still, Preserve.p_sample|]. intros selected.
  apply moves_bind; [apply moves_still, Preserve.p_items_loop|]. intros totals.
  apply moves_bind; [apply moves_still, Preserve.p_choice|]. intros payment_method.
  apply moves_bind; [apply moves_still, Preserve.p_choice|]. intros cashier.
  apply seed_order_moves.
Qed.

Lemma generate_dummy_orders_moves : moves Seed.generate_dummy_orders.
Proof.
  unfold Seed.generate_dummy_orders.
  apply moves_bind.
  { apply moves_execute. intros d d' a rowid H. inversion H. apply grows_refl. }
  intros products. apply moves_bind.
  { apply moves_execute. intros d d' a rowid H. inversion H. apply grows_refl. }
  intros customers.
  apply moves_bind; [apply moves_still, Preserve.p_now|]. intros t.
  apply moves_for_each. intros day. unfold Seed.generate_day.
  apply moves_bind; [apply moves_still, Preserve.p_randint|]. intros daily_orders.
  apply moves_for_each. intros order_num. apply generate_order_moves.
Qed.

(** The same, for code that runs on the whole file. *)
Definition f_moves {A : Type} (c : File.F A) : Prop :=
  forall e k k' r, c e k = (k', r) ->
                   grows (pending (File.main k)) (pending (File.main k')).

Lemma f_moves_ret {A : Type} (a : A) : f_moves (File.ret a).
Proof. intros e k k' r H. inversion H. apply grows_refl. Qed.

Lemma f_moves_bind {A B : Type} (c : File.F A) (f : A -> File.F B) :
  f_moves c -> (forall a, f_moves (f a)) -> f_moves (File.bind c f).
Proof.
  intros Hc Hf e k k' r. unfold File.bind.
  destruct (c e k) as [k1 [a|x]] eqn:E; intros H.
  - apply (grows_trans _ (pending (File.main k1))); [apply (Hc e k k1 _ E)|].
    apply (Hf a e k1 k' r H).
  - inversion H; subst. apply (Hc e k k' _ E).
Qed.

Lemma f_moves_for_each {A : Type} (xs : list A) (body : A -> File.F unit) :
  (forall x, f_moves (body x)) -> f_moves (File.for_each xs body).
Proof.
  intros Hb. induction xs as [|x xs IH]; simpl.
  - apply f_moves_ret.
  - apply f_moves_bind; auto.
Qed.

Lemma f_moves_lift {A : Type} (c : M A) : moves c -> f_moves (File.lift c).
Proof.
  intros Hc e k k' r. unfold File.lift.
  destruct (c e (File.main k)) as [w r0] eqn:E. intros H. inversion H; subst.
  simpl. apply (Hc e _ _ _ E).
Qed.

Lemma f_moves_execute {A : Type} (stmt : file -> result (file * A * option Z)) :
  (forall f f' a rowid, stmt f = Ok (f', a, rowid) -> grows (fst f) (fst f')) ->
  f_moves (File.execute stmt).
Proof.
  intros Hs e k k' r. unfold File.execute.
  destruct (fault e (statements (File.main k))).
  - intros H. inversion H. simpl. apply grows_refl.
  - destruct (stmt _) as [[[[d' r'] a] rowid]|x] eqn:E; intros H; inversion H;
      simpl; [|apply grows_refl].
    apply (Hs _ _ _ _ E).
Qed.

Lemma f_moves_commit : f_moves File.commit.
Proof.
  intros e k k' r. unfold File.commit, commit.
  destruct (fault e (statements (File.main k))); intros H; inversion H; simpl;
    apply grows_refl.
Qed.

(** The statements of [_populate_dummy_data] on the other tables leave the
    order tables as they are. *)
Lemma insert_product_grows name category price description image_url f f' a rowid :
  Populate.insert_product name category price description image_url f
    = Ok (f', a, rowid) -> grows (fst f) (fst f').
Proof.
  unfold Populate.insert_product. destruct f as [d r].
  destruct (PrimFloat.is_nan price); [discriminate|].
  destruct (negb _); [discriminate|].
  intros H. inversion H. apply grows_same; reflexivity.
Qed.

Lemma insert_product_option_grows product_id option_name option_value
      price_modifier f f' a rowid :
  Populate.insert_product_option product_id option_name option_value
                                 price_modifier f
    = Ok (f', a, rowid) -> grows (fst f) (fst f').
Proof.
  unfold Populate.insert_product_option. destruct f as [d r].
  destruct (negb _); [discriminate|].
  destruct (negb _); [discriminate|].
  intros H. inversion H. apply grows_refl.
Qed.

Lemma insert_customer_grows name email phone loyalty_points f f' a rowid :
  Populate.insert_customer name email phone loyalty_points f
    = Ok (f', a, rowid) -> grows (fst f) (fst f').
Proof.
  unfold Populate.insert_customer. destruct f as [d r].
  destruct (negb _); [discriminate|].
  destruct (existsb _ _); [discriminate|].
  destruct (negb _); [discriminate|].
  intros H. inversion H. apply grows_same; reflexivity.
Qed.

Lemma insert_user_grows username password_hash full_name role f f' a rowid :
  Populate.insert_user username password_hash full_name role f
    = Ok (f', a, rowid) -> grows (fst f) (fst f').
Proof.
  unfold Populate.insert_user. destruct f as [d r].
  destruct (existsb _ _); [discriminate|].
  destruct (negb _); [discriminate|].
  intros H. inversion H. apply grows_refl.
Qed.

Lemma insert_inventory_grows product_id stock f f' a rowid :
  Populate.insert_inventory product_id stock f
    = Ok (f', a, rowid) -> grows (fst f) (fst f').
Proof.
  unfold Populate.insert_inventory. destruct f as [d r].
  destruct (negb _); [discriminate|].
  destruct (existsb _ _); [discriminate|].
  destruct (negb _); [discriminate|].
  intros H. inversion H. apply grows_same; reflexivity.
Qed.

Lemma populate_moves : f_moves Populate.populate_dummy_data_body.
Proof.
  unfold Populate.populate_dummy_data_body.
  apply f_moves_bind.
  { apply f_moves_execute. intros f f' a rowid H. inversion H. apply grows_refl. }
  intros count. destruct (count >? 0); [apply f_moves_ret|].
  apply f_moves_bind.
  { apply f_moves_for_each. intros [[[[n c] p] ds] u].
    apply f_moves_execute, insert_product_grows. }
  intros _. apply f_moves_bind.
  { apply f_moves_for_each. intros [[[a b] c] d].
    apply f_moves_execute, insert_product_option_grows. }
  intros _. apply f_moves_bind.
  { apply f_moves_for_each. intros [[[a b] c] d].
    apply f_moves_execute, insert_customer_grows. }
  intros _. apply f_moves_bind.
  { apply f_moves_for_each. intros [[[a b] c] d].
    apply f_moves_execute, insert_user_grows. }
  intros _. apply f_moves_bind.
  { apply f_moves_execute. intros f f' a rowid H. inversion H. apply grows_refl. }
  intros product_ids. apply f_moves_bind.
  { apply f_moves_for_each. intros product_id.
    apply f_moves_bind; [apply f_moves_lift, moves_still, Preserve.p_randint|].
    intros stock. apply f_moves_execute, insert_inventory_grows. }
  intros _. apply f_moves_bind.
  { apply f_moves_lift, generate_dummy_orders_moves. }
  intros _. apply f_moves_commit.
Qed.

End Refers.

(** [_populate_dummy_data] keeps the database referential, whether it
    returns or raises, so the seeded database that [db_manager.py] sells
    from is referential. *)
Lemma populate_keeps_referential (e : env) (f f' : file) (r : result unit) :
  referential (fst f) ->
  Populate.populate_dummy_data e f = (f', r) ->
  referential (fst f').
Proof.
  intros Href. unfold Populate.populate_dummy_data, File.with_connection.
  destruct (Populate.populate_dummy_data_body e (File.connect f)) as [k [u|x]] eqn:E;
    intros H; inversion H; subst; simpl.
  - apply (Refers.populate_moves e _ _ _ E). destruct f. exact Href.
  - apply FileRun.populate_raises in E. unfold FileRun.committed_file in E.
    injection E as E1 E2. rewrite E1. destruct f. exact Href.
Qed.

(** [_init_database] of [main.py] keeps it too. *)
Lemma main_init_keeps_referential (e : env) (f f' : file) (r : result unit) :
  referential (fst f) ->
  MainInit.init_database e f = (f', r) ->
  referential (fst f').
Proof.
  intros Href. unfold MainInit.init_database, MainInit.plain_connection.
  destruct (MainInit.init_database_body e (File.connect f)) as [k r0] eqn:E.
  intros H. inversion H; subst. simpl.
  destruct r as [u|x].
  - assert (Hm : Refers.f_moves MainInit.init_database_body).
    { unfold MainInit.init_database_body.
      do 3 (apply Refers.f_moves_bind;
            [apply Refers.f_moves_execute; intros g g' a rowid Hs;
             inversion Hs; apply Refers.grows_refl|]; intros _).
      apply Refers.f_moves_bind.
      { apply Refers.f_moves_execute. intros g g' a rowid Hs.
        inversion Hs. apply Refers.grows_refl. }
      intros count.
      apply Refers.f_moves_bind; [|intros _; apply Refers.f_moves_commit].
      destruct (count =? 0); [|apply Refers.f_moves_ret].
      apply Refers.f_moves_for_each. intros [[[n c] p] ds].
      apply Refers.f_moves_execute. intros g g' a rowid Hs.
      apply (Refers.insert_product_grows _ _ _ _ _ _ _ _ _ Hs). }
    assert (Hc : committed (File.main k) = pending (File.main k)).
    { pose proof E as Hc. unfold MainInit.init_database_body in Hc.
      do 5 (apply FileRun.f_bind_ok in Hc; destruct Hc as [? [? [_ Hc]]]).
      revert Hc. unfold File.commit, commit.
      destruct (fault e _); intros Hc; inversion Hc. reflexivity. }
    rewrite Hc. apply (Hm e _ _ _ E). destruct f. exact Href.
  - apply MainInitFacts.init_raises in E. unfold FileRun.committed_file in E.
    injection E as E1 E2. rewrite E1. destruct f. exact Href.
Qed.

(** C3 at the database [db_manager.py] sells from: a new file, seeded by
    [_populate_dummy_data], then two Lattes (3.50) and a Croissant (2.00). *)
Lemma create_order_stores_the_submitted_order_witness :
  let t := mkDatetime (mkDate 2024 3 5) 14 7 9 0 in
  let e := mkEnv t t (fun _ => false) (fun n => Z.of_nat n * 7919 + 3) in
  let items := [mkItem 2 2 3.5%float None; mkItem 11 1 2%float None] in
  let d := fst (fst (Populate.populate_dummy_data e empty_file)) in
  let run := DbManager.create_order None items "cash" "Jane Doe" e d in
  referential d /\
  (1 <= List.length (orders d))%nat /\
  snd run = Ok (Z.of_nat (List.length (orders d)) + 1) /\
  exists o,
    orders_with_id (Z.of_nat (List.length (orders d)) + 1) (fst run) = [o] /\
    PrimFloat.eqb (o_subtotal o) 9%float = true /\
    PrimFloat.eqb (o_tax o) (PrimFloat.mul 9 0.08) = true /\
    List.length (items_of_order (Z.of_nat (List.length (orders d)) + 1) (fst run))
      = 2%nat.
Proof.
  intros t e items d run.
  assert (Href : referential d).
  { apply (populate_keeps_referential e empty_file
             (fst (Populate.populate_dummy_data e empty_file))
             (snd (Populate.populate_dummy_data e empty_file)));
      [constructor|apply surjective_pairing]. }
  assert (Hsnd : snd run = Ok (Z.of_nat (List.length (orders d)) + 1))
    by (vm_compute; reflexivity).
  split; [exact Href|]. split; [vm_compute; lia|]. split; [exact Hsnd|].
  destruct (proj1 (create_order_stores_the_submitted_order
                     None items "cash" "Jane Doe" e d Href)
                  (fst run) (Z.of_nat (List.length (orders d)) + 1))
    as [o [subtotal [Ho [Hs [H1 [H2 [_ [Hl _]]]]]]]].
  - rewrite <- Hsnd. apply surjective_pairing.
  - assert (Es : subtotal = 9%float).
    { vm_compute in Hs. injection Hs as Hs. symmetry. exact Hs. }
    subst subtotal. exists o.
    split; [exact Ho|]. split; [exact H1|]. split; [exact H2|]. exact Hl.
Defined.

(** * Examples *)

(** The example of the specification: two Lattes at 3.50 and a Croissant at
    2.00 give subtotal 9.00, tax 0.72 and total 9.72 (each the binary64
    value nearest to the decimal). *)
Example totals_of_two_lattes_and_a_croissant :
  let latte := mkProduct 2 "Latte" "Coffee" 3.5%float "" "" true in
  let croissant := mkProduct 11 "Croissant" "Pastries" 2%float "" "" true in
  Cart.update_totals (Cart.run [Cart.Add latte; Cart.Add latte; Cart.Add croissant])
  = Ok (Cart.mkTotals 9%float 0.72%float 9.72%float).
Proof. vm_compute. reflexivity. Qed.

Example remove_takes_the_whole_line :
  let latte := mkProduct 2 "Latte" "Coffee" 3.5%float "" "" true in
  let croissant := mkProduct 11 "Croissant" "Pastries" 2%float "" "" true in
  Cart.run [Cart.Add latte; Cart.Add croissant; Cart.Add latte; Cart.Remove 2]
  = [mkLine croissant 1 []].
Proof. reflexivity. Qed.

Example create_order_number :
  order_number_of (mkDatetime (mkDate 2024 3 5) 14 7 9 123456)
  = "ORD20240305140709"%string.
Proof. reflexivity. Qed.

Example seed_order_number :
  Seed.order_number_of
    (datetime_add_days (datetime_sub_days (mkDatetime (mkDate 2024 3 5) 14 7 9 0) 30) 1) 7
  = "ORD20240205007"%string.
Proof. reflexivity. Qed.

Example zfill_pads_to_three : string_of_list_ascii (Fmt.zfill 3 7) = "007"%string.
Proof. reflexivity. Qed.

Example zfill_keeps_longer_numbers :
  string_of_list_ascii (Fmt.zfill 3 1234) = "1234"%string.
Proof. reflexivity. Qed.

Example leap_day : Calendar.add_days (mkDate 2024 2 28) 2 = mkDate 2024 3 1.
Proof. reflexivity. Qed.

Example round2_ties_and_halves :
  Py.round2 2.675%float = 2.67%float /\ Py.round2 0.125%float = 0.12%float /\
  Py.round2 0.375%float = 0.38%float /\ Py.round2 1e300%float = 1e300%float.
Proof. repeat split; vm_compute; reflexivity. Qed.

Example float_of_large_int :
  Py.float_of_int (2 ^ 53 + 1) = Ok 9007199254740992%float /\
  Py.float_of_int (2 ^ 1024) = Raise OverflowError.
Proof. split; vm_compute; reflexivity. Qed.

Example low_stock_example :
  let d := mkDb [mkProduct 1 "Espresso" "Coffee" 2.5%float "" "" true;
                 mkProduct 2 "Latte" "Coffee" 3.5%float "" "" true;
                 mkProduct 3 "Mocha" "Coffee" 4%float "" "" true]
                [] [] []
                [mkInventory 1 1 9 10 100; mkInventory 2 2 40 10 100;
                 mkInventory 3 3 4 10 100] 0 0 in
  Inventory.get_low_stock_items d
  = [mkLowStock "Mocha" 4 10; mkLowStock "Espresso" 9 10].
Proof. reflexivity. Qed.
